(** * LTE band-selection engine: data logger and automation agent

    A shallow embedding of [data_logger.py] (class [DataLogger]) and of the
    decision logic of [ai_agent.py] (class [AIAutomationAgent]), with the
    properties of the design document stated and proved about it.

    Conventions of the embedding.
    - Python floats are read as exact rationals ([Q]); every finite float is
      one, and the arithmetic is carried out without rounding.  The one
      operation that leaves the rationals, the square root inside [np.std],
      is taken in [R].
    - A naive [datetime] is the number of microseconds since an arbitrary
      local midnight ([Z]); [hour] is then [(t / 3600e6) mod 24].
    - The two log files are modelled by their parsed content, not by their
      bytes.  A band cell that [pandas.read_csv] reads as missing (the empty
      cell and the other default NA spellings) is dropped by [groupby], as
      pandas does; band cells are otherwise text (a column made only of
      numerals, which pandas would read as numbers, is not covered).
    - The router is an oracle: a feed of answers to [get_signal_metrics] and
      a predicate telling which band commands it accepts.  Calls are recorded
      in a trace. *)

From Stdlib Require Import Floats.
From Stdlib Require Import ZArith QArith Qminmax Qround Qabs Lia List String Ascii Bool.
From Stdlib Require Import Reals Qreals Lra Lqa.
From Stdlib Require OrderedTypeEx.
From Stdlib Require Import Sorted.
Import ListNotations.

#[local] Set Warnings "-inexact-float".

Ltac qlra := Lqa.lra.
Ltac rlra := Lra.lra.

Local Open Scope Q_scope.

(** ** Python built-ins used by the source *)

(** [max(a, b)] returns [a] unless [b] is strictly greater. *)
Definition py_max (a b : Q) : Q := if Qle_bool b a then a else b.

(** [min(a, b)] returns [a] unless [b] is strictly smaller. *)
Definition py_min (a b : Q) : Q := if Qle_bool a b then a else b.

Definition Qlt_bool (a b : Q) : bool := negb (Qle_bool b a).

Definition Qsum (l : list Q) : Q := fold_right Qplus 0 l.

(** [np.mean] / [Series.mean] of a non-empty list. *)
Definition mean (l : list Q) : Q := Qsum l / inject_Z (Z.of_nat (List.length l)).

(** ** huawei_router.py: the sample type *)

Record SignalMetrics := mkSignalMetrics {
  timestamp : Z;
  band : string;
  rsrp : Q;
  rsrq : Q;
  sinr : Q;
  rssi : Q;
  cell_id : string;
  plmn : string
}.

Definition usec_per_hour : Z := 3600 * 1000000.

(** [datetime.hour] *)
Definition hour (t : Z) : Z := ((t / usec_per_hour) mod 24)%Z.

Inductive QualityClass := excellent | good | fair | poor.

Definition QualityClass_eqb (a b : QualityClass) : bool :=
  match a, b with
  | excellent, excellent | good, good | fair, fair | poor, poor => true
  | _, _ => false
  end.

(** The chain of comparisons shared by [_calculate_signal_quality] and
    [_get_signal_quality]. *)
Definition quality_level (quality_score : Q) : QualityClass :=
  if Qle_bool 0.8 quality_score then excellent
  else if Qle_bool 0.6 quality_score then good
  else if Qle_bool 0.4 quality_score then fair
  else poor.

(** ** Binary64 floats *)

(** The double nearest to a rational (ties to even), as [float(text)] gives
    it for a decimal text: the quotient of numerator and denominator,
    rounded once. *)
Definition SF_of_Z (z : Z) : spec_float :=
  match z with
  | Z0 => S754_zero false
  | Zpos p => S754_finite false p 0
  | Zneg p => S754_finite true p 0
  end.

Definition f64_of_Q (q : Q) : float :=
  SF2Prim (SFdiv prec emax (SF_of_Z (Qnum q)) (S754_finite false (Qden q) 0)).

(** [max(0, x)] and [min(1, x)] on a double: the first argument is returned
    unless the second is strictly beyond it (so also when [x] is NaN); the
    integer returned in that case multiplies like the double of the same
    value. *)
Definition f64_max0 (x : float) : float := if (0 <? x)%float then x else 0%float.
Definition f64_min1 (x : float) : float := if (x <? 1)%float then x else 1%float.

(** The chain of comparisons of the two quality methods, on a double. *)
Definition quality_level_f64 (quality_score : float) : QualityClass :=
  if (0.8 <=? quality_score)%float then excellent
  else if (0.6 <=? quality_score)%float then good
  else if (0.4 <=? quality_score)%float then fair
  else poor.

(** ** Log records and the two persisted files *)

(** One row of the CSV file, and one object of the JSON array: the fields of
    [csv_row] and of [json_record] in [log_metrics], which coincide. *)
Record LogRecord := mkLogRecord {
  rec_timestamp : Z;
  rec_band : string;
  rec_rsrp : Q;
  rec_rsrq : Q;
  rec_sinr : Q;
  rec_rssi : Q;
  rec_cell_id : string;
  rec_plmn : string;
  rec_signal_quality : QualityClass;
  rec_bandwidth_score : Q
}.

(** Content of the CSV file: whether its first line is the header written by
    [_init_csv_file], and the data rows after it.  A file created by
    [open(..., 'a')] has no header line. *)
Record CsvFile := mkCsvFile {
  has_header : bool;
  csv_rows : list LogRecord
}.

(** Content of the JSON file as [json.load] sees it: an array (of records),
    some other JSON value, text that raises [JSONDecodeError], or bytes that
    are not UTF-8, on which reading the file raises [UnicodeDecodeError]
    before anything is parsed. *)
Inductive JsonText :=
| JsonArray (data : list LogRecord)
| JsonOther
| JsonMalformed
| JsonUndecodable.

(** The files the logger touches; [None] is a path that does not exist.  The
    four paths are taken to be pairwise distinct. *)
Record Files := mkFiles {
  csv : option CsvFile;
  json : option JsonText;
  csv_backup : option CsvFile;
  json_backup : option JsonText
}.

(** What the operating system answers during one call: whether opening the
    CSV file for appending, reading the JSON file, rewriting the JSON file,
    or renaming a file raises. *)
Record Faults := mkFaults {
  csv_append_fails : bool;
  json_read_fails : bool;
  json_write_fails : bool;
  rename_fails : bool
}.

Definition no_faults : Faults := mkFaults false false false false.

(** A label of the band column after [pd.read_csv]: text, or NaN. *)
Inductive label := Name (s : string) | NaN.

(** Cells [read_csv] turns into NaN by default. *)
Definition na_values : list string :=
  [""; "#N/A"; "#N/A N/A"; "#NA"; "-1.#IND"; "-1.#QNAN"; "-NaN"; "-nan";
   "1.#IND"; "1.#QNAN"; "<NA>"; "N/A"; "NA"; "NULL"; "NaN"; "None"; "n/a";
   "nan"; "null"]%string.

Definition is_na (cell : string) : bool :=
  existsb (String.eqb cell) na_values.

Definition read_label (cell : string) : label :=
  if is_na cell then NaN else Name cell.

(** Truth value of a label in an [if]: the empty string is false, NaN (a
    non-zero float) is true. *)
Definition truthy (l : label) : bool :=
  match l with
  | Name s => negb (String.eqb s "")
  | NaN => true
  end.

(** [best != current_band], where [current_band] may be Python's [None]. *)
Definition label_differs (l : label) (current_band : option string) : bool :=
  match l, current_band with
  | Name s, Some c => negb (String.eqb s c)
  | _, _ => true
  end.

(** [str.endswith] *)
Definition endswith (s suffix : string) : bool :=
  let n := String.length s in
  let k := String.length suffix in
  (k <=? n)%nat && String.eqb (String.substring (n - k) k s) suffix.

(** ** pandas aggregation *)

(** Keys of a [groupby]: distinct, ascending, NaN left out. *)
Fixpoint insert_key (k : string) (ks : list string) : list string :=
  match ks with
  | [] => [k]
  | k' :: rest =>
      match String.compare k k' with
      | Lt => k :: ks
      | Eq => ks
      | Gt => k' :: insert_key k rest
      end
  end.

Definition group_keys (rows : list LogRecord) : list string :=
  fold_right (fun r acc => match read_label (rec_band r) with
                           | Name b => insert_key b acc
                           | NaN => acc
                           end) [] rows.

Definition rows_of_band (b : string) (rows : list LogRecord) : list LogRecord :=
  filter (fun r => String.eqb (rec_band r) b) rows.

(** [df.groupby('band')[column].agg(f)] for an aggregate [f] of the column. *)
Definition groupby_agg {A} (column : LogRecord -> Q) (f : list Q -> A)
    (rows : list LogRecord) : list (string * A) :=
  map (fun b => (b, f (map column (rows_of_band b rows)))) (group_keys rows).

(** [Series.idxmax] and [Series.idxmin]: the first key that carries the
    greatest (smallest) value. *)
Fixpoint argmax (s : list (string * Q)) : option (string * Q) :=
  match s with
  | [] => None
  | kv :: rest =>
      match argmax rest with
      | Some best => if Qlt_bool (snd kv) (snd best) then Some best else Some kv
      | None => Some kv
      end
  end.

Fixpoint argmin (s : list (string * Q)) : option (string * Q) :=
  match s with
  | [] => None
  | kv :: rest =>
      match argmin rest with
      | Some best => if Qlt_bool (snd best) (snd kv) then Some best else Some kv
      | None => Some kv
      end
  end.

(** [None] stands for the [ValueError] raised on an empty series. *)
Definition idxmax (s : list (string * Q)) : option string :=
  option_map fst (argmax s).

Definition idxmin (s : list (string * Q)) : option string :=
  option_map fst (argmin s).

(** Entries of a series that are not NaN. *)
Fixpoint dropna (s : list (string * option Q)) : list (string * Q) :=
  match s with
  | [] => []
  | (k, Some v) :: rest => (k, v) :: dropna rest
  | (_, None) :: rest => dropna rest
  end.

(** [idxmin] of a series that may hold NaN values, which are skipped; a
    non-empty series of NaN only yields NaN (pandas up to 2.x). *)
Definition idxmin_skipna (s : list (string * option Q)) : option label :=
  match s with
  | [] => None
  | _ :: _ =>
      match idxmin (dropna s) with
      | Some k => Some (Name k)
      | None => Some NaN
      end
  end.

(** Rounding to the nearest integer, ties to the even one ([np.round]). *)
Definition round_half_even (x : Q) : Z :=
  let f := Qfloor x in
  match Qcompare ((x - inject_Z f) * 2) 1 with
  | Lt => f
  | Gt => (f + 1)%Z
  | Eq => if Z.even f then f else (f + 1)%Z
  end.

(** [.round(2)] *)
Definition round2 (x : Q) : Q := inject_Z (round_half_even (x * 100)) / 100.

(** [round(sqrt v, 2)] for [0 <= v], computed exactly: [s] is the integer
    part of [200 * sqrt v]. *)
Definition round2_sqrt (v : Q) : Q :=
  let s := Z.sqrt (Qfloor (v * 40000)) in
  let k := (s / 2)%Z in
  let n := if Z.even s then k
           else if Qeq_bool (inject_Z (s * s)) (v * 40000)
                then (if Z.even k then k else (k + 1)%Z)
                else (k + 1)%Z in
  inject_Z n / 100.

(** Sample variance ([ddof=1]), defined from two values on. *)
Definition sample_variance (l : list Q) : option Q :=
  match l with
  | [] | [_] => None
  | _ =>
      let m := mean l in
      Some (Qsum (map (fun x => (x - m) * (x - m)) l)
            / inject_Z (Z.of_nat (List.length l) - 1))
  end.

(** [Series.std().round(2)]: NaN for a group of one row. *)
Definition std_round2 (l : list Q) : option Q :=
  option_map round2_sqrt (sample_variance l).

(** Order-preserving removal of duplicates ([Series.unique]). *)
Fixpoint unique_labels (seen : list label) (l : list label) : list label :=
  match l with
  | [] => []
  | x :: rest =>
      if existsb (fun y => match x, y with
                           | Name a, Name b => String.eqb a b
                           | NaN, NaN => true
                           | _, _ => false
                           end) seen
      then unique_labels seen rest
      else x :: unique_labels (x :: seen) rest
  end.

(** ** data_logger.py *)

Module DataLogger.

(** The object: the two paths chosen by [__init__]. *)
Record t := mk {
  csv_file : string;
  json_file : string
}.

(** [LOGGING_CONFIG] of config.py. *)
Definition LOGGING_CONFIG_csv_file : string := "lte_metrics.csv".
Definition LOGGING_CONFIG_log_file : string := "lte_metrics.json".

(** The header row of [_init_csv_file]; [has_header] tells whether a file
    starts with it. *)
Definition headers : list string :=
  ["timestamp"; "band"; "rsrp"; "rsrq"; "sinr"; "rssi";
   "cell_id"; "plmn"; "signal_quality"; "bandwidth_score"]%string.

Definition _init_csv_file (self : t) (fs : Files) : Files :=
  match csv fs with
  | None => mkFiles (Some (mkCsvFile true [])) (json fs) (csv_backup fs) (json_backup fs)
  | Some _ => fs
  end.

(** [x or default] on an optional path: [None] and the empty string fall
    back to the default. *)
Definition path_or (x : option string) (default : string) : string :=
  match x with
  | Some p => if String.eqb p "" then default else p
  | None => default
  end.

Definition __init__ (csv_file json_file : option string) (fs : Files) : t * Files :=
  let self := mk (path_or csv_file LOGGING_CONFIG_csv_file)
                 (path_or json_file LOGGING_CONFIG_log_file) in
  (self, _init_csv_file self fs).

Definition quality_score (metrics : SignalMetrics) : Q :=
  let rsrp_score := py_max 0 ((rsrp metrics + 140) / 60) in
  let rsrq_score := py_max 0 ((rsrq metrics + 25) / 15) in
  let sinr_score := py_max 0 ((sinr metrics + 10) / 30) in
  rsrp_score * 0.4 + rsrq_score * 0.3 + sinr_score * 0.3.

Definition _calculate_signal_quality (metrics : SignalMetrics) : QualityClass :=
  quality_level (quality_score metrics).

Definition _calculate_bandwidth_score (metrics : SignalMetrics) : Q :=
  let sinr_score := py_max 0 (py_min 1 ((sinr metrics + 10) / 30)) in
  let rsrp_score := py_max 0 (py_min 1 ((rsrp metrics + 140) / 60)) in
  sinr_score * 0.7 + rsrp_score * 0.3.

(** The same two methods as the machine evaluates them, in binary64, on the
    doubles the sample holds. *)
Definition quality_score_f64 (rsrp rsrq sinr : float) : float :=
  let rsrp_score := f64_max0 ((rsrp + 140) / 60) in
  let rsrq_score := f64_max0 ((rsrq + 25) / 15) in
  let sinr_score := f64_max0 ((sinr + 10) / 30) in
  (rsrp_score * 0.4 + rsrq_score * 0.3 + sinr_score * 0.3)%float.

Definition _calculate_signal_quality_f64 (metrics : SignalMetrics)
    : QualityClass :=
  quality_level_f64
    (quality_score_f64 (f64_of_Q (rsrp metrics)) (f64_of_Q (rsrq metrics))
       (f64_of_Q (sinr metrics))).

Definition bandwidth_score_f64 (sinr rsrp : float) : float :=
  let sinr_score := f64_max0 (f64_min1 ((sinr + 10) / 30)) in
  let rsrp_score := f64_max0 (f64_min1 ((rsrp + 140) / 60)) in
  (sinr_score * 0.7 + rsrp_score * 0.3)%float.

Definition _calculate_bandwidth_score_f64 (metrics : SignalMetrics) : float :=
  bandwidth_score_f64 (f64_of_Q (sinr metrics)) (f64_of_Q (rsrp metrics)).

(** [_append_to_json]: every exception is caught and logged inside, so the
    caller only gets the files back.  Only [JSONDecodeError] resets [data];
    a [UnicodeDecodeError] goes to the outer handler, and so does the error
    [data.append] raises on a JSON value that is not a list.  The file is
    rewritten only after that point. *)
Definition _append_to_json (self : t) (io : Faults) (fs : Files)
    (record : LogRecord) : Files :=
  let write (data : list LogRecord) :=
    if json_write_fails io then fs
    else mkFiles (csv fs) (Some (JsonArray (data ++ [record])))
                 (csv_backup fs) (json_backup fs) in
  match json fs with
  | None => write []
  | Some content =>
      if json_read_fails io then fs
      else match content with
           | JsonArray data => write data
           | JsonMalformed => write []
           | JsonOther => fs
           | JsonUndecodable => fs
           end
  end.

(** The record built by [log_metrics] from a sample. *)
Definition record_of (metrics : SignalMetrics) : LogRecord :=
  mkLogRecord (timestamp metrics) (band metrics) (rsrp metrics) (rsrq metrics)
    (sinr metrics) (rssi metrics) (cell_id metrics) (plmn metrics)
    (_calculate_signal_quality metrics) (_calculate_bandwidth_score metrics).

(** [open(csv_file, 'a')] followed by [writerow]: creates the file, without
    a header, when it does not exist. *)
Definition append_row (f : option CsvFile) (row : LogRecord) : CsvFile :=
  match f with
  | Some c => mkCsvFile (has_header c) (csv_rows c ++ [row])
  | None => mkCsvFile false [row]
  end.

Definition log_metrics (self : t) (io : Faults) (fs : Files)
    (metrics : SignalMetrics) : bool * Files :=
  let row := record_of metrics in
  if csv_append_fails io then (false, fs)
  else
    let fs1 := mkFiles (Some (append_row (csv fs) row)) (json fs)
                       (csv_backup fs) (json_backup fs) in
    (true, _append_to_json self io fs1 row).

(** [log_batch_metrics]: the result of each [log_metrics] is dropped. *)
Definition log_batch_metrics (self : t) (io : Faults) (fs : Files)
    (metrics_list : list SignalMetrics) : bool * Files :=
  (true, fold_left (fun fs m => snd (log_metrics self io fs m)) metrics_list fs).

(** The dictionary returned by [get_metrics_summary] when it is not empty
    (the constant ['time_range'] text is left out). *)
Record Summary := mkSummary {
  total_records : nat;
  bands_tested : list label;
  average_rsrp : Q;
  average_rsrq : Q;
  average_sinr : Q;
  average_rssi : Q;
  average_bandwidth_score : Q;
  signal_quality_distribution : list (QualityClass * nat);
  best_performing_band : string;
  worst_performing_band : string
}.

(** [value_counts().to_dict()]: the classes that occur, with their counts. *)
Definition value_counts (l : list QualityClass) : list (QualityClass * nat) :=
  filter (fun p => negb (Nat.eqb (snd p) 0))
    (map (fun c => (c, List.length (filter (QualityClass_eqb c) l)))
         [excellent; good; fair; poor]).

(** [datetime.isoformat()] writes the microseconds only when they are not
    zero, so the timestamp cells come in two spellings. *)
Definition has_fraction (t : Z) : bool := negb (t mod 1000000 =? 0)%Z.

(** Whether [pd.to_datetime] accepts the timestamp column (pandas 2 and
    later): the format is taken from the first row, and a row written in
    the other spelling raises [ValueError]. *)
Definition timestamps_parse (rows : list LogRecord) : bool :=
  match rows with
  | [] => true
  | first :: _ =>
      forallb (fun r => Bool.eqb (has_fraction (rec_timestamp r))
                                 (has_fraction (rec_timestamp first))) rows
  end.

(** Whether [pd.Timedelta(hours=hours)] can be built: the value is held as
    a signed 64-bit count of nanoseconds, and a larger one raises. *)
Definition Timedelta_in_bounds (hours : Z) : bool :=
  (Z.abs (hours * 3600 * 1000000000) <? 2 ^ 63)%Z.

(** Rows kept by [df[df['timestamp'] >= cutoff_time]]. *)
Definition recent (now : Z) (hours : Z) (rows : list LogRecord) : list LogRecord :=
  let cutoff_time := (now - hours * usec_per_hour)%Z in
  filter (fun r => (cutoff_time <=? rec_timestamp r)%Z) rows.

(** The column [recent_data['bandwidth_score']] of [get_metrics_summary]. *)
Definition recent_bandwidth_scores (fs : Files) (now : Z) (hours : Z) : list Q :=
  match csv fs with
  | Some f => map rec_bandwidth_score (recent now hours (csv_rows f))
  | None => []
  end.

(** [get_metrics_summary]; [now] is the reading of [datetime.now()] and
    [None] is the empty dictionary, returned when nothing is recent and when
    anything raises: a missing file, a file without the header line (no
    ['timestamp'] column), a timestamp column [pd.to_datetime] refuses, a
    window [pd.Timedelta] cannot hold, [idxmax] over no group at all. *)
Definition get_metrics_summary (self : t) (fs : Files) (now : Z) (hours : Z)
    : option Summary :=
  match csv fs with
  | None => None
  | Some f =>
      if negb (has_header f) then None
      else if negb (timestamps_parse (csv_rows f)) then None
      else if negb (Timedelta_in_bounds hours) then None
      else
        let recent_data := recent now hours (csv_rows f) in
        match recent_data with
        | [] => None
        | _ :: _ =>
            let by_band := groupby_agg rec_bandwidth_score mean recent_data in
            match idxmax by_band, idxmin by_band with
            | Some best, Some worst =>
                Some (mkSummary
                        (List.length recent_data)
                        (unique_labels [] (map (fun r => read_label (rec_band r)) recent_data))
                        (mean (map rec_rsrp recent_data))
                        (mean (map rec_rsrq recent_data))
                        (mean (map rec_sinr recent_data))
                        (mean (map rec_rssi recent_data))
                        (mean (map rec_bandwidth_score recent_data))
                        (value_counts (map rec_signal_quality recent_data))
                        best worst)
            | _, _ => None
            end
        end
  end.

(** One row of the frame returned by [export_band_comparison], with the
    columns the agent reads and the mean score; the remaining columns
    (mean, std, min and max of each metric, the modal quality) are computed
    alike and read by nobody in the agent. *)
Record BandStats := mkBandStats {
  stats_band : string;
  sinr_mean : Q;
  bandwidth_score_mean : Q;
  bandwidth_score_std : option Q
}.

(** [export_band_comparison]: statistics per band over the whole file, each
    rounded to two decimals; [None] when reading the file or converting its
    timestamp column raises.  The copy written to [output_file] is not
    modelled. *)
Definition export_band_comparison (self : t) (fs : Files) : option (list BandStats) :=
  match csv fs with
  | None => None
  | Some f =>
      if negb (has_header f) then None
      else if negb (timestamps_parse (csv_rows f)) then None
      else
        let df := csv_rows f in
        Some (map (fun b =>
                     let g := rows_of_band b df in
                     mkBandStats b
                       (round2 (mean (map rec_sinr g)))
                       (round2 (mean (map rec_bandwidth_score g)))
                       (std_round2 (map rec_bandwidth_score g)))
                  (group_keys df))
  end.

Section Sizes.

(** [os.path.getsize] of a file, in bytes, as a function of its content:
    the text of the files is not modelled. *)
Variable csv_size : CsvFile -> Z.
Variable json_size : JsonText -> Z.

(** [size_mb > max_size_mb] *)
Definition exceeds (size : Z) (max_size_mb : Q) : bool :=
  Qlt_bool max_size_mb (inject_Z size / inject_Z (1024 * 1024)).

(** The body of the loop of [cleanup_old_logs] for [file_path = csv_file]
    and for [file_path = json_file].  [None] is an exception raised by
    [os.rename]; a successful [os.rename] replaces an existing backup. *)
Definition cleanup_csv_file (self : t) (io : Faults) (max_size_mb : Q)
    (fs : Files) : option Files :=
  match csv fs with
  | Some f =>
      if exceeds (csv_size f) max_size_mb then
        if rename_fails io then None
        else
          let fs1 := mkFiles None (json fs) (Some f) (json_backup fs) in
          Some (if endswith (csv_file self) ".csv" then _init_csv_file self fs1
                else fs1)
      else Some fs
  | None => Some fs
  end.

Definition cleanup_json_file (self : t) (io : Faults) (max_size_mb : Q)
    (fs : Files) : option Files :=
  match json fs with
  | Some j =>
      if exceeds (json_size j) max_size_mb then
        if rename_fails io then None
        else
          let fs1 := mkFiles (csv fs) None (csv_backup fs) (Some j) in
          Some (if endswith (json_file self) ".csv" then _init_csv_file self fs1
                else fs1)
      else Some fs
  | None => Some fs
  end.

(** [cleanup_old_logs]: the two turns of the loop; an exception ends it and
    is logged, what was done before stays done. *)
Definition cleanup_old_logs (self : t) (io : Faults) (max_size_mb : Q)
    (fs : Files) : Files :=
  match cleanup_csv_file self io max_size_mb fs with
  | None => fs
  | Some fs1 =>
      match cleanup_json_file self io max_size_mb fs1 with
      | None => fs1
      | Some fs2 => fs2
      end
  end.

End Sizes.

End DataLogger.

(** ** config.py *)

(** A named period of ['peak_hours']: two texts of the form [HH:MM]. *)
Record Period := mkPeriod {
  period_start : string;
  period_end : string
}.

Record MonitoringConfig := mkMonitoringConfig {
  measurement_interval : Z;
  band_test_duration : Z;
  auto_switch_threshold : Q;
  peak_hours : list (string * Period)
}.

Definition MONITORING_CONFIG : MonitoringConfig :=
  mkMonitoringConfig 30 300 0.8
    [("morning", mkPeriod "07:00" "09:00");
     ("evening", mkPeriod "17:00" "19:00")]%string.

(** [s.split(':')[0]]: the text before the first colon. *)
Fixpoint split_colon_head (s : string) : string :=
  match s with
  | EmptyString => EmptyString
  | String c rest =>
      if Ascii.eqb c ":" then EmptyString else String c (split_colon_head rest)
  end.

Definition digit_of (c : ascii) : option Z :=
  let n := Z.of_N (N_of_ascii c) in
  if ((48 <=? n) && (n <=? 57))%Z then Some (n - 48)%Z else None.

(** The characters [int] skips around a numeral.  A text is a sequence of
    code points below 256; among these the blanks are tab, line feed,
    vertical tab, form feed, carriage return, space, next line (133) and
    the no-break space (160). *)
Definition is_space (c : ascii) : bool :=
  let n := Z.of_N (N_of_ascii c) in
  (((9 <=? n) && (n <=? 13)) || (n =? 32) || (n =? 133) || (n =? 160))%Z.

Fixpoint lstrip (s : string) : string :=
  match s with
  | EmptyString => EmptyString
  | String c rest => if is_space c then lstrip rest else s
  end.

Fixpoint all_space (s : string) : bool :=
  match s with
  | EmptyString => true
  | String c rest => is_space c && all_space rest
  end.

(** The digits of a numeral: single underscores may stand between two
    digits, and only blanks may follow the last digit.  The result is the
    value and the number of digits read. *)
Fixpoint int_digits (s : string) (acc : Z) (count : Z) (after_digit : bool)
    : option (Z * Z) :=
  match s with
  | EmptyString => if after_digit then Some (acc, count) else None
  | String c rest =>
      match digit_of c with
      | Some d => int_digits rest (acc * 10 + d)%Z (count + 1)%Z true
      | None =>
          if Ascii.eqb c "_" then
            if after_digit then int_digits rest acc count false else None
          else if after_digit && all_space s then Some (acc, count)
          else None
      end
  end.

(** [sys.get_int_max_str_digits()], as shipped. *)
Definition int_max_str_digits : Z := 4300.

(** [int(s)] in base ten; [None] is [ValueError].  Blanks around the numeral
    are skipped, one sign may precede the digits, leading zeros are allowed,
    and a numeral of more than [int_max_str_digits] digits is refused. *)
Definition py_int (s : string) : option Z :=
  let s1 := lstrip s in
  let (negative, s2) :=
    match s1 with
    | String c rest =>
        if Ascii.eqb c "+" then (false, rest)
        else if Ascii.eqb c "-" then (true, rest)
        else (false, s1)
    | EmptyString => (false, s1)
    end in
  match int_digits s2 0 0 false with
  | Some (v, n) =>
      if (n <=? int_max_str_digits)%Z
      then Some (if negative then (- v)%Z else v)
      else None
  | None => None
  end.

(** ** huawei_router.py: the router seen from the agent *)

Inductive Event :=
| GetSignal
| SetBand (l : label)
| SmartSwitch.

(** The agent's surroundings: the files, the answers the router will give
    to [get_signal_metrics] (in order; [None] is a failed request, and so is
    every request after the feed is used up), the band commands it accepts,
    and the calls made so far, oldest first. *)
Record World := mkWorld {
  files : Files;
  feed : list (option SignalMetrics);
  accepts : label -> bool;
  trace : list Event
}.

Module HuaweiRouter.

Definition get_signal_metrics (w : World) : option SignalMetrics * World :=
  match feed w with
  | [] => (None, mkWorld (files w) [] (accepts w) (trace w ++ [GetSignal]))
  | answer :: rest =>
      (answer, mkWorld (files w) rest (accepts w) (trace w ++ [GetSignal]))
  end.

Definition set_lte_band (w : World) (b : label) : bool * World :=
  (accepts w b, mkWorld (files w) (feed w) (accepts w) (trace w ++ [SetBand b])).

End HuaweiRouter.

(** ** ai_agent.py *)

(** Population variance, the quantity under the root in [np.std]. *)
Definition pvariance (l : list Q) : Q :=
  let m := mean l in
  Qsum (map (fun x => (x - m) * (x - m)) l) / inject_Z (Z.of_nat (List.length l)).

(** [np.std] *)
Definition np_std (l : list Q) : R := sqrt (Q2R (pvariance l)).

Record BandPerformance := mkBandPerformance {
  perf_band : string;
  avg_rsrp : Q;
  avg_rsrq : Q;
  avg_sinr : Q;
  avg_bandwidth_score : Q;
  stability_score : R;
  peak_performance : Q;
  off_peak_performance : Q
}.

Module AIAutomationAgent.

Record t := mk {
  data_logger : DataLogger.t;
  current_best_band : option string;
  auto_switch_enabled : bool
}.

(** The list [peak_hours] local to [_analyze_band_performance]. *)
Definition analysis_peak_hours : list Z := [7; 8; 9; 17; 18; 19]%Z.

Definition in_hours (hs : list Z) (h : Z) : bool := existsb (Z.eqb h) hs.

Definition _analyze_band_performance (band : string)
    (metrics_list : list SignalMetrics) : BandPerformance :=
  match metrics_list with
  | [] => mkBandPerformance band 0 0 0 0 0%R 0 0
  | _ :: _ =>
      let avg_rsrp := mean (map rsrp metrics_list) in
      let avg_rsrq := mean (map rsrq metrics_list) in
      let avg_sinr := mean (map sinr metrics_list) in
      let bandwidth_scores :=
        map (fun metrics =>
               let sinr_score := py_max 0 (py_min 1 ((sinr metrics + 10) / 30)) in
               let rsrp_score := py_max 0 (py_min 1 ((rsrp metrics + 140) / 60)) in
               sinr_score * 0.7 + rsrp_score * 0.3) metrics_list in
      let avg_bandwidth_score := mean bandwidth_scores in
      let stability_score := (1 - np_std bandwidth_scores)%R in
      let peak_metrics :=
        filter (fun m => in_hours analysis_peak_hours (hour (timestamp m)))
               metrics_list in
      let off_peak_metrics :=
        filter (fun m => negb (in_hours analysis_peak_hours (hour (timestamp m))))
               metrics_list in
      let peak_performance :=
        match peak_metrics with
        | [] => 0
        | _ :: _ => mean (map sinr peak_metrics)
        end in
      let off_peak_performance :=
        match off_peak_metrics with
        | [] => 0
        | _ :: _ => mean (map sinr off_peak_metrics)
        end in
      mkBandPerformance band avg_rsrp avg_rsrq avg_sinr avg_bandwidth_score
        stability_score peak_performance off_peak_performance
  end.

Definition _calculate_current_score (metrics : SignalMetrics) : Q :=
  let sinr_score := py_max 0 (py_min 1 ((sinr metrics + 10) / 30)) in
  let rsrp_score := py_max 0 (py_min 1 ((rsrp metrics + 140) / 60)) in
  sinr_score * 0.7 + rsrp_score * 0.3.

Definition quality_score (metrics : SignalMetrics) : Q :=
  let rsrp_score := py_max 0 ((rsrp metrics + 140) / 60) in
  let rsrq_score := py_max 0 ((rsrq metrics + 25) / 15) in
  let sinr_score := py_max 0 ((sinr metrics + 10) / 30) in
  rsrp_score * 0.4 + rsrq_score * 0.3 + sinr_score * 0.3.


(** The two methods as the machine evaluates them, in binary64. *)
Definition _calculate_current_score_f64 (metrics : SignalMetrics) : float :=
  let sinr := f64_of_Q (sinr metrics) in
  let rsrp := f64_of_Q (rsrp metrics) in
  let sinr_score := f64_max0 (f64_min1 ((sinr + 10) / 30)) in
  let rsrp_score := f64_max0 (f64_min1 ((rsrp + 140) / 60)) in
  (sinr_score * 0.7 + rsrp_score * 0.3)%float.

Definition _get_signal_quality_f64 (metrics : SignalMetrics) : QualityClass :=
  let rsrp := f64_of_Q (rsrp metrics) in
  let rsrq := f64_of_Q (rsrq metrics) in
  let sinr := f64_of_Q (sinr metrics) in
  let rsrp_score := f64_max0 ((rsrp + 140) / 60) in
  let rsrq_score := f64_max0 ((rsrq + 25) / 15) in
  let sinr_score := f64_max0 ((sinr + 10) / 30) in
  quality_level_f64 (rsrp_score * 0.4 + rsrq_score * 0.3 + sinr_score * 0.3)%float.

(** [self.router.get_signal_metrics().band if self.router.get_signal_metrics()
    else None]: the condition is one request, the value a second one.  The
    outer [None] is the [AttributeError] raised when the second request
    fails after the first succeeded. *)
Definition current_band_twice (w : World) : option (option string) * World :=
  let (probe, w1) := HuaweiRouter.get_signal_metrics w in
  match probe with
  | None => (Some None, w1)
  | Some _ =>
      let (answer, w2) := HuaweiRouter.get_signal_metrics w1 in
      match answer with
      | Some m => (Some (Some (band m)), w2)
      | None => (None, w2)
      end
  end.

(** [current_metrics.band if current_metrics else None], one request. *)
Definition current_band_once (w : World) : option string * World :=
  let (current_metrics, w1) := HuaweiRouter.get_signal_metrics w in
  (option_map band current_metrics, w1).

(** The final test common to the three switching methods. *)
Definition switch_if_different (w : World) (best : label)
    (current_band : option string) : World :=
  if truthy best && label_differs best current_band
  then snd (HuaweiRouter.set_lte_band w best)
  else w.

(** [_smart_band_switch]; entering it is recorded in the trace. *)
Definition _smart_band_switch (self : t) (w : World) (now : Z) : World :=
  let w0 := mkWorld (files w) (feed w) (accepts w) (trace w ++ [SmartSwitch]) in
  match DataLogger.get_metrics_summary (data_logger self) (files w0) now 6 with
  | None => w0
  | Some summary =>
      let best_band := Name (DataLogger.best_performing_band summary) in
      match current_band_twice w0 with
      | (None, w2) => w2
      | (Some current_band, w2) => switch_if_different w2 best_band current_band
      end
  end.

(** [_check_band_switch] *)
Definition _check_band_switch (self : t) (cfg : MonitoringConfig) (w : World)
    (now : Z) (current_metrics : SignalMetrics) : World :=
  match DataLogger.get_metrics_summary (data_logger self) (files w) now 1 with
  | None => w
  | Some summary =>
      let current_score := _calculate_current_score current_metrics in
      let historical_avg := DataLogger.average_bandwidth_score summary in
      let degradation_threshold := auto_switch_threshold cfg in
      if Qlt_bool current_score (historical_avg * degradation_threshold)
      then _smart_band_switch self w now
      else w
  end.

(** The guarded call of the monitoring loop:
    [if self.auto_switch_enabled: self._check_band_switch(metrics)]. *)
Definition on_sample (self : t) (cfg : MonitoringConfig) (w : World)
    (now : Z) (metrics : SignalMetrics) : World :=
  if auto_switch_enabled self then _check_band_switch self cfg w now metrics
  else w.

Section Binary64.

(** [recent_data['bandwidth_score'].mean()] as a double: what pandas returns
    for a column whose cells hold the given decimal values.  How the cells
    are read back and in which order they are added is left open. *)
Variable series_mean : list Q -> float.

(** [_check_band_switch] with the comparison carried out as the machine
    does it: the score of the sample, the mean of the summary and the
    threshold are doubles, and so is their product. *)
Definition _check_band_switch_f64 (self : t) (cfg : MonitoringConfig)
    (w : World) (now : Z) (current_metrics : SignalMetrics) : World :=
  match DataLogger.get_metrics_summary (data_logger self) (files w) now 1 with
  | None => w
  | Some summary =>
      let current_score := _calculate_current_score_f64 current_metrics in
      let historical_avg :=
        series_mean (DataLogger.recent_bandwidth_scores (files w) now 1) in
      let degradation_threshold := f64_of_Q (auto_switch_threshold cfg) in
      if (current_score <? historical_avg * degradation_threshold)%float
      then _smart_band_switch self w now
      else w
  end.

Definition on_sample_f64 (self : t) (cfg : MonitoringConfig) (w : World)
    (now : Z) (metrics : SignalMetrics) : World :=
  if auto_switch_enabled self then _check_band_switch_f64 self cfg w now metrics
  else w.

End Binary64.

(** One turn of [monitor_loop]; the status line it prints is left out. *)
Definition monitor_loop_body (self : t) (cfg : MonitoringConfig) (io : Faults)
    (w : World) (now : Z) : World :=
  let (metrics, w1) := HuaweiRouter.get_signal_metrics w in
  match metrics with
  | Some m =>
      let fs := snd (DataLogger.log_metrics (data_logger self) io (files w1) m) in
      on_sample self cfg (mkWorld fs (feed w1) (accepts w1) (trace w1)) now m
  | None => w1
  end.

(** The loop of [optimize_for_peak_hours] over the configured periods, with
    its [break]; [None] is the [ValueError] of a malformed hour. *)
Fixpoint is_peak_hour (periods : list (string * Period)) (current_hour : Z)
    : option bool :=
  match periods with
  | [] => Some false
  | (_, period) :: rest =>
      match py_int (split_colon_head (period_start period)),
            py_int (split_colon_head (period_end period)) with
      | Some start_hour, Some end_hour =>
          if ((start_hour <=? current_hour) && (current_hour <=? end_hour))%Z
          then Some true
          else is_peak_hour rest current_hour
      | _, _ => None
      end
  end.

Definition _switch_to_peak_optimized_band (self : t) (w : World) : World :=
  match DataLogger.export_band_comparison (data_logger self) (files w) with
  | None | Some [] => w
  | Some band_comparison =>
      match idxmax (map (fun s => (DataLogger.stats_band s, DataLogger.sinr_mean s))
                        band_comparison) with
      | None => w
      | Some best_peak_band =>
          let (current_band, w1) := current_band_once w in
          switch_if_different w1 (Name best_peak_band) current_band
      end
  end.

Definition _switch_to_stability_optimized_band (self : t) (w : World) : World :=
  match DataLogger.export_band_comparison (data_logger self) (files w) with
  | None | Some [] => w
  | Some band_comparison =>
      match idxmin_skipna
              (map (fun s => (DataLogger.stats_band s, DataLogger.bandwidth_score_std s))
                   band_comparison) with
      | None => w
      | Some best_stable_band =>
          let (current_band, w1) := current_band_once w in
          switch_if_different w1 best_stable_band current_band
      end
  end.

(** [optimize_for_peak_hours]; [now] is the reading of [datetime.now()]. *)
Definition optimize_for_peak_hours (self : t) (cfg : MonitoringConfig)
    (w : World) (now : Z) : World :=
  let current_hour := hour now in
  match is_peak_hour (peak_hours cfg) current_hour with
  | None => w
  | Some true => _switch_to_peak_optimized_band self w
  | Some false => _switch_to_stability_optimized_band self w
  end.

End AIAutomationAgent.

(** ** The formulas of the design document, for comparison *)

Module Spec.

Definition clamp01 (x : Q) : Q := Qmax 0 (Qmin 1 x).
Definition clamp0 (x : Q) : Q := Qmax 0 x.

Definition bandwidthScore (sinr rsrp : Q) : Q :=
  0.7 * clamp01 ((sinr + 10) / 30) + 0.3 * clamp01 ((rsrp + 140) / 60).

Definition qualityScore (rsrp rsrq sinr : Q) : Q :=
  0.4 * clamp0 ((rsrp + 140) / 60) + 0.3 * clamp0 ((rsrq + 25) / 15)
  + 0.3 * clamp0 ((sinr + 10) / 30).

(** Hours of the day counted as peak by the band analysis. *)
Definition peak_hour_of_day (h : Z) : bool :=
  ((h =? 7) || (h =? 8) || (h =? 9) || (h =? 17) || (h =? 18) || (h =? 19))%Z.

(** Mean SINR of a set of samples, 0 for the empty set. *)
Definition mean_sinr_or_zero (l : list SignalMetrics) : Q :=
  match l with
  | [] => 0
  | _ :: _ => mean (map sinr l)
  end.

End Spec.

(** ** Sample data used in the examples below *)

(** A sample with the given time, band and radio figures. *)
Definition sample (t : Z) (b : string) (sinr rsrp : Q) : SignalMetrics :=
  mkSignalMetrics t b rsrp (-12) sinr (-70) "cell-1" "60301".

(** Two samples of one band, one taken at 08:00 and one at 12:00. *)
Definition two_samples : list SignalMetrics :=
  [sample (8 * usec_per_hour) "B3" 15 (-85);
   sample (12 * usec_per_hour) "B3" 5 (-100)].

(** ** Notions used in the statements *)

(** The records held by the CSV file (none when it does not exist) and by
    the JSON file ([None] when it does not hold an array). *)
Definition csv_records (fs : Files) : list LogRecord :=
  match csv fs with
  | Some c => csv_rows c
  | None => []
  end.

Definition json_records (fs : Files) : option (list LogRecord) :=
  match json fs with
  | None => Some []
  | Some (JsonArray data) => Some data
  | Some _ => None
  end.

(** Both representations reflect the same samples. *)
Definition same_sample_set (fs : Files) : Prop :=
  json_records fs = Some (csv_records fs).

(** The logger built with the default paths, on an empty directory. *)
Definition logger : DataLogger.t := fst (DataLogger.__init__ None None (mkFiles None None None None)).
Definition fresh_files : Files := snd (DataLogger.__init__ None None (mkFiles None None None None)).

Definition first_sample : SignalMetrics := sample (8 * usec_per_hour) "B3" 15 (-85).
Definition second_sample : SignalMetrics :=
  sample (8 * usec_per_hour + 30 * 1000000) "B3" 14 (-86).

(** The files after one sample has been logged without any error. *)
Definition files_after_one : Files :=
  snd (DataLogger.log_metrics logger no_faults fresh_files first_sample).


(** Rewriting the JSON file fails (disk full, permission lost). *)
Definition json_write_error : Faults := mkFaults false false true false.



(** A size model for the examples: 80 bytes of header, 90 bytes a row; two
    brackets and 260 bytes a record for the JSON array. *)
Definition example_csv_size (f : CsvFile) : Z :=
  ((if has_header f then 80 else 0) + 90 * Z.of_nat (List.length (csv_rows f)))%Z.

Definition example_json_size (j : JsonText) : Z :=
  match j with
  | JsonArray data => (2 + 260 * Z.of_nat (List.length data))%Z
  | _ => 2%Z
  end.

(** A CSV log of 11649 rows, 1048490 bytes in the size model: ten bytes
    short of one mebibyte beyond the header. *)
Definition long_log : Files :=
  mkFiles (Some (mkCsvFile true
                   (repeat (DataLogger.record_of first_sample) (Z.to_nat 11649))))
          None None None.

(** Mean of the stored bandwidth scores of one band. *)
Definition mean_score (b : string) (rows : list LogRecord) : Q :=
  mean (map rec_bandwidth_score (rows_of_band b rows)).



(** The agent as [__init__] leaves it: automatic switching on. *)
Definition agent : AIAutomationAgent.t := AIAutomationAgent.mk logger None true.

(** Ten samples (SINR 15, RSRP -85) on B3 followed by ten samples (SINR 5,
    RSRP -100) on B7, thirty seconds apart from 08:00 on. *)
Definition spaced (b : string) (sinr rsrp : Q) (first : nat) (n : nat)
    : list SignalMetrics :=
  map (fun i => sample (8 * usec_per_hour + Z.of_nat i * 30000000) b sinr rsrp)
      (seq first n).

Definition scenario_samples : list SignalMetrics :=
  spaced "B3" 15 (-85) 0 10 ++ spaced "B7" 5 (-100) 10 10.

(** The world one hour later: the samples are in the log, the router reports
    B7 and accepts every command, nothing has been called yet. *)
Definition scenario_world : World :=
  mkWorld (snd (DataLogger.log_batch_metrics logger no_faults fresh_files
                  scenario_samples))
          [Some (sample (9 * usec_per_hour) "B7" 5 (-100));
           Some (sample (9 * usec_per_hour) "B7" 5 (-100))]
          (fun _ => true) [].

(** A history for the peak-hour optimisation: on the day before, B3 had
    SINR 5 at 08:00 and 25 at 12:00, B7 had SINR 10 at both hours. *)
Definition b3_history : list SignalMetrics :=
  [sample (8 * usec_per_hour) "B3" 5 (-85);
   sample (12 * usec_per_hour) "B3" 25 (-85)].

Definition b7_history : list SignalMetrics :=
  [sample (8 * usec_per_hour + 1000000) "B7" 10 (-85);
   sample (12 * usec_per_hour + 1000000) "B7" 10 (-85)].

(** 08:00 on the next day, the router on B7. *)
Definition peak_query_time : Z := 32 * usec_per_hour.

Definition peak_world : World :=
  mkWorld (snd (DataLogger.log_batch_metrics logger no_faults fresh_files
                  (b3_history ++ b7_history)))
          [Some (sample peak_query_time "B7" 10 (-85))]
          (fun _ => true) [].



(** ** Further notions used in the statements *)

(** The quality classes from worst to best. *)
Definition class_rank (c : QualityClass) : Z :=
  match c with
  | poor => 0
  | fair => 1
  | good => 2
  | excellent => 3
  end%Z.


(** The start and end hour the peak test reads from a period, when both
    parse. *)
Definition period_hours (p : Period) : option (Z * Z) :=
  match py_int (split_colon_head (period_start p)),
        py_int (split_colon_head (period_end p)) with
  | Some start_hour, Some end_hour => Some (start_hour, end_hour)
  | _, _ => None
  end.

(** A text without colon. *)
Fixpoint colon_free (s : string) : bool :=
  match s with
  | EmptyString => true
  | String c rest => negb (Ascii.eqb c ":") && colon_free rest
  end.

(** ** ai_agent.py: the schedule *)

(** [schedule_optimization]: the times of day at which
    [optimize_for_peak_hours] is registered, first the two the source calls
    peak hour optimization, then the two it calls off-peak optimization. *)
Definition scheduled_peak_times : list string := ["07:00"; "17:00"]%string.
Definition scheduled_off_peak_times : list string := ["10:00"; "20:00"]%string.

(** The reading of [datetime.now().hour] when a job registered at [at_time]
    runs (the scheduler looks every minute, so within the same hour). *)
Definition hour_of_schedule (at_time : string) : option Z :=
  py_int (split_colon_head at_time).

(** ** huawei_router.py and ai_agent.py: testing the bands *)

(** The names of [LTE_BANDS] in config.py, in order. *)
Definition LTE_BANDS_keys : list string :=
  ["Band 1"; "Band 3"; "Band 7"; "Band 8"; "Band 20"; "Band 28"; "Band 38";
   "Band 40"]%string.

(** [HuaweiRouter.get_available_bands], as a function of what the router
    answers: [None] is a failed request or a status other than 200,
    [Some None] a reply without the key ['bands'], [Some (Some l)] a reply
    that lists [l]. *)
Definition get_available_bands (answer : option (option (list string)))
    : list string :=
  match answer with
  | Some (Some bands) => bands
  | _ => LTE_BANDS_keys
  end.

(** [metrics.band = band] *)
Definition with_band (metrics : SignalMetrics) (b : string) : SignalMetrics :=
  mkSignalMetrics (timestamp metrics) b (rsrp metrics) (rsrq metrics)
    (sinr metrics) (rssi metrics) (cell_id metrics) (plmn metrics).

(** The loop of [HuaweiRouter.test_band_performance].  [clock] holds the
    readings of [time.time()] to come, in seconds, one for each test of the
    loop condition; the pause between two turns only shows in them.  [None]
    means that the readings given do not reach the end of the test. *)
Fixpoint measure_loop (b : string) (start_time duration : Q) (clock : list Q)
    (w : World) (metrics_list : list SignalMetrics)
    : option (list SignalMetrics * World * list Q) :=
  match clock with
  | [] => None
  | t :: clock' =>
      if Qlt_bool (t - start_time) duration then
        let (metrics, w1) := HuaweiRouter.get_signal_metrics w in
        measure_loop b start_time duration clock' w1
          (match metrics with
           | Some m => metrics_list ++ [with_band m b]
           | None => metrics_list
           end)
      else Some (metrics_list, w, clock')
  end.

(** [HuaweiRouter.test_band_performance]: the samples, the world and the
    readings of the clock left over. *)
Definition test_band_performance (w : World) (b : string) (duration : Q)
    (clock : list Q) : option (list SignalMetrics * World * list Q) :=
  let (ok, w1) := HuaweiRouter.set_lte_band w (Name b) in
  if ok then
    match clock with
    | [] => None
    | start_time :: clock' => measure_loop b start_time duration clock' w1 []
    end
  else Some ([], w1, clock).

(** [d[k] = v] on a dictionary kept in insertion order. *)
Fixpoint dict_set {A} (d : list (string * A)) (k : string) (v : A)
    : list (string * A) :=
  match d with
  | [] => [(k, v)]
  | (k', v') :: rest =>
      if String.eqb k' k then (k', v) :: rest
      else (k', v') :: dict_set rest k v
  end.

(** The loop of [AIAutomationAgent.test_all_bands] over the available
    bands. *)
Fixpoint test_bands_loop (self : AIAutomationAgent.t) (io : Faults)
    (duration_per_band : Q) (bands : list string) (w : World) (clock : list Q)
    (band_results : list (string * BandPerformance))
    : option (list (string * BandPerformance) * World * list Q) :=
  match bands with
  | [] => Some (band_results, w, clock)
  | b :: rest =>
      match test_band_performance w b duration_per_band clock with
      | None => None
      | Some (metrics_list, w1, clock1) =>
          match metrics_list with
          | [] =>
              test_bands_loop self io duration_per_band rest w1 clock1
                band_results
          | _ :: _ =>
              let fs := snd (DataLogger.log_batch_metrics
                               (AIAutomationAgent.data_logger self) io
                               (files w1) metrics_list) in
              let performance :=
                AIAutomationAgent._analyze_band_performance b metrics_list in
              test_bands_loop self io duration_per_band rest
                (mkWorld fs (feed w1) (accepts w1) (trace w1)) clock1
                (dict_set band_results b performance)
          end
      end
  end.

(** [AIAutomationAgent.test_all_bands]: the results, the agent with its best
    band updated, the world and the clock readings left over.  [max] over
    the keys returns the first key that carries the greatest mean score. *)
Definition test_all_bands (self : AIAutomationAgent.t) (io : Faults)
    (answer : option (option (list string))) (duration_per_band : Q)
    (w : World) (clock : list Q)
    : option (list (string * BandPerformance) * AIAutomationAgent.t
              * World * list Q) :=
  let available_bands := get_available_bands answer in
  match test_bands_loop self io duration_per_band available_bands w clock []
  with
  | None => None
  | Some (band_results, w', clock') =>
      let self' :=
        match band_results with
        | [] => self
        | _ :: _ =>
            AIAutomationAgent.mk (AIAutomationAgent.data_logger self)
              (idxmax (map (fun kv => (fst kv, avg_bandwidth_score (snd kv)))
                           band_results))
              (AIAutomationAgent.auto_switch_enabled self)
        end in
      Some (band_results, self', w', clock')
  end.

(** A test of two bands, one minute each: the router answers four times,
    always naming the band [Unknown]; on the first band the signal is the
    stronger one. *)
Definition test_feed : list (option SignalMetrics) :=
  [Some (sample (8 * usec_per_hour) "Unknown" 15 (-85));
   Some (sample (8 * usec_per_hour + 30000000) "Unknown" 14 (-86));
   Some (sample (8 * usec_per_hour + 70000000) "Unknown" 5 (-100));
   Some (sample (8 * usec_per_hour + 100000000) "Unknown" 6 (-101))].

Definition test_clock : list Q := [0; 0; 30; 60; 70; 70; 100; 130].

Definition test_world : World := mkWorld fresh_files test_feed (fun _ => true) [].

(** ** Notions about rounding *)

(** The value of a finite double. *)
Definition Q_of_f64 (x : float) : Q :=
  match Prim2SF x with
  | S754_finite s m e =>
      let v := if (0 <=? e)%Z then inject_Z (Zpos m * 2 ^ e)
               else Zpos m # (2 ^ Z.to_pos (- e)) in
      if s then - v else v
  | _ => 0
  end.

(** A sample whose three readings are whole numbers of decibels. *)
Definition whole_readings (a b c : Z) : SignalMetrics :=
  mkSignalMetrics 0 "" (inject_Z a) (inject_Z b) (inject_Z c) 0 "" "".

Definition zrange (lo hi : Z) : list Z :=
  map (fun i => (lo + Z.of_nat i)%Z) (seq 0 (Z.to_nat (hi - lo + 1))).

(** A score that sits exactly on one of the three class thresholds. *)
Definition at_class_boundary (s : Q) : bool :=
  Qeq_bool s 0.8 || Qeq_bool s 0.6 || Qeq_bool s 0.4.

(** For readings [a], [b], [c] held as the doubles [fa], [fb], [fc]: the
    computed score is within [2^-50] of the exact one, and the class of the
    computed score is that of the exact score, or the class below when the
    exact score sits on a threshold. *)
Definition rounding_is_harmless (a b c : Z) (fa fb fc : float) : bool :=
  let q := Spec.qualityScore (inject_Z a) (inject_Z b) (inject_Z c) in
  let s := DataLogger.quality_score_f64 fa fb fc in
  let e := class_rank (quality_level q) in
  let f := class_rank (quality_level_f64 s) in
  Qle_bool (Qabs (Q_of_f64 s - q)) (1 # 2 ^ 50)
  && (if at_class_boundary q then (f <=? e)%Z && (e <=? f + 1)%Z
      else (f =? e)%Z).

Definition readings_checked (la lb lc : list Z) : bool :=
  forallb (fun a =>
    let fa := f64_of_Q (inject_Z a) in
    forallb (fun b =>
      let fb := f64_of_Q (inject_Z b) in
      forallb (fun c => rounding_is_harmless a b c fa fb (f64_of_Q (inject_Z c)))
        lc) lb) la.

(** The mean of a short column: the cells read back as the nearest doubles
    and added from left to right, as numpy does below eight values. *)
Definition short_series_mean (cells : list Q) : float :=
  (fold_left (fun acc x => acc + f64_of_Q x) cells 0
   / f64_of_Q (inject_Z (Z.of_nat (List.length cells))))%float.

(** A log with one row of score 0.375, and a sample of score 0.3, which is
    0.375 times the threshold 0.8. *)
Definition tie_history : SignalMetrics :=
  sample (8 * usec_per_hour + 1800 * 1000000) "B3" (-4) (-93).

Definition tie_sample : SignalMetrics :=
  sample (9 * usec_per_hour) "B3" (-20) (-80).

Definition tie_world : World :=
  mkWorld (snd (DataLogger.log_metrics logger no_faults fresh_files tie_history))
          [Some tie_sample; Some tie_sample] (fun _ => true) [].

(** ** Notions about the timestamp column and the window *)



(** * Properties *)

(** ** Clamping *)

Lemma py_max_Qmax a b : py_max a b == Qmax a b.
Proof.
  unfold py_max. destruct (Qle_bool b a) eqn:E.
  - apply Qle_bool_iff in E. symmetry. apply Q.max_l. exact E.
  - symmetry. apply Q.max_r. destruct (Qlt_le_dec a b) as [H|H].
    + apply Qlt_le_weak; exact H.
    + apply Qle_bool_iff in H. congruence.
Qed.

Lemma py_min_Qmin a b : py_min a b == Qmin a b.
Proof.
  unfold py_min. destruct (Qle_bool a b) eqn:E.
  - apply Qle_bool_iff in E. symmetry. apply Q.min_l. exact E.
  - symmetry. apply Q.min_r. destruct (Qlt_le_dec b a) as [H|H].
    + apply Qlt_le_weak; exact H.
    + apply Qle_bool_iff in H. congruence.
Qed.

Lemma Qlt_bool_iff a b : Qlt_bool a b = true <-> a < b.
Proof.
  unfold Qlt_bool. rewrite negb_true_iff. split; intro H.
  - destruct (Qlt_le_dec a b) as [L|L]; [exact L|].
    apply Qle_bool_iff in L. congruence.
  - destruct (Qle_bool b a) eqn:E; [|reflexivity].
    apply Qle_bool_iff in E. qlra.
Qed.

Lemma Qlt_bool_false_iff a b : Qlt_bool a b = false <-> b <= a.
Proof.
  unfold Qlt_bool. rewrite negb_false_iff. apply Qle_bool_iff.
Qed.

(** The clamp of the source, characterised by cases. *)
Lemma clamp_cases x :
  let c := py_max 0 (py_min 1 x) in
  (x <= 0 /\ c == 0) \/ (0 <= x <= 1 /\ c == x) \/ (1 <= x /\ c == 1).
Proof.
  unfold py_max, py_min.
  destruct (Qle_bool 1 x) eqn:E1.
  - apply Qle_bool_iff in E1. right; right. split; [exact E1|].
    destruct (Qle_bool 1 0) eqn:E; [discriminate E|reflexivity].
  - assert (L : x < 1).
    { destruct (Qlt_le_dec x 1) as [L|L]; [exact L|].
      apply Qle_bool_iff in L. congruence. }
    destruct (Qle_bool x 0) eqn:E0.
    + apply Qle_bool_iff in E0. left. split; [exact E0|reflexivity].
    + right; left. split; [|reflexivity].
      destruct (Qlt_le_dec 0 x) as [P|P]; [qlra|].
      apply Qle_bool_iff in P. congruence.
Qed.

Lemma clamp_bounds x : 0 <= py_max 0 (py_min 1 x) <= 1.
Proof.
  destruct (clamp_cases x) as [[H E]|[[H E]|[H E]]]; cbv zeta in E; qlra.
Qed.

Lemma clamp_mono x y : x <= y -> py_max 0 (py_min 1 x) <= py_max 0 (py_min 1 y).
Proof.
  intro L.
  destruct (clamp_cases x) as [[H E]|[[H E]|[H E]]];
    destruct (clamp_cases y) as [[H' E']|[[H' E']|[H' E']]];
    cbv zeta in E, E'; qlra.
Qed.

Lemma clamp_spec x : py_max 0 (py_min 1 x) == Spec.clamp01 x.
Proof.
  unfold Spec.clamp01. rewrite py_max_Qmax, py_min_Qmin. reflexivity.
Qed.

(** ** Bandwidth score *)

Lemma bandwidth_score_bounds (m : SignalMetrics) :
  0 <= DataLogger._calculate_bandwidth_score m <= 1.
Proof.
  unfold DataLogger._calculate_bandwidth_score. cbv zeta.
  pose proof (clamp_bounds ((sinr m + 10) / 30)) as Bs.
  pose proof (clamp_bounds ((rsrp m + 140) / 60)) as Br.
  qlra.
Qed.

(** C2.  The bandwidth score of the logger is the weighted sum
    [0.7 * clamp01((sinr+10)/30) + 0.3 * clamp01((rsrp+140)/60)] of the
    design document; it lies in [[0,1]]; it does not decrease when SINR and
    RSRP do not decrease; it takes the same value at (20, -60) and at
    (20, -50); and the agent's own copy of the formula computes the same
    number. *)
Theorem bandwidth_score_formula_bounds_monotone :
  forall m m' : SignalMetrics,
    DataLogger._calculate_bandwidth_score m
      == Spec.bandwidthScore (sinr m) (rsrp m)
    /\ 0 <= DataLogger._calculate_bandwidth_score m <= 1
    /\ (sinr m <= sinr m' -> rsrp m <= rsrp m' ->
        DataLogger._calculate_bandwidth_score m
          <= DataLogger._calculate_bandwidth_score m')
    /\ (sinr m == 20 -> sinr m' == 20 -> rsrp m == -60 -> rsrp m' == -50 ->
        DataLogger._calculate_bandwidth_score m
          == DataLogger._calculate_bandwidth_score m')
    /\ AIAutomationAgent._calculate_current_score m
         = DataLogger._calculate_bandwidth_score m.
Proof.
  intros m m'. unfold DataLogger._calculate_bandwidth_score, Spec.bandwidthScore.
  cbv zeta.
  pose proof (clamp_bounds ((sinr m + 10) / 30)) as Bs.
  pose proof (clamp_bounds ((rsrp m + 140) / 60)) as Br.
  repeat split.
  - rewrite !clamp_spec. ring.
  - qlra.
  - qlra.
  - intros Ls Lr.
    assert (Ms : (sinr m + 10) / 30 <= (sinr m' + 10) / 30)
      by (apply Qmult_le_compat_r; [qlra | discriminate]).
    assert (Mr : (rsrp m + 140) / 60 <= (rsrp m' + 140) / 60)
      by (apply Qmult_le_compat_r; [qlra | discriminate]).
    apply clamp_mono in Ms. apply clamp_mono in Mr. qlra.
  - intros S S' P P'.
    assert (D : (sinr m + 10) / 30 == 1) by (rewrite S; reflexivity).
    assert (D1 : (sinr m' + 10) / 30 == 1) by (rewrite S'; reflexivity).
    assert (D2 : (rsrp m + 140) / 60 == 4 # 3) by (rewrite P; reflexivity).
    assert (D3 : (rsrp m' + 140) / 60 == 3 # 2) by (rewrite P'; reflexivity).
    destruct (clamp_cases ((sinr m + 10) / 30)) as [[H E]|[[H E]|[H E]]];
      destruct (clamp_cases ((sinr m' + 10) / 30)) as [[H1 E1]|[[H1 E1]|[H1 E1]]];
      destruct (clamp_cases ((rsrp m + 140) / 60)) as [[H2 E2]|[[H2 E2]|[H2 E2]]];
      destruct (clamp_cases ((rsrp m' + 140) / 60)) as [[H3 E3]|[[H3 E3]|[H3 E3]]];
      cbv zeta in E, E1, E2, E3; qlra.
Qed.

(** The two saturated samples of the design document, evaluated. *)
Lemma bandwidth_score_formula_bounds_monotone_witness :
  DataLogger._calculate_bandwidth_score (sample 0 "B3" 20 (-60)) <=
  DataLogger._calculate_bandwidth_score (sample 0 "B3" 20 (-50))
  /\ DataLogger._calculate_bandwidth_score (sample 0 "B3" 20 (-60)) ==
     DataLogger._calculate_bandwidth_score (sample 0 "B3" 20 (-50)).
Proof.
  pose proof (bandwidth_score_formula_bounds_monotone
                (sample 0 "B3" 20 (-60)) (sample 0 "B3" 20 (-50)))
    as (_ & _ & Mono & Same & _).
  split.
  - apply Mono; vm_compute; discriminate.
  - apply Same; reflexivity.
Defined.

(** ** Quality score and quality class *)

Lemma Qle_bool_false_lt a b : Qle_bool a b = false -> b < a.
Proof.
  intro E. apply Qlt_bool_iff. unfold Qlt_bool. rewrite E. reflexivity.
Qed.

Lemma quality_level_cases s :
  (quality_level s = excellent <-> 0.8 <= s)
  /\ (quality_level s = good <-> 0.6 <= s /\ s < 0.8)
  /\ (quality_level s = fair <-> 0.4 <= s /\ s < 0.6)
  /\ (quality_level s = poor <-> s < 0.4).
Proof.
  unfold quality_level.
  destruct (Qle_bool 0.8 s) eqn:E8;
    [apply Qle_bool_iff in E8 | apply Qle_bool_false_lt in E8];
    (destruct (Qle_bool 0.6 s) eqn:E6;
     [apply Qle_bool_iff in E6 | apply Qle_bool_false_lt in E6]);
    (destruct (Qle_bool 0.4 s) eqn:E4;
     [apply Qle_bool_iff in E4 | apply Qle_bool_false_lt in E4]);
    repeat split; intros; try discriminate; try reflexivity; try qlra.
Qed.


(** ** Sums, means and the variance of scores *)

Lemma Qsum_map_le {A} (f g : A -> Q) (l : list A) :
  (forall x, In x l -> f x <= g x) -> Qsum (map f l) <= Qsum (map g l).
Proof.
  induction l as [|a l IH]; intro H; simpl.
  - qlra.
  - assert (f a <= g a) by (apply H; left; reflexivity).
    assert (Qsum (map f l) <= Qsum (map g l))
      by (apply IH; intros x Hx; apply H; right; exact Hx).
    qlra.
Qed.

Lemma inject_Z_of_nat_succ n :
  inject_Z (Z.of_nat (S n)) == inject_Z (Z.of_nat n) + 1.
Proof.
  rewrite Nat2Z.inj_succ. unfold Z.succ.
  rewrite QArith_base.inject_Z_plus. reflexivity.
Qed.

Lemma Qsum_affine (a c : Q) (l : list Q) :
  Qsum (map (fun x => a * x + c) l)
  == a * Qsum l + inject_Z (Z.of_nat (List.length l)) * c.
Proof.
  induction l as [|x l IH].
  - simpl. ring.
  - cbn [map Qsum fold_right List.length]. fold (Qsum l).
    fold (Qsum (map (fun x => a * x + c) l)).
    rewrite IH, inject_Z_of_nat_succ. ring.
Qed.

Lemma Qsquare_nonneg (a : Q) : 0 <= a * a.
Proof.
  unfold Qle, Qmult. simpl. rewrite Z.mul_1_r. apply Z.square_nonneg.
Qed.

Lemma Qsum_sqr_nonneg (m : Q) (l : list Q) :
  0 <= Qsum (map (fun x => (x - m) * (x - m)) l).
Proof.
  induction l as [|x l IH]; simpl.
  - qlra.
  - fold (Qsum (map (fun x => (x - m) * (x - m)) l)).
    pose proof (Qsquare_nonneg (x - m)). qlra.
Qed.

Lemma length_pos_Q {A} (l : list A) :
  l <> [] -> 0 < inject_Z (Z.of_nat (List.length l)).
Proof.
  intro H. destruct l as [|a l]; [congruence|].
  change 0 with (inject_Z 0). rewrite <- Zlt_Qlt. cbn [List.length]. lia.
Qed.

(** Values between 0 and 1 have a population variance of at most 1/4. *)
Lemma pvariance_unit_interval (l : list Q) :
  l <> [] -> (forall x, In x l -> 0 <= x <= 1) -> pvariance l <= 1 # 4.
Proof.
  intros Hne Hl. unfold pvariance. cbv zeta.
  pose proof (length_pos_Q l Hne) as Hn.
  set (n := inject_Z (Z.of_nat (List.length l))) in *.
  set (m := mean l).
  assert (Hm : Qsum l == n * m).
  { unfold m, mean. fold n. field. intro Z0. rewrite Z0 in Hn. qlra. }
  apply Qle_shift_div_r; [exact Hn|].
  apply Qle_trans with (Qsum (map (fun x => (1 - 2 * m) * x + m * m) l)).
  - apply Qsum_map_le. intros x Hx. destruct (Hl x Hx) as [H0 H1].
    assert (x * x <= x).
    { setoid_replace x with (x * 1) at 3 by ring.
      apply Qmult_le_compat_nonneg; split; try assumption; qlra. }
    setoid_replace ((x - m) * (x - m)) with (x * x - 2 * m * x + m * m) by ring.
    setoid_replace ((1 - 2 * m) * x + m * m) with (x - 2 * m * x + m * m) by ring.
    qlra.
  - rewrite Qsum_affine. fold n. rewrite Hm.
    setoid_replace ((1 - 2 * m) * (n * m) + n * (m * m)) with (n * (m - m * m))
      by ring.
    assert (m - m * m <= 1 # 4).
    { pose proof (Qsquare_nonneg (m - (1 # 2))) as H.
      setoid_replace ((m - (1 # 2)) * (m - (1 # 2)))
        with (m * m - m + (1 # 4)) in H by ring.
      qlra. }
    rewrite (Qmult_comm (1 # 4) n).
    apply Qmult_le_l; [exact Hn | assumption].
Qed.

Lemma np_std_unit_interval (l : list Q) :
  l <> [] -> (forall x, In x l -> 0 <= x <= 1) -> (0 <= np_std l <= 1 / 2)%R.
Proof.
  intros Hne Hl. unfold np_std. split; [apply sqrt_pos|].
  replace (1 / 2)%R with (sqrt ((1 / 2) * (1 / 2)))%R
    by (apply sqrt_square; rlra).
  apply sqrt_le_1_alt.
  apply Rle_trans with (Q2R (1 # 4)).
  - apply Qle_Rle. apply pvariance_unit_interval; assumption.
  - unfold Q2R. simpl. rlra.
Qed.

(** ** Band analysis *)

Lemma in_hours_peak h :
  AIAutomationAgent.in_hours AIAutomationAgent.analysis_peak_hours h
  = Spec.peak_hour_of_day h.
Proof.
  unfold AIAutomationAgent.in_hours, AIAutomationAgent.analysis_peak_hours,
    Spec.peak_hour_of_day. simpl.
  rewrite orb_false_r. rewrite !orb_assoc. reflexivity.
Qed.

Lemma bandwidth_scores_unit_interval (l : list SignalMetrics) :
  forall x, In x (map DataLogger._calculate_bandwidth_score l) -> 0 <= x <= 1.
Proof.
  intros x Hx. apply in_map_iff in Hx. destruct Hx as (m & <- & _).
  destruct (bandwidth_score_bounds m) as [L U]. split; assumption.
Qed.

Lemma stability_score_range (b : string) (l : list SignalMetrics) :
  l <> [] ->
  (1 / 2 <= stability_score (AIAutomationAgent._analyze_band_performance b l)
   <= 1)%R.
Proof.
  intro Hne. destruct l as [|m l]; [congruence|].
  set (scores := map DataLogger._calculate_bandwidth_score (m :: l)).
  assert (Hs : scores <> []) by (unfold scores; simpl; discriminate).
  pose proof (np_std_unit_interval scores Hs
                (bandwidth_scores_unit_interval (m :: l))) as [L U].
  change (stability_score
            (AIAutomationAgent._analyze_band_performance b (m :: l)))
    with (1 - np_std scores)%R.
  split; rlra.
Qed.

(** C6 (as amended).  For a non-empty list of samples the analysis returns
    the means of RSRP, RSRQ, SINR and of the per-sample bandwidth scores;
    its stability score is 1 minus the population standard deviation of
    those scores, with no clamp applied, and it always lies between 1/2 and
    1 because the scores lie between 0 and 1; peak and off-peak performance
    are the mean SINR over the samples taken at hours 7, 8, 9, 17, 18, 19
    and over the others, 0 when there is none.  For the empty list every
    numeric field is 0.  The function is total. *)
Theorem analyze_band_performance_fields :
  forall (b : string) (l : list SignalMetrics),
    let p := AIAutomationAgent._analyze_band_performance b l in
    let scores := map DataLogger._calculate_bandwidth_score l in
    let at_peak m := Spec.peak_hour_of_day (hour (timestamp m)) in
    perf_band p = b
    /\ (l = [] ->
        avg_rsrp p = 0 /\ avg_rsrq p = 0 /\ avg_sinr p = 0
        /\ avg_bandwidth_score p = 0 /\ stability_score p = 0%R
        /\ peak_performance p = 0 /\ off_peak_performance p = 0)
    /\ (l <> [] ->
        avg_rsrp p = mean (map rsrp l) /\ avg_rsrq p = mean (map rsrq l)
        /\ avg_sinr p = mean (map sinr l)
        /\ avg_bandwidth_score p = mean scores
        /\ stability_score p = (1 - np_std scores)%R
        /\ (1 / 2 <= stability_score p <= 1)%R
        /\ peak_performance p = Spec.mean_sinr_or_zero (filter at_peak l)
        /\ off_peak_performance p
           = Spec.mean_sinr_or_zero (filter (fun m => negb (at_peak m)) l)).
Proof.
  intros b l p scores at_peak. subst p.
  destruct l as [|m l].
  - split; [reflexivity|]. split.
    + intros _. simpl. repeat split; reflexivity.
    + intro H. congruence.
  - split; [reflexivity|]. split; [intro H; discriminate H|]. intros _.
    pose proof (stability_score_range b (m :: l)) as Hs.
    assert (Hne : m :: l <> []) by discriminate. specialize (Hs Hne).
    assert (Hp : filter (fun x => AIAutomationAgent.in_hours
                                   AIAutomationAgent.analysis_peak_hours
                                   (hour (timestamp x))) (m :: l)
                 = filter at_peak (m :: l)).
    { apply filter_ext. intro x. apply in_hours_peak. }
    assert (Ho : filter (fun x => negb (AIAutomationAgent.in_hours
                                   AIAutomationAgent.analysis_peak_hours
                                   (hour (timestamp x)))) (m :: l)
                 = filter (fun x => negb (at_peak x)) (m :: l)).
    { apply filter_ext. intro x. rewrite in_hours_peak. reflexivity. }
    unfold AIAutomationAgent._analyze_band_performance.
    cbv zeta. rewrite Hp, Ho.
    repeat split; try reflexivity; apply Hs.
Qed.

(** The analysis of [two_samples]: the bound on stability applies, and the
    08:00 sample alone makes the peak performance. *)
Lemma analyze_band_performance_fields_witness :
  (1 / 2 <= stability_score
              (AIAutomationAgent._analyze_band_performance "B3" two_samples)
   <= 1)%R
  /\ peak_performance
       (AIAutomationAgent._analyze_band_performance "B3" two_samples)
     = Spec.mean_sinr_or_zero [sample (8 * usec_per_hour) "B3" 15 (-85)].
Proof.
  pose proof (analyze_band_performance_fields "B3" two_samples)
    as (_ & _ & H).
  assert (Hne : two_samples <> []) by (unfold two_samples; discriminate).
  destruct (H Hne) as (_ & _ & _ & _ & _ & Hr & Hp & _).
  split; [exact Hr | exact Hp].
Defined.

(** The stability score is never negative, whatever the band and the
    samples. *)
Lemma stability_score_never_negative :
  ~ exists (b : string) (l : list SignalMetrics),
      (stability_score (AIAutomationAgent._analyze_band_performance b l) < 0)%R.
Proof.
  intros (b & l & H). destruct l as [|m l].
  - simpl in H. rlra.
  - assert (Hne : m :: l <> []) by discriminate.
    pose proof (stability_score_range b (m :: l) Hne) as [L _]. rlra.
Qed.

(** ** Appending to the two files *)

Lemma append_to_json_keeps_csv self io fs r :
  csv (DataLogger._append_to_json self io fs r) = csv fs
  /\ csv_backup (DataLogger._append_to_json self io fs r) = csv_backup fs
  /\ json_backup (DataLogger._append_to_json self io fs r) = json_backup fs.
Proof.
  unfold DataLogger._append_to_json.
  destruct (json fs) as [[data| | |]|]; destruct (json_read_fails io);
    destruct (json_write_fails io); simpl; auto.
Qed.

Lemma log_metrics_result self io fs m :
  DataLogger.log_metrics self io fs m
  = if csv_append_fails io then (false, fs)
    else (true,
          DataLogger._append_to_json self io
            (mkFiles (Some (DataLogger.append_row (csv fs) (DataLogger.record_of m)))
                     (json fs) (csv_backup fs) (json_backup fs))
            (DataLogger.record_of m)).
Proof. reflexivity. Qed.

Lemma log_metrics_csv self io fs m :
  fst (DataLogger.log_metrics self io fs m) = true ->
  csv (snd (DataLogger.log_metrics self io fs m))
  = Some (DataLogger.append_row (csv fs) (DataLogger.record_of m)).
Proof.
  rewrite log_metrics_result. destruct (csv_append_fails io); simpl.
  - discriminate.
  - intros _. apply append_to_json_keeps_csv.
Qed.

Lemma append_row_records fs row :
  csv_rows (DataLogger.append_row (csv fs) row) = csv_records fs ++ [row].
Proof.
  unfold csv_records, DataLogger.append_row. destruct (csv fs); reflexivity.
Qed.

(** What a fault-free JSON append writes. *)
Lemma append_to_json_written self io fs r :
  json_read_fails io = false -> json_write_fails io = false ->
  json fs <> Some JsonOther -> json fs <> Some JsonUndecodable ->
  json (DataLogger._append_to_json self io fs r)
  = Some (JsonArray (match json_records fs with
                     | Some data => data
                     | None => []
                     end ++ [r])).
Proof.
  intros Hr Hw Ho Hu. unfold DataLogger._append_to_json, json_records.
  rewrite Hr, Hw. destruct (json fs) as [[data| | |]|]; simpl;
    try reflexivity; congruence.
Qed.

(** C8 (as amended).  After an append that reports success the CSV file
    holds the sample's record as its last row.  The JSON file receives the
    same record, and the two files go on holding the same records if they
    did, whenever reading and rewriting the JSON file raises nothing and the
    file, if present, does not hold a JSON value other than an array.  (An
    error on the JSON side is caught inside the JSON append and leaves the
    reported result unchanged.) *)
Theorem append_updates_both_files :
  forall (self : DataLogger.t) (io : Faults) (fs : Files) (m : SignalMetrics),
    fst (DataLogger.log_metrics self io fs m) = true ->
    let fs' := snd (DataLogger.log_metrics self io fs m) in
    let r := DataLogger.record_of m in
    csv_records fs' = csv_records fs ++ [r]
    /\ (json_read_fails io = false -> json_write_fails io = false ->
        json fs <> Some JsonOther -> json fs <> Some JsonUndecodable ->
        json_records fs'
        = Some (match json_records fs with
                | Some data => data
                | None => []
                end ++ [r]))
    /\ (json_read_fails io = false -> json_write_fails io = false ->
        same_sample_set fs -> same_sample_set fs').
Proof.
  intros self io fs m Hok fs' r.
  assert (Hcsv : csv_records fs' = csv_records fs ++ [r]).
  { unfold csv_records at 1. unfold fs'. rewrite log_metrics_csv by exact Hok.
    apply append_row_records. }
  assert (Hjson : json_read_fails io = false -> json_write_fails io = false ->
                  json fs <> Some JsonOther -> json fs <> Some JsonUndecodable ->
                  json_records fs'
                  = Some (match json_records fs with
                          | Some data => data
                          | None => []
                          end ++ [r])).
  { intros Hr Hw Ho Hu. unfold fs'. rewrite log_metrics_result in *.
    destruct (csv_append_fails io); [discriminate Hok|]. simpl.
    unfold json_records at 1.
    rewrite (append_to_json_written self io _ r Hr Hw); [reflexivity | |];
      assumption. }
  repeat split; try assumption.
  intros Hr Hw Hs. unfold same_sample_set in *.
  rewrite Hcsv, Hjson; try assumption.
  - rewrite Hs. reflexivity.
  - intro Ho. unfold json_records in Hs. rewrite Ho in Hs. discriminate Hs.
  - intro Ho. unfold json_records in Hs. rewrite Ho in Hs. discriminate Hs.
Qed.

(** A sample logged after another one, with no error: both files then hold
    the two records. *)
Lemma append_updates_both_files_witness :
  csv_records (snd (DataLogger.log_metrics logger no_faults files_after_one
                      second_sample))
  = [DataLogger.record_of first_sample; DataLogger.record_of second_sample]
  /\ same_sample_set (snd (DataLogger.log_metrics logger no_faults
                             files_after_one second_sample)).
Proof.
  assert (Hok : fst (DataLogger.log_metrics logger no_faults files_after_one
                       second_sample) = true) by reflexivity.
  destruct (append_updates_both_files logger no_faults files_after_one
              second_sample Hok) as (Hc & _ & Hs).
  split.
  - exact Hc.
  - apply Hs; reflexivity.
Defined.

(** The two files hold the same record; the next append cannot rewrite the
    JSON file, reports success all the same, and leaves the CSV file one
    record ahead. *)
Lemma append_success_without_json_update :
  same_sample_set files_after_one
  /\ fst (DataLogger.log_metrics logger json_write_error files_after_one
            second_sample) = true
  /\ csv_records (snd (DataLogger.log_metrics logger json_write_error
                         files_after_one second_sample))
     = [DataLogger.record_of first_sample; DataLogger.record_of second_sample]
  /\ json_records (snd (DataLogger.log_metrics logger json_write_error
                          files_after_one second_sample))
     = Some [DataLogger.record_of first_sample]
  /\ ~ same_sample_set (snd (DataLogger.log_metrics logger json_write_error
                               files_after_one second_sample)).
Proof.
  repeat split; try reflexivity.
  unfold same_sample_set. intro H. vm_compute in H. discriminate H.
Qed.



(** ** Summary over a time window *)

Lemma log_batch_csv self io (ms : list SignalMetrics) :
  csv_append_fails io = false ->
  forall fs c,
    csv fs = Some c ->
    csv (snd (DataLogger.log_batch_metrics self io fs ms))
    = Some (mkCsvFile (has_header c)
              (csv_rows c ++ map DataLogger.record_of ms)).
Proof.
  intro Hio. unfold DataLogger.log_batch_metrics. simpl.
  induction ms as [|m ms IH]; intros fs c Hc.
  - simpl. rewrite app_nil_r, Hc. destruct c; reflexivity.
  - cbn [fold_left map].
    assert (Hok : fst (DataLogger.log_metrics self io fs m) = true).
    { rewrite log_metrics_result, Hio. reflexivity. }
    pose proof (log_metrics_csv self io fs m Hok) as H1.
    rewrite Hc in H1. simpl in H1.
    rewrite (IH _ _ H1). simpl. rewrite <- app_assoc. reflexivity.
Qed.


Lemma insert_key_In k ks x : In x (insert_key k ks) <-> x = k \/ In x ks.
Proof.
  induction ks as [|k' ks IH]; simpl.
  - intuition.
  - destruct (String.compare k k') eqn:E; simpl.
    + apply String.compare_eq_iff in E. subst k'. intuition.
    + intuition.
    + rewrite IH. intuition.
Qed.

Lemma read_label_Name cell b :
  read_label cell = Name b <-> cell = b /\ is_na b = false.
Proof.
  unfold read_label. destruct (is_na cell) eqn:E; split.
  - discriminate.
  - intros [-> H]. congruence.
  - intro H. injection H as <-. auto.
  - intros [-> _]. reflexivity.
Qed.

(** The keys of a grouping are the band cells that are not NaN. *)
Lemma group_keys_In rows b :
  In b (group_keys rows)
  <-> (exists r, In r rows /\ rec_band r = b) /\ is_na b = false.
Proof.
  induction rows as [|r rows IH]; simpl.
  - split; [contradiction | intros [(r & [] & _) _]].
  - destruct (read_label (rec_band r)) as [c|] eqn:E.
    + apply read_label_Name in E. destruct E as [Ec Hna].
      rewrite insert_key_In, IH. split.
      * intros [-> | [(r' & Hin & Hb) Hn]].
        -- split; [exists r; auto | exact Hna].
        -- split; [exists r'; auto | exact Hn].
      * intros [(r' & [-> | Hin] & Hb) Hn].
        -- left. congruence.
        -- right. split; [exists r'; auto | exact Hn].
    + rewrite IH. split.
      * intros [(r' & Hin & Hb) Hn]. split; [exists r'; auto | exact Hn].
      * intros [(r' & [-> | Hin] & Hb) Hn].
        -- unfold read_label in E. rewrite Hb, Hn in E. discriminate E.
        -- split; [exists r'; auto | exact Hn].
Qed.

Lemma argmax_None s : argmax s = None <-> s = [].
Proof.
  destruct s as [|kv s]; simpl; [tauto|].
  destruct (argmax s) as [best|]; [destruct (Qlt_bool (snd kv) (snd best))|];
    split; discriminate.
Qed.

Lemma argmin_None s : argmin s = None <-> s = [].
Proof.
  destruct s as [|kv s]; simpl; [tauto|].
  destruct (argmin s) as [best|]; [destruct (Qlt_bool (snd best) (snd kv))|];
    split; discriminate.
Qed.








(** A log made of samples whose band cell is empty: the rows are recent, no
    group is formed, [idxmax] raises and the summary is the empty
    dictionary. *)
Lemma summary_empty_without_band_label :
  DataLogger.get_metrics_summary logger
    (snd (DataLogger.log_metrics logger no_faults fresh_files
            (sample (8 * usec_per_hour) "" 15 (-85))))
    (9 * usec_per_hour) 6 = None.
Proof. vm_compute. reflexivity. Qed.


(** ** Rotation *)

Lemma exceeds_iff size max_size_mb :
  DataLogger.exceeds size max_size_mb = true
  <-> max_size_mb * inject_Z (1024 * 1024) < inject_Z size.
Proof.
  unfold DataLogger.exceeds. rewrite Qlt_bool_iff. split; intro H.
  - apply (Qmult_lt_r _ _ (inject_Z (1024 * 1024))) in H; [|reflexivity].
    setoid_replace (inject_Z size / inject_Z (1024 * 1024) * inject_Z (1024 * 1024))
      with (inject_Z size) in H by (field; discriminate).
    exact H.
  - apply Qlt_shift_div_l; [reflexivity | exact H].
Qed.

Lemma log_metrics_keeps_backups self io fs m :
  csv_backup (snd (DataLogger.log_metrics self io fs m)) = csv_backup fs
  /\ json_backup (snd (DataLogger.log_metrics self io fs m)) = json_backup fs.
Proof.
  rewrite log_metrics_result. destruct (csv_append_fails io); simpl; [auto|].
  destruct (append_to_json_keeps_csv self io
              (mkFiles (Some (DataLogger.append_row (csv fs) (DataLogger.record_of m)))
                       (json fs) (csv_backup fs) (json_backup fs))
              (DataLogger.record_of m)) as (_ & Hb & Hj).
  rewrite Hb, Hj. auto.
Qed.

(** The turn of the loop for the JSON file leaves an existing CSV file and
    the CSV backup alone. *)
Lemma cleanup_json_file_keeps_csv_backup json_size self io max_size_mb fs :
  let after := match DataLogger.cleanup_json_file json_size self io max_size_mb fs with
               | Some fs2 => fs2
               | None => fs
               end in
  csv_backup after = csv_backup fs.
Proof.
  unfold DataLogger.cleanup_json_file.
  destruct (json fs) as [j|]; [|reflexivity].
  destruct (DataLogger.exceeds (json_size j) max_size_mb); [|reflexivity].
  destruct (rename_fails io); [reflexivity|].
  destruct (endswith (DataLogger.json_file self) ".csv"); [|reflexivity].
  unfold DataLogger._init_csv_file. cbn. destruct (csv fs); reflexivity.
Qed.

Lemma cleanup_json_file_keeps_csv json_size self io max_size_mb fs f :
  csv fs = Some f ->
  let after := match DataLogger.cleanup_json_file json_size self io max_size_mb fs with
               | Some fs2 => fs2
               | None => fs
               end in
  csv after = Some f /\ csv_backup after = csv_backup fs.
Proof.
  intros Hc after. split;
    [|apply cleanup_json_file_keeps_csv_backup].
  unfold after, DataLogger.cleanup_json_file.
  destruct (json fs) as [j|]; [|exact Hc].
  destruct (DataLogger.exceeds (json_size j) max_size_mb); [|exact Hc].
  destruct (rename_fails io); [exact Hc|].
  destruct (endswith (DataLogger.json_file self) ".csv"); [|exact Hc].
  unfold DataLogger._init_csv_file. cbn. rewrite Hc. reflexivity.
Qed.

(** C9 (as amended).  Appending never rotates: it leaves both backups as
    they are and only adds a row.  Rotation is the work of
    [cleanup_old_logs]: when it runs, the renaming succeeds and the CSV file
    is larger than [max_size_mb] mebibytes, the file becomes the backup and,
    if its path ends in [.csv], a file holding the header alone takes its
    place, so that the log restarts with no row and the rows from before are
    those of the backup; when the file is not larger than the threshold,
    the file and its backup are left as they are. *)
Theorem cleanup_rotates_oversized_csv :
  forall (csv_size : CsvFile -> Z) (json_size : JsonText -> Z)
         (self : DataLogger.t) (io : Faults) (max_size_mb : Q)
         (fs : Files) (f : CsvFile) (m : SignalMetrics),
    csv fs = Some f ->
    rename_fails io = false ->
    let fs' := DataLogger.cleanup_old_logs csv_size json_size self io
                 max_size_mb fs in
    let appended := DataLogger.log_metrics self io fs m in
    (max_size_mb * inject_Z (1024 * 1024) < inject_Z (csv_size f) ->
     csv_backup fs' = Some f
     /\ (endswith (DataLogger.csv_file self) ".csv" = true ->
         csv fs' = Some (mkCsvFile true []) /\ csv_records fs' = []))
    /\ (inject_Z (csv_size f) <= max_size_mb * inject_Z (1024 * 1024) ->
        csv fs' = Some f /\ csv_backup fs' = csv_backup fs)
    /\ csv_backup (snd appended) = csv_backup fs
    /\ json_backup (snd appended) = json_backup fs
    /\ (fst appended = true ->
        csv_records (snd appended) = csv_records fs ++ [DataLogger.record_of m]).
Proof.
  intros csv_size json_size self io max_size_mb fs f m Hc Hr fs' appended.
  split; [|split].
  - intro Hbig. apply exceeds_iff in Hbig.
    unfold fs', DataLogger.cleanup_old_logs, DataLogger.cleanup_csv_file.
    rewrite Hc, Hbig, Hr.
    destruct (endswith (DataLogger.csv_file self) ".csv") eqn:Ecsv.
    + destruct (cleanup_json_file_keeps_csv json_size self io
                  max_size_mb
                  (DataLogger._init_csv_file self
                     (mkFiles None (json fs) (Some f) (json_backup fs)))
                  (mkCsvFile true []) eq_refl) as [H1 H2].
      unfold csv_records. rewrite H1, H2. auto.
    + split; [|discriminate].
      apply cleanup_json_file_keeps_csv_backup.
  - intro Hsmall.
    assert (Hnot : DataLogger.exceeds (csv_size f) max_size_mb = false).
    { destruct (DataLogger.exceeds (csv_size f) max_size_mb) eqn:E;
        [|reflexivity].
      apply exceeds_iff in E. qlra. }
    unfold fs', DataLogger.cleanup_old_logs, DataLogger.cleanup_csv_file.
    rewrite Hc, Hnot.
    destruct (cleanup_json_file_keeps_csv json_size self io
                max_size_mb fs f Hc) as [H1 H2].
    rewrite H1, H2. auto.
  - destruct (log_metrics_keeps_backups self io fs m) as [Hb Hj].
    split; [exact Hb|]. split; [exact Hj|].
    intro Hok. unfold csv_records at 1. unfold appended.
    rewrite log_metrics_csv by exact Hok. apply append_row_records.
Qed.

(** The log of 11649 rows receives one more row and then weighs more than
    one mebibyte: cleaning up with a limit of 1 moves its 11650 rows to the
    backup and leaves the header alone. *)
Lemma cleanup_rotates_oversized_csv_witness :
  option_map (fun f => List.length (csv_rows f))
    (csv_backup
       (DataLogger.cleanup_old_logs example_csv_size example_json_size logger
          no_faults 1
          (snd (DataLogger.log_metrics logger no_faults long_log second_sample))))
  = Some (Z.to_nat 11650)
  /\ csv (DataLogger.cleanup_old_logs example_csv_size example_json_size logger
            no_faults 1
            (snd (DataLogger.log_metrics logger no_faults long_log second_sample)))
     = Some (mkCsvFile true []).
Proof.
  destruct (cleanup_rotates_oversized_csv example_csv_size example_json_size
              logger no_faults 1
              (snd (DataLogger.log_metrics logger no_faults long_log second_sample))
              (DataLogger.append_row (csv long_log)
                 (DataLogger.record_of second_sample))
              second_sample eq_refl eq_refl) as (Hbig & _).
  destruct Hbig as (Hb & Hh).
  - vm_compute. reflexivity.
  - split.
    + rewrite Hb. vm_compute. reflexivity.
    + apply Hh. reflexivity.
Defined.

(** The log of 11649 rows is within one mebibyte; one append takes it
    beyond; no rotation follows: there is no backup and the log holds all
    of its 11650 rows. *)
Lemma append_beyond_limit_without_rotation :
  DataLogger.exceeds (example_csv_size (mkCsvFile true (csv_records long_log))) 1
  = false
  /\ option_map (fun f => DataLogger.exceeds (example_csv_size f) 1)
       (csv (snd (DataLogger.log_metrics logger no_faults long_log second_sample)))
     = Some true
  /\ csv_backup (snd (DataLogger.log_metrics logger no_faults long_log
                        second_sample)) = None
  /\ List.length (csv_records (snd (DataLogger.log_metrics logger no_faults
                                      long_log second_sample)))
     = Z.to_nat 11650.
Proof.
  repeat split; vm_compute; reflexivity.
Qed.

(** ** Choice of the best band *)

Lemma argmax_spec s k v :
  argmax s = Some (k, v) ->
  In (k, v) s /\ forall kv, In kv s -> snd kv <= v.
Proof.
  revert k v. induction s as [|[k0 v0] s IH]; intros k v H; [discriminate H|].
  simpl in H. destruct (argmax s) as [[kb vb]|] eqn:E.
  - destruct (IH kb vb eq_refl) as [Hin Hmax]. simpl in H.
    destruct (Qlt_bool v0 vb) eqn:Elt; injection H as <- <-.
    + split; [right; exact Hin|]. intros kv [<- | Hkv].
      * simpl. apply Qlt_bool_iff in Elt. qlra.
      * apply Hmax. exact Hkv.
    + apply Qlt_bool_false_iff in Elt.
      split; [left; reflexivity|]. intros kv [<- | Hkv].
      * simpl. qlra.
      * specialize (Hmax kv Hkv). qlra.
  - injection H as <- <-. apply argmax_None in E. subst s.
    split; [left; reflexivity|]. intros kv [<- | []]. simpl. qlra.
Qed.


Lemma groupby_agg_In {A} (column : LogRecord -> Q) (f : list Q -> A) rows b v :
  In (b, v) (groupby_agg column f rows)
  <-> In b (group_keys rows) /\ v = f (map column (rows_of_band b rows)).
Proof.
  unfold groupby_agg. rewrite in_map_iff. split.
  - intros (k & Hk & Hin). injection Hk as -> <-. auto.
  - intros [Hin ->]. exists b. auto.
Qed.




(** ** Degradation check *)








(** ** Peak-hour optimisation *)

(** The test on the hour, for the periods that parse: the hour is peak
    exactly when the loop meets a period whose start and end hours enclose
    it before it meets a malformed one. *)
Lemma is_peak_hour_cons name period rest h start_hour end_hour :
  py_int (split_colon_head (period_start period)) = Some start_hour ->
  py_int (split_colon_head (period_end period)) = Some end_hour ->
  AIAutomationAgent.is_peak_hour ((name, period) :: rest) h
  = if ((start_hour <=? h) && (h <=? end_hour))%Z then Some true
    else AIAutomationAgent.is_peak_hour rest h.
Proof.
  intros Hs He. simpl. rewrite Hs, He. reflexivity.
Qed.

(** With the periods of config.py, 07:00-09:00 and 17:00-19:00, an hour is
    peak exactly when it lies in 7..9 or in 17..19, both ends included. *)
Lemma is_peak_hour_default h :
  AIAutomationAgent.is_peak_hour (peak_hours MONITORING_CONFIG) h
  = Some (((7 <=? h) && (h <=? 9)) || ((17 <=? h) && (h <=? 19)))%Z.
Proof.
  unfold MONITORING_CONFIG. cbn [peak_hours].
  rewrite (is_peak_hour_cons _ _ _ h 7 9) by reflexivity.
  rewrite (is_peak_hour_cons _ _ _ h 17 19) by reflexivity.
  cbn [AIAutomationAgent.is_peak_hour].
  destruct ((7 <=? h) && (h <=? 9))%Z; [reflexivity|].
  destruct ((17 <=? h) && (h <=? 19))%Z; reflexivity.
Qed.

(** C4, at the history [b3_history ++ b7_history].  At 08:00, a peak hour,
    with the router on B7: during peak hours B7 had the higher mean SINR
    (10 against 5), yet the export ranks B3 first on its mean SINR over all
    hours (15 against 10), and the agent sends the command for B3. *)
Theorem peak_choice_uses_all_hours :
  AIAutomationAgent.is_peak_hour (peak_hours MONITORING_CONFIG)
    (hour peak_query_time) = Some true
  /\ peak_performance
       (AIAutomationAgent._analyze_band_performance "B3" b3_history) == 5
  /\ peak_performance
       (AIAutomationAgent._analyze_band_performance "B7" b7_history) == 10
  /\ option_map (map (fun s => (DataLogger.stats_band s, DataLogger.sinr_mean s)))
       (DataLogger.export_band_comparison logger (files peak_world))
     = Some [("B3"%string, 15.00); ("B7"%string, 10.00)]
  /\ trace (AIAutomationAgent.optimize_for_peak_hours agent MONITORING_CONFIG
              peak_world peak_query_time)
     = [GetSignal; SetBand (Name "B3")].
Proof.
  repeat split; vm_compute; reflexivity.
Qed.

(** * Further properties of the code *)

(** ** Quality score *)

Lemma py_max0_mono x y : x <= y -> py_max 0 x <= py_max 0 y.
Proof.
  intro L. rewrite !py_max_Qmax.
  apply Q.max_le_compat_l. exact L.
Qed.

Lemma py_max0_nonneg x : 0 <= py_max 0 x.
Proof. rewrite py_max_Qmax. apply Q.le_max_l. Qed.

Lemma quality_level_mono s s' :
  s <= s' -> (class_rank (quality_level s) <= class_rank (quality_level s'))%Z.
Proof.
  intro L.
  destruct (quality_level_cases s) as (He & Hg & Hf & Hp).
  destruct (quality_level_cases s') as (He' & Hg' & Hf' & Hp').
  destruct (quality_level s) eqn:E; destruct (quality_level s') eqn:E';
    simpl; try lia; exfalso;
    repeat match goal with
           | H : ?c = ?c <-> _ |- _ => apply proj1 in H; specialize (H eq_refl)
           end; qlra.
Qed.

(** X1.  The quality score is never negative and does not decrease when
    RSRP, RSRQ and SINR do not decrease; hence a sample that is at least as
    strong on the three measures is never put in a lower class. *)
Theorem quality_score_monotone :
  forall m m' : SignalMetrics,
    0 <= DataLogger.quality_score m
    /\ (rsrp m <= rsrp m' -> rsrq m <= rsrq m' -> sinr m <= sinr m' ->
        DataLogger.quality_score m <= DataLogger.quality_score m'
        /\ (class_rank (DataLogger._calculate_signal_quality m)
            <= class_rank (DataLogger._calculate_signal_quality m'))%Z).
Proof.
  intros m m'. unfold DataLogger._calculate_signal_quality.
  assert (N : forall x, 0 <= DataLogger.quality_score x).
  { intro x. unfold DataLogger.quality_score. cbv zeta.
    pose proof (py_max0_nonneg ((rsrp x + 140) / 60)).
    pose proof (py_max0_nonneg ((rsrq x + 25) / 15)).
    pose proof (py_max0_nonneg ((sinr x + 10) / 30)). qlra. }
  split; [apply N|]. intros Lp Lq Ls.
  assert (M : DataLogger.quality_score m <= DataLogger.quality_score m').
  { unfold DataLogger.quality_score. cbv zeta.
    assert (A : (rsrp m + 140) / 60 <= (rsrp m' + 140) / 60)
      by (apply Qmult_le_compat_r; [qlra | discriminate]).
    assert (B : (rsrq m + 25) / 15 <= (rsrq m' + 25) / 15)
      by (apply Qmult_le_compat_r; [qlra | discriminate]).
    assert (C : (sinr m + 10) / 30 <= (sinr m' + 10) / 30)
      by (apply Qmult_le_compat_r; [qlra | discriminate]).
    apply py_max0_mono in A. apply py_max0_mono in B. apply py_max0_mono in C.
    qlra. }
  split; [exact M|]. apply quality_level_mono. exact M.
Qed.

(** The weaker and the stronger sample of the switching scenario. *)
Lemma quality_score_monotone_witness :
  DataLogger.quality_score (sample 0 "B7" 5 (-100))
  <= DataLogger.quality_score (sample 0 "B3" 15 (-85))
  /\ (class_rank (DataLogger._calculate_signal_quality (sample 0 "B7" 5 (-100)))
      <= class_rank (DataLogger._calculate_signal_quality (sample 0 "B3" 15 (-85))))%Z.
Proof.
  destruct (quality_score_monotone (sample 0 "B7" 5 (-100))
              (sample 0 "B3" 15 (-85))) as [_ H].
  apply H; vm_compute; discriminate.
Defined.

(** ** Means *)

Lemma mean_times_length (l : list Q) :
  inject_Z (Z.of_nat (List.length l)) * mean l == Qsum l.
Proof.
  destruct l as [|x l].
  - simpl. ring.
  - unfold mean. field. intro Z0.
    pose proof (length_pos_Q (x :: l)) as P.
    assert (Hne : x :: l <> []) by discriminate.
    specialize (P Hne). rewrite Z0 in P. qlra.
Qed.

Lemma Qsum_bounds (lo hi : Q) (l : list Q) :
  (forall x, In x l -> lo <= x <= hi) ->
  inject_Z (Z.of_nat (List.length l)) * lo <= Qsum l
  /\ Qsum l <= inject_Z (Z.of_nat (List.length l)) * hi.
Proof.
  induction l as [|x l IH]; intro H.
  - simpl. split; ring_simplify; qlra.
  - destruct IH as [L U]; [intros y Hy; apply H; right; exact Hy|].
    destruct (H x (or_introl eq_refl)) as [Lx Ux].
    change (Qsum (x :: l)) with (x + Qsum l).
    change (List.length (x :: l)) with (S (List.length l)).
    rewrite inject_Z_of_nat_succ.
    split; ring_simplify; qlra.
Qed.

(** The mean of a non-empty list lies between any bounds of its values. *)
Lemma mean_bounds (lo hi : Q) (l : list Q) :
  l <> [] -> (forall x, In x l -> lo <= x <= hi) -> lo <= mean l <= hi.
Proof.
  intros Hne H. destruct (Qsum_bounds lo hi l H) as [L U].
  pose proof (length_pos_Q l Hne) as P. unfold mean. split.
  - apply Qle_shift_div_l; [exact P|]. rewrite Qmult_comm. exact L.
  - apply Qle_shift_div_r; [exact P|]. rewrite Qmult_comm. exact U.
Qed.

Lemma Qsum_filter_split {A} (f : A -> Q) (p : A -> bool) (l : list A) :
  Qsum (map f l)
  == Qsum (map f (filter p l)) + Qsum (map f (filter (fun x => negb (p x)) l)).
Proof.
  induction l as [|x l IH].
  - simpl. ring.
  - cbn [map filter]. destruct (p x); cbn [negb map];
      change (Qsum (?a :: ?r)) with (a + Qsum r); rewrite IH;
      repeat match goal with
             | |- context [Qsum (?a :: ?r)] => change (Qsum (a :: r)) with (a + Qsum r)
             end; ring.
Qed.

Lemma filter_split_length {A} (p : A -> bool) (l : list A) :
  (List.length (filter p l) + List.length (filter (fun x => negb (p x)) l)
   = List.length l)%nat.
Proof.
  induction l as [|x l IH]; [reflexivity|].
  cbn [filter]. destruct (p x); cbn [negb List.length]; lia.
Qed.

Lemma mean_sinr_or_zero_sum (l : list SignalMetrics) :
  inject_Z (Z.of_nat (List.length l)) * Spec.mean_sinr_or_zero l
  == Qsum (map sinr l).
Proof.
  destruct l as [|m l].
  - simpl. ring.
  - unfold Spec.mean_sinr_or_zero.
    rewrite <- (length_map sinr (m :: l)). apply mean_times_length.
Qed.

(** ** Band analysis, continued *)

(** X2.  In the analysis of a band every sample is either a peak-hour or an
    off-peak sample, the mean SINR is the average of the peak and off-peak
    performance weighted by the number of samples of each kind, and the mean
    bandwidth score lies between 0 and 1 (for the empty list all of these
    are 0). *)
Theorem band_analysis_decomposition :
  forall (b : string) (l : list SignalMetrics),
    let p := AIAutomationAgent._analyze_band_performance b l in
    let at_peak m := Spec.peak_hour_of_day (hour (timestamp m)) in
    let n_peak := List.length (filter at_peak l) in
    let n_off := List.length (filter (fun m => negb (at_peak m)) l) in
    (n_peak + n_off = List.length l)%nat
    /\ inject_Z (Z.of_nat (List.length l)) * avg_sinr p
       == inject_Z (Z.of_nat n_peak) * peak_performance p
          + inject_Z (Z.of_nat n_off) * off_peak_performance p
    /\ 0 <= avg_bandwidth_score p <= 1.
Proof.
  intros b l p at_peak n_peak n_off.
  split; [apply filter_split_length|].
  destruct l as [|m l].
  - simpl. split; [ring | split; qlra].
  - assert (Hp : filter (fun x => AIAutomationAgent.in_hours
                                   AIAutomationAgent.analysis_peak_hours
                                   (hour (timestamp x))) (m :: l)
                 = filter at_peak (m :: l)).
    { apply filter_ext. intro x. apply in_hours_peak. }
    assert (Ho : filter (fun x => negb (AIAutomationAgent.in_hours
                                   AIAutomationAgent.analysis_peak_hours
                                   (hour (timestamp x)))) (m :: l)
                 = filter (fun x => negb (at_peak x)) (m :: l)).
    { apply filter_ext. intro x. rewrite in_hours_peak. reflexivity. }
    assert (Epeak : peak_performance p
                    = Spec.mean_sinr_or_zero (filter at_peak (m :: l))).
    { unfold p, AIAutomationAgent._analyze_band_performance. cbv zeta.
      rewrite Hp. reflexivity. }
    assert (Eoff : off_peak_performance p
                   = Spec.mean_sinr_or_zero
                       (filter (fun x => negb (at_peak x)) (m :: l))).
    { unfold p, AIAutomationAgent._analyze_band_performance. cbv zeta.
      rewrite Ho. reflexivity. }
    split.
    + rewrite Epeak, Eoff. unfold n_peak, n_off.
      rewrite !mean_sinr_or_zero_sum.
      change (avg_sinr p) with (mean (map sinr (m :: l))).
      rewrite <- (length_map sinr (m :: l)), mean_times_length.
      apply Qsum_filter_split.
    + change (avg_bandwidth_score p)
        with (mean (map DataLogger._calculate_bandwidth_score (m :: l))).
      apply mean_bounds; [simpl; discriminate|].
      apply bandwidth_scores_unit_interval.
Qed.

(** ** Batches of appends *)

Lemma log_batch_cons self io fs m ms :
  snd (DataLogger.log_batch_metrics self io fs (m :: ms))
  = snd (DataLogger.log_batch_metrics self io
           (snd (DataLogger.log_metrics self io fs m)) ms).
Proof. reflexivity. Qed.

Lemma log_metrics_json self io fs m :
  csv_append_fails io = false ->
  json (snd (DataLogger.log_metrics self io fs m))
  = json (DataLogger._append_to_json self io
            (mkFiles (Some (DataLogger.append_row (csv fs) (DataLogger.record_of m)))
               (json fs) (csv_backup fs) (json_backup fs))
            (DataLogger.record_of m)).
Proof. intro H. rewrite log_metrics_result, H. reflexivity. Qed.

(** One fault-free append keeps two files that agree in agreement. *)
Lemma log_metrics_step_in_step self io fs m :
  csv_append_fails io = false -> json_read_fails io = false ->
  json_write_fails io = false -> same_sample_set fs ->
  csv_records (snd (DataLogger.log_metrics self io fs m))
  = csv_records fs ++ [DataLogger.record_of m]
  /\ same_sample_set (snd (DataLogger.log_metrics self io fs m)).
Proof.
  intros Hc Hr Hw Hs.
  assert (Hok : fst (DataLogger.log_metrics self io fs m) = true)
    by (rewrite log_metrics_result, Hc; reflexivity).
  assert (Hcsv : csv_records (snd (DataLogger.log_metrics self io fs m))
                 = csv_records fs ++ [DataLogger.record_of m]).
  { unfold csv_records at 1. rewrite log_metrics_csv by exact Hok.
    apply append_row_records. }
  split; [exact Hcsv|].
  unfold same_sample_set in *. rewrite Hcsv.
  unfold json_records at 1. rewrite log_metrics_json by exact Hc.
  rewrite (append_to_json_written self io _ _ Hr Hw).
  - change (json_records (mkFiles
              (Some (DataLogger.append_row (csv fs) (DataLogger.record_of m)))
              (json fs) (csv_backup fs) (json_backup fs)))
      with (json_records fs).
    rewrite Hs. reflexivity.
  - cbn [json]. intro Ho. unfold json_records in Hs. rewrite Ho in Hs.
    discriminate Hs.
  - cbn [json]. intro Ho. unfold json_records in Hs. rewrite Ho in Hs.
    discriminate Hs.
Qed.

(** X3.  A batch of appends that meets no input/output error adds the
    records of its samples to the CSV file in the order given; if the CSV
    and JSON files held the same records before, they hold the same records
    after; and no backup is touched. *)
Theorem log_batch_keeps_files_in_step :
  forall (self : DataLogger.t) (io : Faults) (ms : list SignalMetrics)
         (fs : Files),
    csv_append_fails io = false ->
    json_read_fails io = false ->
    json_write_fails io = false ->
    same_sample_set fs ->
    let fs' := snd (DataLogger.log_batch_metrics self io fs ms) in
    csv_records fs' = csv_records fs ++ map DataLogger.record_of ms
    /\ same_sample_set fs'
    /\ csv_backup fs' = csv_backup fs
    /\ json_backup fs' = json_backup fs.
Proof.
  intros self io ms. induction ms as [|m ms IH]; intros fs Hc Hr Hw Hs.
  - cbn. rewrite app_nil_r. auto.
  - cbv zeta. rewrite log_batch_cons.
    destruct (log_metrics_step_in_step self io fs m Hc Hr Hw Hs) as [H1 H2].
    destruct (log_metrics_keeps_backups self io fs m) as [B1 B2].
    destruct (IH _ Hc Hr Hw H2) as (I1 & I2 & I3 & I4).
    rewrite I1, H1, I3, I4, B1, B2, <- app_assoc. auto.
Qed.

(** Two samples logged in one batch on a new log. *)
Lemma log_batch_keeps_files_in_step_witness :
  csv_records (snd (DataLogger.log_batch_metrics logger no_faults fresh_files
                      [first_sample; second_sample]))
  = [DataLogger.record_of first_sample; DataLogger.record_of second_sample]
  /\ same_sample_set (snd (DataLogger.log_batch_metrics logger no_faults
                             fresh_files [first_sample; second_sample])).
Proof.
  destruct (log_batch_keeps_files_in_step logger no_faults
              [first_sample; second_sample] fresh_files
              eq_refl eq_refl eq_refl eq_refl) as (H1 & H2 & _).
  split; [exact H1 | exact H2].
Defined.

(** X4.  [log_batch_metrics] returns [True] whatever happens to the single
    appends: when the CSV file cannot be opened the batch still reports
    success although neither file has changed. *)
Theorem log_batch_reports_success_regardless :
  forall (self : DataLogger.t) (io : Faults) (ms : list SignalMetrics)
         (fs : Files),
    fst (DataLogger.log_batch_metrics self io fs ms) = true
    /\ (csv_append_fails io = true ->
        snd (DataLogger.log_batch_metrics self io fs ms) = fs
        /\ forall m, In m ms ->
             fst (DataLogger.log_metrics self io fs m) = false).
Proof.
  intros self io ms fs. split; [reflexivity|]. intro Hf. split.
  - induction ms as [|m ms IH]; [reflexivity|].
    rewrite log_batch_cons, log_metrics_result, Hf. exact IH.
  - intros m _. rewrite log_metrics_result, Hf. reflexivity.
Qed.

(** Two samples, the CSV file not writable. *)
Lemma log_batch_reports_success_regardless_witness :
  DataLogger.log_batch_metrics logger (mkFaults true false false false)
    files_after_one [first_sample; second_sample]
  = (true, files_after_one).
Proof.
  destruct (log_batch_reports_success_regardless logger
              (mkFaults true false false false)
              [first_sample; second_sample] files_after_one) as [H1 H2].
  destruct (H2 eq_refl) as [H3 _].
  rewrite (surjective_pairing (DataLogger.log_batch_metrics _ _ _ _)).
  rewrite H1, H3. reflexivity.
Defined.

(** X5.  A JSON file that holds a JSON value other than an array is never
    repaired: every append leaves it as it is (the failing [data.append] is
    caught and logged), while the CSV file keeps growing, so the two files
    stop agreeing from the first append on. *)
Theorem non_array_json_never_rewritten :
  forall (self : DataLogger.t) (io : Faults) (ms : list SignalMetrics)
         (fs : Files),
    json fs = Some JsonOther ->
    let fs' := snd (DataLogger.log_batch_metrics self io fs ms) in
    json fs' = Some JsonOther
    /\ ~ same_sample_set fs'
    /\ (csv_append_fails io = false ->
        csv_records fs' = csv_records fs ++ map DataLogger.record_of ms).
Proof.
  intros self io ms. induction ms as [|m ms IH]; intros fs Hj.
  - cbn. rewrite app_nil_r. split; [exact Hj|]. split; [|auto].
    unfold same_sample_set, json_records. rewrite Hj. discriminate.
  - cbv zeta. rewrite log_batch_cons.
    assert (Hj1 : json (snd (DataLogger.log_metrics self io fs m))
                  = Some JsonOther).
    { rewrite log_metrics_result. destruct (csv_append_fails io); [exact Hj|].
      cbn [snd]. unfold DataLogger._append_to_json. cbn [json]. rewrite Hj.
      destruct (json_read_fails io); cbn [json]; first [reflexivity | exact Hj]. }
    destruct (IH _ Hj1) as (I1 & I2 & I3).
    split; [exact I1|]. split; [exact I2|]. intro Hc.
    rewrite (I3 Hc).
    assert (Hok : fst (DataLogger.log_metrics self io fs m) = true)
      by (rewrite log_metrics_result, Hc; reflexivity).
    unfold csv_records at 1. rewrite log_metrics_csv by exact Hok.
    rewrite append_row_records, <- app_assoc. reflexivity.
Qed.

(** The JSON file holds an object instead of an array. *)
Lemma non_array_json_never_rewritten_witness :
  json (snd (DataLogger.log_batch_metrics logger no_faults
               (mkFiles (csv files_after_one) (Some JsonOther) None None)
               [second_sample])) = Some JsonOther.
Proof.
  apply (non_array_json_never_rewritten logger no_faults [second_sample]
           (mkFiles (csv files_after_one) (Some JsonOther) None None) eq_refl).
Defined.

(** Appending to a CSV file that does not exist. *)
Lemma appends_to_missing_csv :
  forall (self : DataLogger.t) (io : Faults) (fs : Files)
         (ms : list SignalMetrics) (now hours : Z),
    csv fs = None ->
    csv_append_fails io = false ->
    let fs' := snd (DataLogger.log_batch_metrics self io fs ms) in
    csv_records fs' = map DataLogger.record_of ms
    /\ (ms <> [] -> option_map has_header (csv fs') = Some false)
    /\ DataLogger.get_metrics_summary self fs' now hours = None
    /\ DataLogger.export_band_comparison self fs' = None.
Proof.
  intros self io fs ms now hours Hn Hc fs'.
  destruct ms as [|m ms].
  - unfold fs'. cbn. unfold csv_records, DataLogger.get_metrics_summary,
      DataLogger.export_band_comparison. rewrite Hn.
    repeat split; try reflexivity. intro H; congruence.
  - assert (Hok : fst (DataLogger.log_metrics self io fs m) = true)
      by (rewrite log_metrics_result, Hc; reflexivity).
    pose proof (log_metrics_csv self io fs m Hok) as H1. rewrite Hn in H1.
    cbn [DataLogger.append_row] in H1.
    assert (H2 : csv fs' = Some (mkCsvFile false
                                   (map DataLogger.record_of (m :: ms)))).
    { unfold fs'. rewrite log_batch_cons.
      rewrite (log_batch_csv self io ms Hc _ _ H1). reflexivity. }
    unfold csv_records, DataLogger.get_metrics_summary,
      DataLogger.export_band_comparison. rewrite H2.
    repeat split; reflexivity.
Qed.

(** X6.  When the CSV file does not exist at the time samples are appended
    (it was removed, or rotated away without being created again), the
    appends create it without its header line: the records are in the
    file, but the summary is empty and the band comparison fails, whatever
    the window and however many samples follow. *)
Theorem recreated_csv_has_no_header :
  forall (self : DataLogger.t) (io : Faults) (fs : Files)
         (ms : list SignalMetrics) (now hours : Z),
    csv fs = None ->
    csv_append_fails io = false ->
    let fs' := snd (DataLogger.log_batch_metrics self io fs ms) in
    csv_records fs' = map DataLogger.record_of ms
    /\ (ms <> [] -> option_map has_header (csv fs') = Some false)
    /\ DataLogger.get_metrics_summary self fs' now hours = None
    /\ DataLogger.export_band_comparison self fs' = None.
Proof.
  intros self io fs ms now hours Hn Hc.
  exact (appends_to_missing_csv self io fs ms now hours Hn Hc).
Qed.

(** The CSV file is missing and two samples are logged. *)
Lemma recreated_csv_has_no_header_witness :
  DataLogger.get_metrics_summary logger
    (snd (DataLogger.log_batch_metrics logger no_faults
            (mkFiles None None None None) [first_sample; second_sample]))
    (9 * usec_per_hour) 24 = None
  /\ csv_records
       (snd (DataLogger.log_batch_metrics logger no_faults
               (mkFiles None None None None) [first_sample; second_sample]))
     = [DataLogger.record_of first_sample; DataLogger.record_of second_sample].
Proof.
  destruct (recreated_csv_has_no_header logger no_faults
              (mkFiles None None None None) [first_sample; second_sample]
              (9 * usec_per_hour) 24 eq_refl eq_refl) as (H1 & _ & H2 & _).
  split; [exact H2 | exact H1].
Defined.

(** ** The summary, field by field *)

Lemma argmin_spec s k v :
  argmin s = Some (k, v) ->
  In (k, v) s /\ forall kv, In kv s -> v <= snd kv.
Proof.
  revert k v. induction s as [|[k0 v0] s IH]; intros k v H; [discriminate H|].
  simpl in H. destruct (argmin s) as [[kb vb]|] eqn:E.
  - destruct (IH kb vb eq_refl) as [Hin Hmin]. simpl in H.
    destruct (Qlt_bool vb v0) eqn:Elt; injection H as <- <-.
    + split; [right; exact Hin|]. intros kv [<- | Hkv].
      * simpl. apply Qlt_bool_iff in Elt. qlra.
      * apply Hmin. exact Hkv.
    + apply Qlt_bool_false_iff in Elt.
      split; [left; reflexivity|]. intros kv [<- | Hkv].
      * simpl. qlra.
      * specialize (Hmin kv Hkv). qlra.
  - injection H as <- <-. apply argmin_None in E. subst s.
    split; [left; reflexivity|]. intros kv [<- | []]. simpl. qlra.
Qed.

(** What a non-empty summary was computed from. *)
Lemma summary_inversion self fs now hours s :
  DataLogger.get_metrics_summary self fs now hours = Some s ->
  let data := DataLogger.recent now hours (csv_records fs) in
  option_map has_header (csv fs) = Some true
  /\ data <> []
  /\ (exists v, argmax (groupby_agg rec_bandwidth_score mean data)
                = Some (DataLogger.best_performing_band s, v))
  /\ (exists v, argmin (groupby_agg rec_bandwidth_score mean data)
                = Some (DataLogger.worst_performing_band s, v))
  /\ DataLogger.total_records s = List.length data
  /\ DataLogger.average_bandwidth_score s = mean (map rec_bandwidth_score data)
  /\ DataLogger.signal_quality_distribution s
     = DataLogger.value_counts (map rec_signal_quality data)
  /\ DataLogger.bands_tested s
     = unique_labels [] (map (fun r => read_label (rec_band r)) data).
Proof.
  unfold DataLogger.get_metrics_summary, csv_records.
  destruct (csv fs) as [f|]; [|discriminate].
  destruct (has_header f) eqn:Eh; [|discriminate]. cbn [negb].
  destruct (DataLogger.timestamps_parse (csv_rows f)); [|discriminate].
  destruct (DataLogger.Timedelta_in_bounds hours); [|discriminate].
  cbn [negb].
  destruct (DataLogger.recent now hours (csv_rows f)) as [|x l] eqn:E;
    [discriminate|].
  unfold idxmax, idxmin.
  destruct (argmax (groupby_agg rec_bandwidth_score mean (x :: l)))
    as [[kmax vmax]|]; [|discriminate].
  destruct (argmin (groupby_agg rec_bandwidth_score mean (x :: l)))
    as [[kmin vmin]|]; [|discriminate].
  cbn [option_map fst]. intro H. injection H as <-. cbn.
  rewrite Eh. repeat split; try reflexivity.
  - discriminate.
  - exists vmax. reflexivity.
  - exists vmin. reflexivity.
Qed.


(** X7.  In a non-empty summary the best and the worst performing band are
    bands of rows of the window, and no band of the window has a mean
    bandwidth score above that of the best band or below that of the worst
    band (ties included). *)
Theorem summary_best_and_worst_band :
  forall (self : DataLogger.t) (fs : Files) (now hours : Z)
         (s : DataLogger.Summary),
    DataLogger.get_metrics_summary self fs now hours = Some s ->
    let data := DataLogger.recent now hours (csv_records fs) in
    let best := DataLogger.best_performing_band s in
    let worst := DataLogger.worst_performing_band s in
    (exists r, In r data /\ rec_band r = best)
    /\ (exists r, In r data /\ rec_band r = worst)
    /\ is_na best = false /\ is_na worst = false
    /\ forall r, In r data -> is_na (rec_band r) = false ->
         mean_score worst data <= mean_score (rec_band r) data
         /\ mean_score (rec_band r) data <= mean_score best data.
Proof.
  intros self fs now hours s Hs data best worst.
  destruct (summary_inversion self fs now hours s Hs)
    as (_ & _ & (vmax & Hmax) & (vmin & Hmin) & _).
  fold data in Hmax, Hmin. fold best in Hmax. fold worst in Hmin.
  destruct (argmax_spec _ _ _ Hmax) as [Imax Amax].
  destruct (argmin_spec _ _ _ Hmin) as [Imin Amin].
  apply groupby_agg_In in Imax. destruct Imax as [Kmax Vmax].
  apply groupby_agg_In in Imin. destruct Imin as [Kmin Vmin].
  apply group_keys_In in Kmax. destruct Kmax as [Rmax Nmax].
  apply group_keys_In in Kmin. destruct Kmin as [Rmin Nmin].
  repeat split; try assumption.
  - assert (Hin : In (rec_band r, mean_score (rec_band r) data)
                    (groupby_agg rec_bandwidth_score mean data)).
    { apply groupby_agg_In. split; [|reflexivity]. apply group_keys_In.
      split; [exists r; auto | assumption]. }
    specialize (Amin _ Hin). cbn [snd] in Amin. rewrite Vmin in Amin.
    exact Amin.
  - assert (Hin : In (rec_band r, mean_score (rec_band r) data)
                    (groupby_agg rec_bandwidth_score mean data)).
    { apply groupby_agg_In. split; [|reflexivity]. apply group_keys_In.
      split; [exists r; auto | assumption]. }
    specialize (Amax _ Hin). cbn [snd] in Amax. rewrite Vmax in Amax.
    exact Amax.
Qed.

(** The scenario log: B3 is the best band, B7 the worst. *)
Lemma summary_best_and_worst_band_witness :
  exists s,
    DataLogger.get_metrics_summary logger (files scenario_world)
      (9 * usec_per_hour) 6 = Some s
    /\ DataLogger.best_performing_band s = "B3"%string
    /\ DataLogger.worst_performing_band s = "B7"%string
    /\ mean_score "B7"
         (DataLogger.recent (9 * usec_per_hour) 6
            (csv_records (files scenario_world)))
       <= mean_score "B3"
            (DataLogger.recent (9 * usec_per_hour) 6
               (csv_records (files scenario_world))).
Proof.
  destruct (DataLogger.get_metrics_summary logger (files scenario_world)
              (9 * usec_per_hour) 6) as [s|] eqn:E;
    [|vm_compute in E; discriminate E].
  exists s. split; [reflexivity|].
  destruct (summary_best_and_worst_band logger (files scenario_world)
              (9 * usec_per_hour) 6 s E) as (_ & (r & Hr & Hw) & _ & _ & H).
  assert (Hb : DataLogger.best_performing_band s = "B3"%string)
    by (vm_compute in E; injection E as <-; reflexivity).
  assert (Hwo : DataLogger.worst_performing_band s = "B7"%string)
    by (vm_compute in E; injection E as <-; reflexivity).
  split; [exact Hb|]. split; [exact Hwo|].
  rewrite <- Hb, <- Hwo, <- Hw. apply H; [exact Hr|].
  rewrite Hw, Hwo. reflexivity.
Defined.

Lemma quality_counts_total (l : list QualityClass) :
  (List.length (filter (QualityClass_eqb excellent) l)
   + List.length (filter (QualityClass_eqb good) l)
   + List.length (filter (QualityClass_eqb fair) l)
   + List.length (filter (QualityClass_eqb poor) l)
   = List.length l)%nat.
Proof.
  induction l as [|c l IH]; [reflexivity|].
  destruct c; cbn [filter QualityClass_eqb List.length]; lia.
Qed.

Lemma list_sum_filter_nonzero (l : list (QualityClass * nat)) :
  list_sum (map snd (filter (fun p => negb (Nat.eqb (snd p) 0)) l))
  = list_sum (map snd l).
Proof.
  unfold list_sum. induction l as [|[c n] l IH]; [reflexivity|].
  cbn [filter snd]. destruct (Nat.eqb n 0) eqn:E; cbn [negb map fold_right snd].
  - apply Nat.eqb_eq in E. subst n. exact IH.
  - rewrite IH. reflexivity.
Qed.

Lemma value_counts_total (l : list QualityClass) :
  list_sum (map snd (DataLogger.value_counts l)) = List.length l.
Proof.
  unfold DataLogger.value_counts. rewrite list_sum_filter_nonzero.
  unfold list_sum. cbn [map snd fold_right].
  pose proof (quality_counts_total l). lia.
Qed.

Lemma value_counts_entry (l : list QualityClass) c n :
  In (c, n) (DataLogger.value_counts l) ->
  n = List.length (filter (QualityClass_eqb c) l) /\ (1 <= n)%nat.
Proof.
  unfold DataLogger.value_counts. rewrite filter_In. intros [Hin Hnz].
  cbn [snd] in Hnz. apply negb_true_iff, Nat.eqb_neq in Hnz.
  split; [|lia].
  cbn [map] in Hin.
  repeat (destruct Hin as [Hin | Hin]; [injection Hin as <- <-; reflexivity|]).
  contradiction.
Qed.

Lemma label_seen_iff (x : label) (seen : list label) :
  existsb (fun y => match x, y with
                    | Name a, Name b => String.eqb a b
                    | NaN, NaN => true
                    | _, _ => false
                    end) seen = true
  <-> In x seen.
Proof.
  rewrite existsb_exists. split.
  - intros (y & Hy & E). destruct x as [a|], y as [b|]; try discriminate E.
    + apply String.eqb_eq in E. subst b. exact Hy.
    + exact Hy.
  - intro H. exists x. split; [exact H|]. destruct x; [apply String.eqb_refl|reflexivity].
Qed.

Lemma unique_labels_spec (l seen : list label) :
  NoDup (unique_labels seen l)
  /\ forall x, In x (unique_labels seen l) <-> In x l /\ ~ In x seen.
Proof.
  revert seen. induction l as [|y l IH]; intro seen.
  - cbn. split; [constructor | tauto].
  - cbn [unique_labels].
    destruct (existsb _ seen) eqn:E.
    + apply label_seen_iff in E. destruct (IH seen) as [N M].
      split; [exact N|]. intro x. rewrite M. cbn [In]. split.
      * intros [H1 H2]. auto.
      * intros [[<- | H1] H2]; [contradiction | auto].
    + assert (Hy : ~ In y seen).
      { intro H. apply label_seen_iff in H. congruence. }
      destruct (IH (y :: seen)) as [N M]. split.
      * constructor; [|exact N]. rewrite M. cbn [In]. tauto.
      * intro x. cbn [In]. rewrite M. cbn [In]. split.
        -- intros [<- | [H1 H2]]; [auto | tauto].
        -- intros [[<- | H1] H2]; [auto|].
           destruct x as [a|], y as [b|].
           ++ destruct (string_dec b a) as [->|Hne]; [auto|].
              right. split; [exact H1|]. intros [H3|H3]; [congruence | auto].
           ++ right. split; [exact H1|]. intros [H3|H3]; [discriminate | auto].
           ++ right. split; [exact H1|]. intros [H3|H3]; [discriminate | auto].
           ++ auto.
Qed.

(** X8.  In a non-empty summary the record count is at least one, the
    counts of the quality distribution are all positive and add up to the
    record count, and the list of bands seen has no repetition and holds
    exactly the band labels of the rows of the window (NaN for a missing
    band). *)
Theorem summary_counts_are_consistent :
  forall (self : DataLogger.t) (fs : Files) (now hours : Z)
         (s : DataLogger.Summary),
    DataLogger.get_metrics_summary self fs now hours = Some s ->
    let data := DataLogger.recent now hours (csv_records fs) in
    (1 <= DataLogger.total_records s)%nat
    /\ list_sum (map snd (DataLogger.signal_quality_distribution s))
       = DataLogger.total_records s
    /\ (forall c n, In (c, n) (DataLogger.signal_quality_distribution s) ->
          (1 <= n)%nat
          /\ n = List.length (filter (fun r => QualityClass_eqb c
                                                (rec_signal_quality r)) data))
    /\ NoDup (DataLogger.bands_tested s)
    /\ (forall l, In l (DataLogger.bands_tested s)
                  <-> exists r, In r data /\ read_label (rec_band r) = l).
Proof.
  intros self fs now hours s Hs data.
  destruct (summary_inversion self fs now hours s Hs)
    as (_ & Hne & _ & _ & Ht & _ & Hd & Hb).
  fold data in Hne, Ht, Hd, Hb.
  split; [|split; [|split; [|split]]].
  - rewrite Ht. destruct data; [congruence | cbn; lia].
  - rewrite Hd, value_counts_total, Ht. apply length_map.
  - intros c n Hin. rewrite Hd in Hin.
    destruct (value_counts_entry _ _ _ Hin) as [E P]. split; [exact P|].
    rewrite E. clear. induction data as [|r l IH]; [reflexivity|].
    cbn [map filter]. destruct (QualityClass_eqb c (rec_signal_quality r));
      cbn [List.length]; rewrite IH; reflexivity.
  - rewrite Hb. apply unique_labels_spec.
  - intro l. rewrite Hb.
    destruct (unique_labels_spec
                (map (fun r => read_label (rec_band r)) data) []) as [_ M].
    rewrite M, in_map_iff. cbn [In]. split.
    + intros [(r & E & Hr) _]. exists r. auto.
    + intros (r & Hr & E). split; [exists r; auto | tauto].
Qed.

(** The scenario log seen over six hours: twenty records, two bands. *)
Lemma summary_counts_are_consistent_witness :
  exists s,
    DataLogger.get_metrics_summary logger (files scenario_world)
      (9 * usec_per_hour) 6 = Some s
    /\ list_sum (map snd (DataLogger.signal_quality_distribution s)) = 20%nat
    /\ NoDup (DataLogger.bands_tested s).
Proof.
  destruct (DataLogger.get_metrics_summary logger (files scenario_world)
              (9 * usec_per_hour) 6) as [s|] eqn:E;
    [|vm_compute in E; discriminate E].
  exists s. split; [reflexivity|].
  destruct (summary_counts_are_consistent logger (files scenario_world)
              (9 * usec_per_hour) 6 s E) as (_ & H1 & _ & H2 & _).
  split; [|exact H2]. rewrite H1.
  vm_compute in E. injection E as <-. reflexivity.
Defined.

(** X9.  The mean bandwidth score of a summary computed from a log that was
    filled by the logger itself lies between 0 and 1. *)
Theorem summary_average_score_range :
  forall (self : DataLogger.t) (io : Faults) (fs0 : Files)
         (ms : list SignalMetrics) (now hours : Z) (s : DataLogger.Summary),
    csv fs0 = Some (mkCsvFile true []) ->
    csv_append_fails io = false ->
    DataLogger.get_metrics_summary self
      (snd (DataLogger.log_batch_metrics self io fs0 ms)) now hours = Some s ->
    0 <= DataLogger.average_bandwidth_score s <= 1.
Proof.
  intros self io fs0 ms now hours s H0 Hc Hs.
  destruct (summary_inversion self _ now hours s Hs)
    as (_ & Hne & _ & _ & _ & Ha & _).
  assert (Hrows : csv_records (snd (DataLogger.log_batch_metrics self io fs0 ms))
                  = map DataLogger.record_of ms).
  { unfold csv_records. rewrite (log_batch_csv self io ms Hc fs0 _ H0).
    reflexivity. }
  rewrite Hrows in Hne, Ha. rewrite Ha.
  apply mean_bounds.
  - intro E. apply map_eq_nil in E. contradiction.
  - intros x Hx. apply in_map_iff in Hx. destruct Hx as (r & <- & Hr).
    unfold DataLogger.recent in Hr. apply filter_In in Hr. destruct Hr as [Hr _].
    apply in_map_iff in Hr. destruct Hr as (m & <- & _).
    cbn [DataLogger.record_of rec_bandwidth_score].
    apply bandwidth_score_bounds.
Qed.

(** The scenario log again. *)
Lemma summary_average_score_range_witness :
  exists s,
    DataLogger.get_metrics_summary logger
      (snd (DataLogger.log_batch_metrics logger no_faults fresh_files
              scenario_samples))
      (9 * usec_per_hour) 6 = Some s
    /\ 0 <= DataLogger.average_bandwidth_score s <= 1.
Proof.
  destruct (DataLogger.get_metrics_summary logger
              (snd (DataLogger.log_batch_metrics logger no_faults fresh_files
                      scenario_samples))
              (9 * usec_per_hour) 6) as [s|] eqn:E;
    [|vm_compute in E; discriminate E].
  exists s. split; [reflexivity|].
  exact (summary_average_score_range logger no_faults fresh_files
           scenario_samples (9 * usec_per_hour) 6 s eq_refl eq_refl E).
Defined.





(** ** The band comparison *)








(** ** Cleaning up, continued *)

(** X12.  [cleanup_old_logs] never destroys the current content of a log
    file: whatever the sizes, the limit and the outcome of the renaming,
    the content the CSV (JSON) file had before is afterwards the content of
    the file or of its backup.  When the renaming fails, and when neither
    file is larger than the limit, nothing changes at all. *)
Theorem cleanup_keeps_log_content :
  forall (csv_size : CsvFile -> Z) (json_size : JsonText -> Z)
         (self : DataLogger.t) (io : Faults) (max_size_mb : Q) (fs : Files),
    let fs' := DataLogger.cleanup_old_logs csv_size json_size self io
                 max_size_mb fs in
    (forall f, csv fs = Some f -> csv fs' = Some f \/ csv_backup fs' = Some f)
    /\ (forall j, json fs = Some j ->
                  json fs' = Some j \/ json_backup fs' = Some j)
    /\ (rename_fails io = true -> fs' = fs)
    /\ ((forall f, csv fs = Some f ->
                   DataLogger.exceeds (csv_size f) max_size_mb = false) ->
        (forall j, json fs = Some j ->
                   DataLogger.exceeds (json_size j) max_size_mb = false) ->
        fs' = fs).
Proof.
  intros csv_size json_size self io max_size_mb fs fs'.
  unfold fs', DataLogger.cleanup_old_logs, DataLogger.cleanup_csv_file,
    DataLogger.cleanup_json_file, DataLogger._init_csv_file.
  destruct fs as [c j cb jb]. cbn [csv json csv_backup json_backup].
  split; [|split; [|split]].
  - intros f ->.
    destruct (DataLogger.exceeds (csv_size f) max_size_mb);
      destruct (rename_fails io);
      destruct (endswith (DataLogger.csv_file self) ".csv");
      destruct j as [jt|]; cbn;
      try destruct (DataLogger.exceeds (json_size jt) max_size_mb);
      try destruct (endswith (DataLogger.json_file self) ".csv");
      cbn; auto.
  - intros jt ->.
    destruct c as [f|];
      try destruct (DataLogger.exceeds (csv_size f) max_size_mb);
      destruct (rename_fails io);
      destruct (endswith (DataLogger.csv_file self) ".csv");
      cbn;
      destruct (DataLogger.exceeds (json_size jt) max_size_mb);
      try destruct (endswith (DataLogger.json_file self) ".csv");
      cbn; auto.
  - intros ->.
    destruct c as [f|];
      try destruct (DataLogger.exceeds (csv_size f) max_size_mb);
      destruct j as [jt|]; cbn;
      try destruct (DataLogger.exceeds (json_size jt) max_size_mb);
      reflexivity.
  - intros Hc Hj.
    destruct c as [f|]; [rewrite (Hc f eq_refl)|];
      (destruct j as [jt|]; cbn; [rewrite (Hj jt eq_refl)|]); reflexivity.
Qed.

(** The long log, one row beyond the limit, with a renaming that fails:
    nothing changes. *)
Lemma cleanup_keeps_log_content_witness :
  DataLogger.cleanup_old_logs example_csv_size example_json_size logger
    (mkFaults false false false true) 1
    (snd (DataLogger.log_metrics logger no_faults long_log second_sample))
  = snd (DataLogger.log_metrics logger no_faults long_log second_sample).
Proof.
  destruct (cleanup_keeps_log_content example_csv_size example_json_size
              logger (mkFaults false false false true) 1
              (snd (DataLogger.log_metrics logger no_faults long_log
                      second_sample))) as (_ & _ & H & _).
  apply H. reflexivity.
Defined.

(** X13.  The two files are rotated independently of each other.  When the
    JSON file alone is larger than the limit, it becomes its backup and no
    JSON file is left, the CSV file and its backup stay as they are, and
    the next fault-free append starts a new JSON array that holds the new
    record only, while the CSV file gains one row. *)
Theorem cleanup_rotates_json_alone :
  forall (csv_size : CsvFile -> Z) (json_size : JsonText -> Z)
         (self : DataLogger.t) (io : Faults) (max_size_mb : Q) (fs : Files)
         (f : CsvFile) (j : JsonText) (m : SignalMetrics),
    csv fs = Some f ->
    json fs = Some j ->
    DataLogger.exceeds (csv_size f) max_size_mb = false ->
    DataLogger.exceeds (json_size j) max_size_mb = true ->
    csv_append_fails io = false -> json_read_fails io = false ->
    json_write_fails io = false -> rename_fails io = false ->
    let fs' := DataLogger.cleanup_old_logs csv_size json_size self io
                 max_size_mb fs in
    let fs'' := snd (DataLogger.log_metrics self io fs' m) in
    csv fs' = Some f /\ csv_backup fs' = csv_backup fs
    /\ json fs' = None /\ json_backup fs' = Some j
    /\ json fs'' = Some (JsonArray [DataLogger.record_of m])
    /\ csv_records fs'' = csv_rows f ++ [DataLogger.record_of m].
Proof.
  intros csv_size json_size self io max_size_mb fs f j m Hc Hj Ec Ej
    Ha Hr Hw Hn fs' fs''.
  assert (Hfs' : fs' = mkFiles (Some f) None (csv_backup fs) (Some j)).
  { unfold fs', DataLogger.cleanup_old_logs, DataLogger.cleanup_csv_file,
      DataLogger.cleanup_json_file. rewrite Hc, Ec, Hj, Ej, Hn.
    destruct (endswith (DataLogger.json_file self) ".csv"); [|rewrite Hc; reflexivity].
    unfold DataLogger._init_csv_file. cbn [csv]. rewrite Hc. reflexivity. }
  rewrite Hfs'. cbn [csv json csv_backup json_backup].
  repeat split; try reflexivity.
  - unfold fs''. rewrite Hfs', log_metrics_json by exact Ha.
    rewrite (append_to_json_written self io _ _ Hr Hw);
      [reflexivity | cbn; discriminate | cbn; discriminate].
  - unfold fs''. rewrite Hfs'.
    assert (Hok : fst (DataLogger.log_metrics self io
                         (mkFiles (Some f) None (csv_backup fs) (Some j)) m)
                  = true)
      by (rewrite log_metrics_result, Ha; reflexivity).
    unfold csv_records. rewrite log_metrics_csv by exact Hok. reflexivity.
Qed.

(** A log of forty-one records: the CSV file weighs 3770 bytes in the size
    model, the JSON file 10662; with a limit of 0.005 mebibyte (about 5243
    bytes) only the JSON file is rotated. *)
Lemma cleanup_rotates_json_alone_witness :
  json (DataLogger.cleanup_old_logs example_csv_size example_json_size logger
          no_faults (5 # 1000)
          (snd (DataLogger.log_batch_metrics logger no_faults fresh_files
                  (spaced "B3" 15 (-85) 0 41)))) = None
  /\ option_map (fun f => List.length (csv_rows f))
       (csv (DataLogger.cleanup_old_logs example_csv_size example_json_size
               logger no_faults (5 # 1000)
               (snd (DataLogger.log_batch_metrics logger no_faults fresh_files
                       (spaced "B3" 15 (-85) 0 41))))) = Some 41%nat.
Proof.
  destruct (cleanup_rotates_json_alone example_csv_size example_json_size
              logger no_faults (5 # 1000)
              (snd (DataLogger.log_batch_metrics logger no_faults fresh_files
                      (spaced "B3" 15 (-85) 0 41)))
              (mkCsvFile true
                 (map DataLogger.record_of (spaced "B3" 15 (-85) 0 41)))
              (JsonArray
                 (map DataLogger.record_of (spaced "B3" 15 (-85) 0 41)))
              second_sample)
    as (H1 & _ & H2 & _);
    [reflexivity | reflexivity | vm_compute; reflexivity
    | vm_compute; reflexivity | reflexivity | reflexivity | reflexivity
    | reflexivity | ].
  split; [exact H2|]. rewrite H1. reflexivity.
Defined.

(** X14.  A logger whose CSV path does not end in [.csv] (nor its JSON
    path) loses sight of its data at the first rotation: the oversized CSV
    file is moved to the backup and no file with the header is created, so
    the samples appended afterwards land in a file without header, and the
    summary and the band comparison stay empty. *)
Theorem rotation_without_csv_suffix_blinds_summary :
  forall (csv_size : CsvFile -> Z) (json_size : JsonText -> Z)
         (self : DataLogger.t) (io : Faults) (max_size_mb : Q) (fs : Files)
         (f : CsvFile) (ms : list SignalMetrics) (now hours : Z),
    csv fs = Some f ->
    DataLogger.exceeds (csv_size f) max_size_mb = true ->
    endswith (DataLogger.csv_file self) ".csv" = false ->
    endswith (DataLogger.json_file self) ".csv" = false ->
    csv_append_fails io = false -> rename_fails io = false ->
    let fs' := DataLogger.cleanup_old_logs csv_size json_size self io
                 max_size_mb fs in
    let fs'' := snd (DataLogger.log_batch_metrics self io fs' ms) in
    csv fs' = None /\ csv_backup fs' = Some f
    /\ csv_records fs'' = map DataLogger.record_of ms
    /\ DataLogger.get_metrics_summary self fs'' now hours = None
    /\ DataLogger.export_band_comparison self fs'' = None.
Proof.
  intros csv_size json_size self io max_size_mb fs f ms now hours
    Hc Ec Sc Sj Ha Hn fs' fs''.
  assert (H1 : csv fs' = None /\ csv_backup fs' = Some f).
  { unfold fs', DataLogger.cleanup_old_logs, DataLogger.cleanup_csv_file,
      DataLogger.cleanup_json_file. rewrite Hc, Ec, Hn, Sc, Sj.
    cbn [json csv csv_backup].
    destruct (json fs) as [j|]; [|auto].
    destruct (DataLogger.exceeds (json_size j) max_size_mb); auto. }
  destruct H1 as [H1 H2]. split; [exact H1|]. split; [exact H2|].
  destruct (appends_to_missing_csv self io fs' ms now hours H1 Ha)
    as (R1 & _ & R2 & R3).
  auto.
Qed.

(** A logger writing to [metrics.log] and [metrics.json]: after the long log
    is rotated, a logged sample is in the file and the summary is empty. *)
Lemma rotation_without_csv_suffix_blinds_summary_witness :
  DataLogger.get_metrics_summary (DataLogger.mk "metrics.log" "metrics.json")
    (snd (DataLogger.log_batch_metrics
            (DataLogger.mk "metrics.log" "metrics.json") no_faults
            (DataLogger.cleanup_old_logs example_csv_size example_json_size
               (DataLogger.mk "metrics.log" "metrics.json") no_faults 1
               (snd (DataLogger.log_metrics logger no_faults long_log
                       second_sample)))
            [first_sample]))
    (9 * usec_per_hour) 24 = None.
Proof.
  destruct (rotation_without_csv_suffix_blinds_summary
              example_csv_size example_json_size
              (DataLogger.mk "metrics.log" "metrics.json") no_faults 1
              (snd (DataLogger.log_metrics logger no_faults long_log
                      second_sample))
              (DataLogger.append_row (csv long_log)
                 (DataLogger.record_of second_sample))
              [first_sample] (9 * usec_per_hour) 24)
    as (_ & _ & _ & H & _);
    [reflexivity | vm_compute; reflexivity | reflexivity | reflexivity
    | reflexivity | reflexivity | exact H].
Defined.

(** ** The smart switch, continued *)

(** The best band of a summary is the band of a row of the window. *)
Lemma summary_best_is_band self fs now hours s :
  DataLogger.get_metrics_summary self fs now hours = Some s ->
  is_na (DataLogger.best_performing_band s) = false
  /\ exists r, In r (DataLogger.recent now hours (csv_records fs))
               /\ rec_band r = DataLogger.best_performing_band s.
Proof.
  intro Hs.
  destruct (summary_inversion self fs now hours s Hs)
    as (_ & _ & (v & Hmax) & _).
  destruct (argmax_spec _ _ _ Hmax) as [Imax _].
  apply groupby_agg_In in Imax. destruct Imax as [Kmax _].
  apply group_keys_In in Kmax. destruct Kmax as [R N]. auto.
Qed.

Lemma not_na_not_empty b : is_na b = false -> String.eqb b "" = false.
Proof.
  intro H. destruct (String.eqb b "") eqn:E; [|reflexivity].
  apply String.eqb_eq in E. subst b. vm_compute in H. discriminate H.
Qed.

(** [_smart_band_switch] case by case on the answers of the router. *)
Lemma smart_band_switch_cases self w now :
  let w' := AIAutomationAgent._smart_band_switch self w now in
  match DataLogger.get_metrics_summary (AIAutomationAgent.data_logger self)
          (files w) now 6 with
  | None => trace w' = trace w ++ [SmartSwitch]
  | Some s =>
      let best := DataLogger.best_performing_band s in
      match feed w with
      | [] | None :: _ =>
          trace w' = trace w ++ [SmartSwitch; GetSignal; SetBand (Name best)]
      | [Some _] | Some _ :: None :: _ =>
          trace w' = trace w ++ [SmartSwitch; GetSignal; GetSignal]
      | Some _ :: Some m2 :: _ =>
          trace w' = trace w ++ [SmartSwitch; GetSignal; GetSignal]
                     ++ (if String.eqb best (band m2) then []
                         else [SetBand (Name best)])
      end
  end
  /\ files w' = files w /\ accepts w' = accepts w.
Proof.
  cbv zeta. unfold AIAutomationAgent._smart_band_switch. cbn [files].
  destruct (DataLogger.get_metrics_summary (AIAutomationAgent.data_logger self)
              (files w) now 6) as [s|] eqn:Hs; [|cbn; auto].
  destruct (summary_best_is_band _ _ _ _ _ Hs) as [Hna _].
  pose proof (not_na_not_empty _ Hna) as Hne.
  unfold AIAutomationAgent.current_band_twice, HuaweiRouter.get_signal_metrics.
  cbn [feed files accepts trace].
  destruct (feed w) as [|[m1|] [|[m2|] rest]];
    cbn [feed files accepts trace];
    unfold AIAutomationAgent.switch_if_different, truthy, label_differs,
      HuaweiRouter.set_lte_band;
    rewrite ?Hne; cbn [negb andb snd trace files accepts];
    try (destruct (String.eqb (DataLogger.best_performing_band s) (band m2));
         cbn [negb snd trace files accepts]);
    rewrite <- ?app_assoc; cbn [app]; auto.
Qed.

(** X15.  [_smart_band_switch] never touches the files, asks the router
    for its signal at most twice and sends at most one band command.  A
    command it sends names a band of a row logged in the last six hours (a
    band cell not read as missing), and never the band the router has just
    reported. *)
Theorem smart_switch_is_cautious :
  forall (self : AIAutomationAgent.t) (w : World) (now : Z),
    let w' := AIAutomationAgent._smart_band_switch self w now in
    files w' = files w
    /\ exists (polls : nat) (commands : list label),
         trace w' = trace w ++ [SmartSwitch] ++ repeat GetSignal polls
                    ++ map SetBand commands
         /\ (polls <= 2)%nat
         /\ (List.length commands <= 1)%nat
         /\ forall l, In l commands ->
              exists b, l = Name b /\ is_na b = false
                /\ (exists r, In r (DataLogger.recent now 6
                                      (csv_records (files w)))
                              /\ rec_band r = b)
                /\ forall m1 m2 rest,
                     feed w = Some m1 :: Some m2 :: rest -> band m2 <> b.
Proof.
  intros self w now w'.
  destruct (smart_band_switch_cases self w now) as (Hcase & Hf & _).
  fold w' in Hcase, Hf. split; [exact Hf|].
  destruct (DataLogger.get_metrics_summary (AIAutomationAgent.data_logger self)
              (files w) now 6) as [s|] eqn:Hs.
  2:{ exists 0%nat, []. rewrite Hcase.
      split; [reflexivity|]. split; [lia|]. split; [cbn; lia|].
      intros l []. }
  destruct (summary_best_is_band _ _ _ _ _ Hs) as [Hna Hrow].
  cbv zeta in Hcase.
  assert (Hone : forall l, In l [Name (DataLogger.best_performing_band s)] ->
            (forall m1 m2 rest, feed w = Some m1 :: Some m2 :: rest ->
                                band m2 <> DataLogger.best_performing_band s) ->
            exists b, l = Name b /\ is_na b = false
              /\ (exists r, In r (DataLogger.recent now 6 (csv_records (files w)))
                            /\ rec_band r = b)
              /\ forall m1 m2 rest,
                   feed w = Some m1 :: Some m2 :: rest -> band m2 <> b).
  { intros l [<- | []] Hd. exists (DataLogger.best_performing_band s). auto. }
  assert (Hsend : forall polls,
            (polls <= 2)%nat ->
            trace w' = trace w ++ [SmartSwitch] ++ repeat GetSignal polls
                       ++ map SetBand [Name (DataLogger.best_performing_band s)] ->
            (forall m1 m2 rest, feed w = Some m1 :: Some m2 :: rest ->
                                band m2 <> DataLogger.best_performing_band s) ->
            exists (polls : nat) (commands : list label),
              trace w' = trace w ++ [SmartSwitch] ++ repeat GetSignal polls
                         ++ map SetBand commands
              /\ (polls <= 2)%nat /\ (List.length commands <= 1)%nat
              /\ forall l, In l commands ->
                   exists b, l = Name b /\ is_na b = false
                     /\ (exists r, In r (DataLogger.recent now 6
                                           (csv_records (files w)))
                                   /\ rec_band r = b)
                     /\ forall m1 m2 rest,
                          feed w = Some m1 :: Some m2 :: rest -> band m2 <> b).
  { intros polls Hp Ht Hd.
    exists polls, [Name (DataLogger.best_performing_band s)].
    split; [exact Ht|]. split; [exact Hp|]. split; [cbn; lia|].
    intros l Hl. apply Hone; assumption. }
  assert (Hquiet : trace w' = trace w ++ [SmartSwitch; GetSignal; GetSignal] ->
            exists (polls : nat) (commands : list label),
              trace w' = trace w ++ [SmartSwitch] ++ repeat GetSignal polls
                         ++ map SetBand commands
              /\ (polls <= 2)%nat /\ (List.length commands <= 1)%nat
              /\ forall l, In l commands ->
                   exists b, l = Name b /\ is_na b = false
                     /\ (exists r, In r (DataLogger.recent now 6
                                           (csv_records (files w)))
                                   /\ rec_band r = b)
                     /\ forall m1 m2 rest,
                          feed w = Some m1 :: Some m2 :: rest -> band m2 <> b).
  { intro Ht. exists 2%nat, [].
    split; [exact Ht|]. split; [lia|]. split; [cbn; lia|]. intros l []. }
  destruct (feed w) as [|[m1|] [|[m2|] rest]] eqn:Hfeed.
  - apply (Hsend 1%nat); [lia | exact Hcase | intros; discriminate].
  - apply Hquiet. exact Hcase.
  - destruct (String.eqb (DataLogger.best_performing_band s) (band m2)) eqn:E.
    + apply Hquiet. rewrite Hcase. cbn [app]. reflexivity.
    + apply (Hsend 2%nat); [lia | exact Hcase |].
      intros a b r H. injection H as _ <- _. intro Eb.
      apply String.eqb_neq in E. congruence.
  - apply Hquiet. exact Hcase.
  - apply (Hsend 1%nat); [lia | exact Hcase | intros; discriminate].
  - apply (Hsend 1%nat); [lia | exact Hcase | intros; discriminate].
  - apply (Hsend 1%nat); [lia | exact Hcase | intros; discriminate].
Qed.

(** X16.  What [_smart_band_switch] does when the router does not answer,
    given a non-empty six-hour summary.  If the first request fails, the
    current band counts as unknown and the command for the best band is
    sent, without a second request, even if the router is on that band
    already.  If the first request succeeds and the second fails, the
    error is caught and no command is sent. *)
Theorem smart_switch_with_silent_router :
  forall (self : AIAutomationAgent.t) (w : World) (now : Z)
         (s : DataLogger.Summary),
    DataLogger.get_metrics_summary (AIAutomationAgent.data_logger self)
      (files w) now 6 = Some s ->
    let w' := AIAutomationAgent._smart_band_switch self w now in
    ((feed w = [] \/ exists rest, feed w = None :: rest) ->
     trace w' = trace w ++ [SmartSwitch; GetSignal;
                            SetBand (Name (DataLogger.best_performing_band s))])
    /\ (forall m1, (feed w = [Some m1] \/ exists rest, feed w = Some m1 :: None :: rest) ->
        trace w' = trace w ++ [SmartSwitch; GetSignal; GetSignal]).
Proof.
  intros self w now s Hs w'.
  destruct (smart_band_switch_cases self w now) as (Hcase & _).
  fold w' in Hcase. rewrite Hs in Hcase. cbv zeta in Hcase. split.
  - intros [E | (rest & E)]; rewrite E in Hcase; exact Hcase.
  - intros m1 [E | (rest & E)]; rewrite E in Hcase; exact Hcase.
Qed.

(** The scenario log with a router that does not answer at all: the command
    for B3 is sent. *)
Lemma smart_switch_with_silent_router_witness :
  trace (AIAutomationAgent._smart_band_switch agent
           (mkWorld (files scenario_world) [] (fun _ => true) [])
           (9 * usec_per_hour))
  = [SmartSwitch; GetSignal; SetBand (Name "B3")].
Proof.
  destruct (DataLogger.get_metrics_summary logger (files scenario_world)
              (9 * usec_per_hour) 6) as [s|] eqn:E;
    [|vm_compute in E; discriminate E].
  destruct (smart_switch_with_silent_router agent
              (mkWorld (files scenario_world) [] (fun _ => true) [])
              (9 * usec_per_hour) s E) as [H _].
  rewrite H by (left; reflexivity).
  vm_compute in E. injection E as <-. reflexivity.
Defined.

(** ** The degradation check, continued *)

(** No switch is considered when no recent score is above the score of the
    sample. *)
Lemma check_band_switch_not_degraded self cfg w now m :
  0 <= auto_switch_threshold cfg <= 1 ->
  (forall r, In r (DataLogger.recent now 1 (csv_records (files w))) ->
             0 <= rec_bandwidth_score r
             /\ rec_bandwidth_score r
                <= AIAutomationAgent._calculate_current_score m) ->
  AIAutomationAgent._check_band_switch self cfg w now m = w.
Proof.
  intros [T0 T1] Hrows. unfold AIAutomationAgent._check_band_switch.
  destruct (DataLogger.get_metrics_summary (AIAutomationAgent.data_logger self)
              (files w) now 1) as [s|] eqn:Hs; [|reflexivity].
  destruct (summary_inversion _ _ _ _ _ Hs) as (_ & Hne & _ & _ & _ & Ha & _).
  assert (Hm : 0 <= DataLogger.average_bandwidth_score s
               <= AIAutomationAgent._calculate_current_score m).
  { rewrite Ha. apply mean_bounds.
    - intro E. apply map_eq_nil in E. contradiction.
    - intros x Hx. apply in_map_iff in Hx. destruct Hx as (r & <- & Hr).
      apply Hrows. exact Hr. }
  destruct Hm as [M0 M1].
  assert (Hp : DataLogger.average_bandwidth_score s * auto_switch_threshold cfg
               <= DataLogger.average_bandwidth_score s * 1).
  { apply Qmult_le_compat_nonneg; split; try assumption; qlra. }
  assert (E : Qlt_bool (AIAutomationAgent._calculate_current_score m)
                (DataLogger.average_bandwidth_score s
                 * auto_switch_threshold cfg) = false).
  { apply Qlt_bool_false_iff. qlra. }
  rewrite E. reflexivity.
Qed.



(** X18.  The first sample of a new log never starts a switch.  On a log
    that holds its header only, one turn of the monitoring loop with a
    router that answers asks for the signal once, logs the sample and does
    nothing else, whether automatic switching is on or off and whatever the
    faults met while logging, as long as the threshold lies between 0
    and 1. *)
Theorem first_sample_never_switches :
  forall (self : AIAutomationAgent.t) (cfg : MonitoringConfig) (io : Faults)
         (w : World) (now : Z) (m : SignalMetrics)
         (rest : list (option SignalMetrics)),
    csv (files w) = Some (mkCsvFile true []) ->
    feed w = Some m :: rest ->
    0 <= auto_switch_threshold cfg <= 1 ->
    let w' := AIAutomationAgent.monitor_loop_body self cfg io w now in
    trace w' = trace w ++ [GetSignal]
    /\ feed w' = rest
    /\ files w'
       = snd (DataLogger.log_metrics (AIAutomationAgent.data_logger self) io
                (files w) m).
Proof.
  intros self cfg io w now m rest Hc Hfeed HT w'.
  set (fs1 := snd (DataLogger.log_metrics (AIAutomationAgent.data_logger self)
                     io (files w) m)).
  assert (Hw : w' = mkWorld fs1 rest (accepts w) (trace w ++ [GetSignal])).
  { unfold w', AIAutomationAgent.monitor_loop_body,
      HuaweiRouter.get_signal_metrics. rewrite Hfeed.
    cbn [files feed accepts trace]. fold fs1.
    unfold AIAutomationAgent.on_sample.
    destruct (AIAutomationAgent.auto_switch_enabled self); [|reflexivity].
    apply check_band_switch_not_degraded; [exact HT|].
    cbn [files]. intros r Hr.
    unfold DataLogger.recent in Hr. apply filter_In in Hr. destruct Hr as [Hr _].
    assert (Hrows : csv_records fs1 = [] \/ csv_records fs1 = [DataLogger.record_of m]).
    { destruct (csv_append_fails io) eqn:Ef.
      - left. unfold fs1. rewrite log_metrics_result, Ef. cbn [snd].
        unfold csv_records. rewrite Hc. reflexivity.
      - right.
        assert (Hok : fst (DataLogger.log_metrics
                             (AIAutomationAgent.data_logger self) io (files w) m)
                      = true) by (rewrite log_metrics_result, Ef; reflexivity).
        unfold fs1, csv_records.
        rewrite (log_metrics_csv _ _ _ _ Hok), Hc. reflexivity. }
    destruct Hrows as [E | E]; rewrite E in Hr; [contradiction|].
    destruct Hr as [<- | []].
    cbn [DataLogger.record_of rec_bandwidth_score].
    destruct (bandwidth_score_bounds m) as [L _].
    split; [exact L|].
    change (AIAutomationAgent._calculate_current_score m)
      with (DataLogger._calculate_bandwidth_score m).
    apply Qle_refl. }
  rewrite Hw. cbn [trace feed files]. auto.
Qed.

(** A very weak first sample on a new log, automatic switching on: it is
    logged and nothing else happens. *)
Lemma first_sample_never_switches_witness :
  trace (AIAutomationAgent.monitor_loop_body agent MONITORING_CONFIG no_faults
           (mkWorld fresh_files [Some (sample (9 * usec_per_hour) "B7" (-10) (-140))]
              (fun _ => true) [])
           (9 * usec_per_hour))
  = [GetSignal].
Proof.
  destruct (first_sample_never_switches agent MONITORING_CONFIG no_faults
              (mkWorld fresh_files
                 [Some (sample (9 * usec_per_hour) "B7" (-10) (-140))]
                 (fun _ => true) [])
              (9 * usec_per_hour)
              (sample (9 * usec_per_hour) "B7" (-10) (-140)) []
              eq_refl eq_refl) as (H & _).
  - split; vm_compute; discriminate.
  - exact H.
Defined.

(** ** The peak test, continued *)

Lemma is_peak_hour_step name period rest h :
  AIAutomationAgent.is_peak_hour ((name, period) :: rest) h
  = match period_hours period with
    | Some (start_hour, end_hour) =>
        if ((start_hour <=? h) && (h <=? end_hour))%Z then Some true
        else AIAutomationAgent.is_peak_hour rest h
    | None => None
    end.
Proof.
  cbn [AIAutomationAgent.is_peak_hour]. unfold period_hours.
  destruct (py_int (split_colon_head (period_start period)));
    destruct (py_int (split_colon_head (period_end period))); reflexivity.
Qed.

(** X19.  The peak test of [optimize_for_peak_hours].  When every
    configured period has a start and an end hour that parse, the test
    answers, and it answers "peak" exactly when the hour lies between the
    start hour and the end hour of some period, both ends included.  The
    test fails (and the optimisation is abandoned) only if some period has
    an hour that does not parse. *)
Theorem is_peak_hour_characterised :
  forall (periods : list (string * Period)) (h : Z),
    (Forall (fun np => period_hours (snd np) <> None) periods ->
     exists b,
       AIAutomationAgent.is_peak_hour periods h = Some b
       /\ (b = true <->
           exists name p start_hour end_hour,
             In (name, p) periods
             /\ period_hours p = Some (start_hour, end_hour)
             /\ (start_hour <= h <= end_hour)%Z))
    /\ (AIAutomationAgent.is_peak_hour periods h = None ->
        exists name p, In (name, p) periods /\ period_hours p = None).
Proof.
  intros periods h. induction periods as [|[name p] rest [IH1 IH2]].
  - split.
    + intros _. exists false. split; [reflexivity|]. split; [discriminate|].
      intros (n & q & a & b & [] & _).
    + discriminate.
  - rewrite is_peak_hour_step. split.
    + intro F. inversion F as [|? ? Hp F']; subst. cbn [snd] in Hp.
      destruct (period_hours p) as [[sh eh]|] eqn:E; [|congruence].
      destruct ((sh <=? h) && (h <=? eh))%Z eqn:C.
      * exists true. split; [reflexivity|]. split; [|reflexivity]. intros _.
        exists name, p, sh, eh. apply andb_true_iff in C. destruct C as [C1 C2].
        apply Z.leb_le in C1. apply Z.leb_le in C2.
        split; [left; reflexivity|]. split; [exact E | lia].
      * destruct (IH1 F') as (b & Hb & Hiff). exists b. split; [exact Hb|].
        rewrite Hiff. split.
        -- intros (n & q & a & c & Hin & Hq & Hr).
           exists n, q, a, c. split; [right; exact Hin | auto].
        -- intros (n & q & a & c & [Hin | Hin] & Hq & Hr).
           ++ injection Hin as <- <-. rewrite E in Hq. injection Hq as <- <-.
              apply andb_false_iff in C.
              destruct C as [C | C]; apply Z.leb_gt in C; lia.
           ++ exists n, q, a, c. auto.
    + destruct (period_hours p) as [[sh eh]|] eqn:E.
      * destruct ((sh <=? h) && (h <=? eh))%Z; [discriminate|].
        intro H. destruct (IH2 H) as (n & q & Hin & Hq).
        exists n, q. split; [right; exact Hin | exact Hq].
      * intros _. exists name, p. split; [left; reflexivity | exact E].
Qed.

(** The configured periods at 08:00. *)
Lemma is_peak_hour_characterised_witness :
  exists b,
    AIAutomationAgent.is_peak_hour (peak_hours MONITORING_CONFIG) 8 = Some b
    /\ (b = true <->
        exists name p start_hour end_hour,
          In (name, p) (peak_hours MONITORING_CONFIG)
          /\ period_hours p = Some (start_hour, end_hour)
          /\ (start_hour <= 8 <= end_hour)%Z).
Proof.
  destruct (is_peak_hour_characterised (peak_hours MONITORING_CONFIG) 8)
    as [H _].
  apply H. repeat constructor; cbn; discriminate.
Defined.

Lemma split_colon_head_app (hh mm : string) :
  colon_free hh = true ->
  split_colon_head (hh ++ String ":" mm) = hh.
Proof.
  induction hh as [|c hh IH]; intro H.
  - reflexivity.
  - cbn [colon_free] in H. apply andb_true_iff in H. destruct H as [Hc Hr].
    apply negb_true_iff in Hc.
    cbn [String.append split_colon_head]. rewrite Hc, (IH Hr). reflexivity.
Qed.

(** X20.  The minutes of a configured period are ignored: two periods whose
    start texts and end texts agree before the colon are treated alike by
    the peak test, at every hour. *)
Theorem minutes_are_ignored :
  forall (name : string) (h1 m1 m1' h2 m2 m2' : string)
         (rest : list (string * Period)) (h : Z),
    colon_free h1 = true ->
    colon_free h2 = true ->
    AIAutomationAgent.is_peak_hour
      ((name, mkPeriod (h1 ++ String ":" m1) (h2 ++ String ":" m2)) :: rest) h
    = AIAutomationAgent.is_peak_hour
        ((name, mkPeriod (h1 ++ String ":" m1') (h2 ++ String ":" m2')) :: rest) h.
Proof.
  intros name h1 m1 m1' h2 m2 m2' rest h H1 H2.
  rewrite !is_peak_hour_step. unfold period_hours.
  cbn [period_start period_end].
  rewrite !split_colon_head_app by assumption. reflexivity.
Qed.

(** A period from 07:59 to 09:01 is the period from 07:00 to 09:00: 07:00
    sharp counts as peak. *)
Lemma minutes_are_ignored_witness :
  AIAutomationAgent.is_peak_hour
    [("morning"%string, mkPeriod "07:59" "09:01")] 7
  = Some true.
Proof.
  change (AIAutomationAgent.is_peak_hour
            [("morning"%string,
              mkPeriod ("07" ++ String ":" "59") ("09" ++ String ":" "01"))] 7
          = Some true).
  rewrite (minutes_are_ignored "morning" "07" "59" "00" "09" "01" "00" [] 7
             eq_refl eq_refl).
  reflexivity.
Defined.

(** X21.  The two notions of peak hour in the agent agree, and so does the
    schedule: with the periods of config.py an hour passes the peak test
    exactly when it is one of the hours 7, 8, 9, 17, 18, 19 that the band
    analysis counts as peak; the runs registered at 07:00 and 17:00 take
    the peak branch and those registered at 10:00 and 20:00 the off-peak
    branch. *)
Theorem peak_hours_are_consistent :
  (forall h : Z,
     AIAutomationAgent.is_peak_hour (peak_hours MONITORING_CONFIG) h
     = Some (AIAutomationAgent.in_hours AIAutomationAgent.analysis_peak_hours h))
  /\ (forall t, In t scheduled_peak_times ->
        exists h, hour_of_schedule t = Some h
                  /\ AIAutomationAgent.is_peak_hour
                       (peak_hours MONITORING_CONFIG) h = Some true)
  /\ (forall t, In t scheduled_off_peak_times ->
        exists h, hour_of_schedule t = Some h
                  /\ AIAutomationAgent.is_peak_hour
                       (peak_hours MONITORING_CONFIG) h = Some false).
Proof.
  split; [|split].
  - intro h. rewrite is_peak_hour_default. f_equal.
    unfold AIAutomationAgent.in_hours, AIAutomationAgent.analysis_peak_hours.
    cbn [existsb].
    destruct (Z.leb_spec 7 h); destruct (Z.leb_spec h 9);
      destruct (Z.leb_spec 17 h); destruct (Z.leb_spec h 19);
      destruct (Z.eqb_spec h 7); destruct (Z.eqb_spec h 8);
      destruct (Z.eqb_spec h 9); destruct (Z.eqb_spec h 17);
      destruct (Z.eqb_spec h 18); destruct (Z.eqb_spec h 19);
      cbn; try reflexivity; lia.
  - intros t [<- | [<- | []]]; eexists; split; reflexivity.
  - intros t [<- | [<- | []]]; eexists; split; reflexivity.
Qed.

(** The run registered at 17:00. *)
Lemma peak_hours_are_consistent_witness :
  exists h, hour_of_schedule "17:00" = Some h
            /\ AIAutomationAgent.is_peak_hour (peak_hours MONITORING_CONFIG) h
               = Some true.
Proof.
  destruct peak_hours_are_consistent as (_ & H & _).
  apply H. right. left. reflexivity.
Defined.

(** ** The two optimising switches *)

Lemma current_band_once_shape w :
  trace (snd (AIAutomationAgent.current_band_once w)) = trace w ++ [GetSignal]
  /\ files (snd (AIAutomationAgent.current_band_once w)) = files w
  /\ fst (AIAutomationAgent.current_band_once w)
     = match feed w with
       | Some m :: _ => Some (band m)
       | _ => None
       end.
Proof.
  unfold AIAutomationAgent.current_band_once, HuaweiRouter.get_signal_metrics.
  destruct (feed w) as [|[m|] rest]; cbn; auto.
Qed.

Lemma switch_if_different_shape w l c :
  trace (AIAutomationAgent.switch_if_different w l c)
  = trace w ++ (if truthy l && label_differs l c then [SetBand l] else [])
  /\ files (AIAutomationAgent.switch_if_different w l c) = files w.
Proof.
  unfold AIAutomationAgent.switch_if_different, HuaweiRouter.set_lte_band.
  destruct (truthy l && label_differs l c); cbn; rewrite ?app_nil_r; auto.
Qed.

(** The shape of a run of one of the two optimising switches: the files are
    not touched; either nothing is asked and nothing sent, or the signal is
    asked once and then at most one command is sent. *)
Lemma optimising_switch_shape w l :
  let w' := AIAutomationAgent.switch_if_different
              (snd (AIAutomationAgent.current_band_once w)) l
              (fst (AIAutomationAgent.current_band_once w)) in
  files w' = files w
  /\ exists commands, trace w' = trace w ++ [GetSignal] ++ map SetBand commands
                      /\ (List.length commands <= 1)%nat.
Proof.
  cbv zeta. destruct (current_band_once_shape w) as (Ht & Hf & _).
  destruct (switch_if_different_shape
              (snd (AIAutomationAgent.current_band_once w)) l
              (fst (AIAutomationAgent.current_band_once w))) as [Hs Hsf].
  split; [congruence|]. rewrite Hs, Ht, <- app_assoc.
  destruct (truthy l && label_differs l _).
  - exists [l]. split; [reflexivity | cbn; lia].
  - exists []. split; [reflexivity | cbn; lia].
Qed.

(** X22.  [optimize_for_peak_hours] never touches the files; it asks the
    router for its signal at most once and sends at most one band command,
    and none without having asked.  It does nothing at all when a configured
    period has an hour that does not parse before a matching period is met,
    and when the band comparison fails or is empty. *)
Theorem optimize_for_peak_hours_is_cautious :
  forall (self : AIAutomationAgent.t) (cfg : MonitoringConfig) (w : World)
         (now : Z),
    let w' := AIAutomationAgent.optimize_for_peak_hours self cfg w now in
    let comparison :=
      DataLogger.export_band_comparison (AIAutomationAgent.data_logger self)
        (files w) in
    files w' = files w
    /\ (exists (polls : nat) (commands : list label),
          trace w' = trace w ++ repeat GetSignal polls ++ map SetBand commands
          /\ (polls <= 1)%nat /\ (List.length commands <= polls)%nat)
    /\ (AIAutomationAgent.is_peak_hour (peak_hours cfg) (hour now) = None ->
        w' = w)
    /\ (comparison = None \/ comparison = Some [] -> w' = w).
Proof.
  intros self cfg w now w' comparison.
  assert (Hquiet : w' = w ->
            files w' = files w
            /\ exists (polls : nat) (commands : list label),
                 trace w' = trace w ++ repeat GetSignal polls
                            ++ map SetBand commands
                 /\ (polls <= 1)%nat /\ (List.length commands <= polls)%nat).
  { intros ->. split; [reflexivity|]. exists 0%nat, []. cbn.
    rewrite app_nil_r. auto. }
  assert (Hrun : forall l,
            w' = AIAutomationAgent.switch_if_different
                   (snd (AIAutomationAgent.current_band_once w)) l
                   (fst (AIAutomationAgent.current_band_once w)) ->
            files w' = files w
            /\ exists (polls : nat) (commands : list label),
                 trace w' = trace w ++ repeat GetSignal polls
                            ++ map SetBand commands
                 /\ (polls <= 1)%nat /\ (List.length commands <= polls)%nat).
  { intros l ->. destruct (optimising_switch_shape w l) as (Hf & cmds & Ht & Hl).
    split; [exact Hf|]. exists 1%nat, cmds. auto. }
  assert (Hshape : files w' = files w
            /\ exists (polls : nat) (commands : list label),
                 trace w' = trace w ++ repeat GetSignal polls
                            ++ map SetBand commands
                 /\ (polls <= 1)%nat /\ (List.length commands <= polls)%nat).
  { unfold w', AIAutomationAgent.optimize_for_peak_hours in *.
    destruct (AIAutomationAgent.is_peak_hour (peak_hours cfg) (hour now))
      as [[|]|]; [| |apply Hquiet; reflexivity].
    - unfold AIAutomationAgent._switch_to_peak_optimized_band in *.
      destruct (DataLogger.export_band_comparison
                  (AIAutomationAgent.data_logger self) (files w))
        as [[|st stats]|]; try (apply Hquiet; reflexivity).
      destruct (idxmax _) as [best|]; [|apply Hquiet; reflexivity].
      apply (Hrun (Name best)).
      destruct (AIAutomationAgent.current_band_once w); reflexivity.
    - unfold AIAutomationAgent._switch_to_stability_optimized_band in *.
      destruct (DataLogger.export_band_comparison
                  (AIAutomationAgent.data_logger self) (files w))
        as [[|st stats]|]; try (apply Hquiet; reflexivity).
      destruct (idxmin_skipna _) as [best|]; [|apply Hquiet; reflexivity].
      apply (Hrun best).
      destruct (AIAutomationAgent.current_band_once w); reflexivity. }
  destruct Hshape as [Hf Ht]. split; [exact Hf|]. split; [exact Ht|]. split.
  - intro Hn. unfold w', AIAutomationAgent.optimize_for_peak_hours.
    rewrite Hn. reflexivity.
  - intro Hc. unfold w', AIAutomationAgent.optimize_for_peak_hours,
      AIAutomationAgent._switch_to_peak_optimized_band,
      AIAutomationAgent._switch_to_stability_optimized_band.
    fold comparison.
    destruct (AIAutomationAgent.is_peak_hour (peak_hours cfg) (hour now))
      as [[|]|]; destruct Hc as [-> | ->]; reflexivity.
Qed.

(** A log without any row: the optimisation does nothing. *)
Lemma optimize_for_peak_hours_is_cautious_witness :
  AIAutomationAgent.optimize_for_peak_hours agent MONITORING_CONFIG
    (mkWorld fresh_files [Some first_sample] (fun _ => true) [])
    (8 * usec_per_hour)
  = mkWorld fresh_files [Some first_sample] (fun _ => true) [].
Proof.
  destruct (optimize_for_peak_hours_is_cautious agent MONITORING_CONFIG
              (mkWorld fresh_files [Some first_sample] (fun _ => true) [])
              (8 * usec_per_hour)) as (_ & _ & _ & H).
  apply H. right. reflexivity.
Defined.

Lemma export_inversion self fs stats :
  DataLogger.export_band_comparison self fs = Some stats ->
  option_map has_header (csv fs) = Some true
  /\ map DataLogger.stats_band stats = group_keys (csv_records fs)
  /\ forall st, In st stats ->
       DataLogger.sinr_mean st
       = round2 (mean (map rec_sinr
                         (rows_of_band (DataLogger.stats_band st)
                            (csv_records fs))))
       /\ DataLogger.bandwidth_score_std st
          = std_round2 (map rec_bandwidth_score
                          (rows_of_band (DataLogger.stats_band st)
                             (csv_records fs))).
Proof.
  unfold DataLogger.export_band_comparison, csv_records.
  destruct (csv fs) as [f|]; [|discriminate].
  destruct (has_header f) eqn:Eh; [|discriminate]. cbn [negb].
  destruct (DataLogger.timestamps_parse (csv_rows f)); [|discriminate].
  cbn [negb].
  intro H. injection H as <-. cbn [option_map]. rewrite Eh.
  split; [reflexivity|]. split.
  - rewrite map_map. cbn [DataLogger.stats_band]. apply map_id.
  - intros st Hin. apply in_map_iff in Hin. destruct Hin as (b & <- & _).
    cbn. auto.
Qed.

Lemma stats_band_not_na self fs stats st :
  DataLogger.export_band_comparison self fs = Some stats ->
  In st stats -> is_na (DataLogger.stats_band st) = false.
Proof.
  intros He Hin. destruct (export_inversion self fs stats He) as (_ & Hk & _).
  assert (H : In (DataLogger.stats_band st) (group_keys (csv_records fs))).
  { rewrite <- Hk. apply in_map. exact Hin. }
  apply group_keys_In in H. tauto.
Qed.

(** X23.  What the peak branch does on a non-empty band comparison, with a
    router that answers: it picks a band whose mean SINR in the comparison
    (the mean over the whole log, rounded to two decimals) is not exceeded
    by that of any other band, and sends exactly one command for it, unless
    the router reports that very band, in which case it sends none. *)
Theorem peak_branch_picks_highest_mean_sinr :
  forall (self : AIAutomationAgent.t) (w : World)
         (stats : list DataLogger.BandStats) (m : SignalMetrics)
         (rest : list (option SignalMetrics)),
    DataLogger.export_band_comparison (AIAutomationAgent.data_logger self)
      (files w) = Some stats ->
    stats <> [] ->
    feed w = Some m :: rest ->
    exists st,
      In st stats
      /\ (forall st', In st' stats ->
            DataLogger.sinr_mean st' <= DataLogger.sinr_mean st)
      /\ trace (AIAutomationAgent._switch_to_peak_optimized_band self w)
         = trace w ++ [GetSignal]
           ++ (if String.eqb (DataLogger.stats_band st) (band m) then []
               else [SetBand (Name (DataLogger.stats_band st))]).
Proof.
  intros self w stats m rest He Hne Hfeed.
  unfold AIAutomationAgent._switch_to_peak_optimized_band. rewrite He.
  destruct stats as [|st0 stats0]; [congruence|].
  set (stats := st0 :: stats0) in *.
  set (series := map (fun s => (DataLogger.stats_band s, DataLogger.sinr_mean s))
                     stats).
  unfold idxmax.
  destruct (argmax series) as [[k v]|] eqn:Ea.
  2:{ apply argmax_None in Ea. unfold series, stats in Ea. discriminate Ea. }
  destruct (argmax_spec _ _ _ Ea) as [Hin Hmax].
  unfold series in Hin. apply in_map_iff in Hin.
  destruct Hin as (st & Est & Hst). injection Est as Ek Ev.
  exists st. split; [exact Hst|]. split.
  - intros st' Hst'. rewrite Ev.
    apply (Hmax (DataLogger.stats_band st', DataLogger.sinr_mean st')).
    unfold series. apply in_map_iff. exists st'. auto.
  - cbn [option_map fst].
    destruct (current_band_once_shape w) as (Ht & _ & Hc).
    rewrite Hfeed in Hc.
    destruct (AIAutomationAgent.current_band_once w) as [c w1].
    cbn [fst snd] in Ht, Hc. subst c.
    destruct (switch_if_different_shape w1 (Name k) (Some (band m))) as [Hs _].
    rewrite Hs, Ht, <- app_assoc. f_equal. f_equal.
    pose proof (stats_band_not_na _ _ _ _ He Hst) as Hna.
    rewrite Ek in Hna. pose proof (not_na_not_empty _ Hna) as Hem.
    unfold truthy, label_differs. rewrite Hem, Ek. cbn [negb andb].
    destruct (String.eqb k (band m)); reflexivity.
Qed.

(** The scenario log with the router on B7: B3 has the higher mean SINR and
    the command for B3 is sent. *)
Lemma peak_branch_picks_highest_mean_sinr_witness :
  exists b,
    trace (AIAutomationAgent._switch_to_peak_optimized_band agent scenario_world)
    = [GetSignal] ++ (if String.eqb b "B7" then [] else [SetBand (Name b)]).
Proof.
  destruct (DataLogger.export_band_comparison logger (files scenario_world))
    as [stats|] eqn:E; [|vm_compute in E; discriminate E].
  destruct (peak_branch_picks_highest_mean_sinr agent scenario_world stats
              (sample (9 * usec_per_hour) "B7" 5 (-100))
              [Some (sample (9 * usec_per_hour) "B7" 5 (-100))])
    as (st & _ & _ & Ht).
  - exact E.
  - vm_compute in E. injection E as <-. discriminate.
  - reflexivity.
  - exists (DataLogger.stats_band st). exact Ht.
Defined.

Lemma dropna_In (s : list (string * option Q)) k v :
  In (k, v) (dropna s) <-> In (k, Some v) s.
Proof.
  induction s as [|[k0 [v0|]] s IH]; cbn [dropna In].
  - tauto.
  - rewrite IH. split; intros [H | H]; auto; left; congruence.
  - rewrite IH. split; [auto|]. intros [H | H]; [discriminate H | exact H].
Qed.

(** X24.  What the off-peak branch does when the band comparison has a band
    with a standard deviation (a band with two rows or more), with a router
    that answers: among the bands that have one it picks a band whose
    standard deviation of the bandwidth score is not above that of any
    other, bands with a single row being left aside, and sends exactly one
    command for it unless the router reports that very band. *)
Theorem stability_branch_picks_lowest_std :
  forall (self : AIAutomationAgent.t) (w : World)
         (stats : list DataLogger.BandStats) (m : SignalMetrics)
         (rest : list (option SignalMetrics)),
    DataLogger.export_band_comparison (AIAutomationAgent.data_logger self)
      (files w) = Some stats ->
    feed w = Some m :: rest ->
    (exists st, In st stats /\ DataLogger.bandwidth_score_std st <> None) ->
    exists st v,
      In st stats
      /\ DataLogger.bandwidth_score_std st = Some v
      /\ (forall st' v', In st' stats ->
            DataLogger.bandwidth_score_std st' = Some v' -> v <= v')
      /\ trace (AIAutomationAgent._switch_to_stability_optimized_band self w)
         = trace w ++ [GetSignal]
           ++ (if String.eqb (DataLogger.stats_band st) (band m) then []
               else [SetBand (Name (DataLogger.stats_band st))]).
Proof.
  intros self w stats m rest He Hfeed (st1 & Hst1 & Hstd1).
  unfold AIAutomationAgent._switch_to_stability_optimized_band. rewrite He.
  destruct stats as [|st0 stats0]; [contradiction|].
  set (stats := st0 :: stats0) in *.
  set (series := map (fun s => (DataLogger.stats_band s,
                                DataLogger.bandwidth_score_std s)) stats).
  assert (Hser : idxmin_skipna series
                 = match idxmin (dropna series) with
                   | Some k => Some (Name k)
                   | None => Some NaN
                   end) by reflexivity.
  rewrite Hser. unfold idxmin.
  destruct (argmin (dropna series)) as [[k v]|] eqn:Ea.
  2:{ apply argmin_None in Ea.
      destruct (DataLogger.bandwidth_score_std st1) as [v1|] eqn:E1;
        [|congruence].
      assert (Hin : In (DataLogger.stats_band st1, v1) (dropna series)).
      { apply dropna_In. unfold series. apply in_map_iff. exists st1.
        rewrite E1. auto. }
      rewrite Ea in Hin. contradiction. }
  destruct (argmin_spec _ _ _ Ea) as [Hin Hmin].
  apply dropna_In in Hin. unfold series in Hin. apply in_map_iff in Hin.
  destruct Hin as (st & Est & Hst). injection Est as Ek Ev.
  exists st, v. split; [exact Hst|]. split; [exact Ev|]. split.
  - intros st' v' Hst' Ev'.
    apply (Hmin (DataLogger.stats_band st', v')).
    apply dropna_In. unfold series. apply in_map_iff. exists st'.
    rewrite Ev'. auto.
  - cbn [option_map fst].
    destruct (current_band_once_shape w) as (Ht & _ & Hc).
    rewrite Hfeed in Hc.
    destruct (AIAutomationAgent.current_band_once w) as [c w1].
    cbn [fst snd] in Ht, Hc. subst c.
    destruct (switch_if_different_shape w1 (Name k) (Some (band m))) as [Hs _].
    rewrite Hs, Ht, <- app_assoc. f_equal. f_equal.
    pose proof (stats_band_not_na _ _ _ _ He Hst) as Hna.
    rewrite Ek in Hna. pose proof (not_na_not_empty _ Hna) as Hem.
    unfold truthy, label_differs. rewrite Hem, Ek. cbn [negb andb].
    destruct (String.eqb k (band m)); reflexivity.
Qed.

(** The scenario log with the router on B7: both bands have constant scores,
    so both have the standard deviation 0; a command is sent unless the
    chosen band is B7. *)
Lemma stability_branch_picks_lowest_std_witness :
  exists b,
    trace (AIAutomationAgent._switch_to_stability_optimized_band agent
             scenario_world)
    = [GetSignal] ++ (if String.eqb b "B7" then [] else [SetBand (Name b)]).
Proof.
  destruct (DataLogger.export_band_comparison logger (files scenario_world))
    as [stats|] eqn:E; [|vm_compute in E; discriminate E].
  destruct (stability_branch_picks_lowest_std agent scenario_world stats
              (sample (9 * usec_per_hour) "B7" 5 (-100))
              [Some (sample (9 * usec_per_hour) "B7" 5 (-100))])
    as (st & v & _ & _ & _ & Ht).
  - exact E.
  - reflexivity.
  - vm_compute in E. injection E as <-. eexists. split; [left; reflexivity|].
    discriminate.
  - exists (DataLogger.stats_band st). exact Ht.
Defined.

(** ** Testing the bands *)

Lemma measure_loop_result b start_time duration clock :
  forall w acc l w' clock',
    measure_loop b start_time duration clock w acc = Some (l, w', clock') ->
    files w' = files w /\ accepts w' = accepts w
    /\ exists (polls : nat) (extra : list SignalMetrics),
         trace w' = trace w ++ repeat GetSignal polls
         /\ l = acc ++ extra
         /\ (forall m, In m extra -> band m = b)
         /\ (List.length extra <= polls)%nat.
Proof.
  induction clock as [|t clock IH]; intros w acc l w' clock' H;
    [discriminate H|].
  cbn [measure_loop] in H.
  destruct (Qlt_bool (t - start_time) duration).
  - unfold HuaweiRouter.get_signal_metrics in H.
    destruct (feed w) as [|[m|] rest];
      apply IH in H; cbn [files accepts trace] in H;
      destruct H as (Hf & Ha & polls & extra & Ht & Hl & Hb & Hn);
      (split; [exact Hf|]); (split; [exact Ha|]).
    + exists (S polls), extra. rewrite Ht, <- app_assoc.
      repeat split; try assumption. lia.
    + exists (S polls), (with_band m b :: extra). rewrite Ht, <- !app_assoc.
      repeat split; try reflexivity.
      * rewrite Hl, <- app_assoc. reflexivity.
      * intros x [<- | Hx]; [reflexivity | apply Hb; exact Hx].
      * cbn [List.length]. lia.
    + exists (S polls), extra. rewrite Ht, <- app_assoc.
      repeat split; try assumption. lia.
  - injection H as <- <- <-. split; [reflexivity|]. split; [reflexivity|].
    exists 0%nat, []. cbn. rewrite !app_nil_r.
    repeat split; try lia; try (intros ? []).
Qed.

Lemma measure_loop_returns b start_time duration clock :
  Exists (fun t => duration <= t - start_time) clock ->
  forall w acc, measure_loop b start_time duration clock w acc <> None.
Proof.
  induction clock as [|t clock IH]; intros E w acc.
  - inversion E.
  - cbn [measure_loop].
    destruct (Qlt_bool (t - start_time) duration) eqn:C; [|discriminate].
    apply Qlt_bool_iff in C.
    inversion E as [? ? Ht | ? ? Et]; subst; [qlra|].
    destruct (HuaweiRouter.get_signal_metrics w) as [metrics w1].
    apply IH. exact Et.
Qed.

(** X25.  [test_band_performance].  If the router refuses the band
    command, the test returns no sample and asks for no signal.  If it
    accepts, the test ends as soon as the clock has advanced by the
    duration.  Every sample returned carries the name of the band under
    test, whatever band the router reported; the files are not touched;
    and the calls made are the one command followed by signal requests,
    at least as many as there are samples. *)
Theorem test_band_performance_relabels :
  forall (w : World) (b : string) (duration : Q) (clock : list Q),
    (accepts w (Name b) = false ->
     test_band_performance w b duration clock
     = Some ([], mkWorld (files w) (feed w) (accepts w)
                   (trace w ++ [SetBand (Name b)]), clock))
    /\ (forall start_time rest,
          accepts w (Name b) = true -> clock = start_time :: rest ->
          Exists (fun t => duration <= t - start_time) rest ->
          test_band_performance w b duration clock <> None)
    /\ (forall l w' clock',
          test_band_performance w b duration clock = Some (l, w', clock') ->
          (forall m, In m l -> band m = b)
          /\ files w' = files w
          /\ exists polls : nat,
               trace w' = trace w ++ [SetBand (Name b)]
                          ++ repeat GetSignal polls
               /\ (List.length l <= polls)%nat).
Proof.
  intros w b duration clock.
  unfold test_band_performance, HuaweiRouter.set_lte_band.
  split; [|split].
  - intros ->. reflexivity.
  - intros start_time rest -> -> E. apply measure_loop_returns. exact E.
  - intros l w' clock' H. destruct (accepts w (Name b)).
    + destruct clock as [|start_time rest]; [discriminate H|].
      apply measure_loop_result in H. cbn [files accepts trace] in H.
      destruct H as (Hf & _ & polls & extra & Ht & Hl & Hb & Hn).
      cbn [app] in Hl. subst l.
      split; [exact Hb|]. split; [exact Hf|]. exists polls.
      rewrite Ht, <- app_assoc. auto.
    + injection H as <- <- <-. split; [intros m []|]. split; [reflexivity|].
      exists 0%nat. cbn. auto.
Qed.

(** The first band of the test: two samples, both relabelled. *)
Lemma test_band_performance_relabels_witness :
  exists l w' clock',
    test_band_performance test_world "B3" 60 test_clock = Some (l, w', clock')
    /\ forall m, In m l -> band m = "B3"%string.
Proof.
  destruct (test_band_performance test_world "B3" 60 test_clock)
    as [[[l w'] clock']|] eqn:E; [|vm_compute in E; discriminate E].
  exists l, w', clock'. split; [reflexivity|].
  destruct (test_band_performance_relabels test_world "B3" 60 test_clock)
    as (_ & _ & H).
  destruct (H l w' clock' E) as (Hb & _). exact Hb.
Defined.

Lemma test_band_performance_samples w b duration clock l w' clock' :
  test_band_performance w b duration clock = Some (l, w', clock') ->
  (forall m, In m l -> band m = b) /\ files w' = files w.
Proof.
  unfold test_band_performance, HuaweiRouter.set_lte_band. intro H.
  destruct (accepts w (Name b)).
  - destruct clock as [|start_time rest]; [discriminate H|].
    apply measure_loop_result in H. cbn [files accepts trace] in H.
    destruct H as (Hf & _ & polls & extra & _ & Hl & Hb & _).
    cbn [app] in Hl. subst l. auto.
  - injection H as <- <- <-. split; [intros m []|reflexivity].
Qed.

Lemma log_metrics_records_incl self io fs m r :
  In r (csv_records (snd (DataLogger.log_metrics self io fs m))) ->
  In r (csv_records fs) \/ r = DataLogger.record_of m.
Proof.
  destruct (csv_append_fails io) eqn:Ef.
  - rewrite log_metrics_result, Ef. cbn [snd]. auto.
  - assert (Hok : fst (DataLogger.log_metrics self io fs m) = true)
      by (rewrite log_metrics_result, Ef; reflexivity).
    unfold csv_records at 1. rewrite (log_metrics_csv _ _ _ _ Hok).
    rewrite append_row_records. intro H. apply in_app_or in H.
    destruct H as [H | [<- | []]]; auto.
Qed.

Lemma log_batch_records_incl self io ms :
  forall fs r,
    In r (csv_records (snd (DataLogger.log_batch_metrics self io fs ms))) ->
    In r (csv_records fs) \/ In r (map DataLogger.record_of ms).
Proof.
  induction ms as [|m ms IH]; intros fs r H.
  - left. exact H.
  - rewrite log_batch_cons in H. apply IH in H. destruct H as [H | H].
    + apply log_metrics_records_incl in H. destruct H as [H | ->].
      * left. exact H.
      * right. left. reflexivity.
    + right. right. exact H.
Qed.

Lemma analysis_band_and_score b l :
  perf_band (AIAutomationAgent._analyze_band_performance b l) = b
  /\ 0 <= avg_bandwidth_score (AIAutomationAgent._analyze_band_performance b l)
     <= 1.
Proof.
  destruct l as [|m l].
  - cbn. split; [reflexivity | split; qlra].
  - split; [reflexivity|].
    change (avg_bandwidth_score
              (AIAutomationAgent._analyze_band_performance b (m :: l)))
      with (mean (map DataLogger._calculate_bandwidth_score (m :: l))).
    apply mean_bounds; [simpl; discriminate|].
    apply bandwidth_scores_unit_interval.
Qed.

Lemma dict_set_In {A} (d : list (string * A)) k v k' v' :
  In (k', v') (dict_set d k v) -> (k' = k /\ v' = v) \/ In (k', v') d.
Proof.
  induction d as [|[k0 v0] d IH]; cbn [dict_set].
  - intros [H | []]. left. injection H as <- <-. auto.
  - destruct (String.eqb k0 k) eqn:E.
    + apply String.eqb_eq in E. subst k0. intros [H | H].
      * left. injection H as <- <-. auto.
      * right. right. exact H.
    + intros [H | H]; [right; left; exact H|].
      apply IH in H. destruct H as [H | H]; [left; exact H | right; right; exact H].
Qed.

Lemma dict_set_keys {A} (d : list (string * A)) k v x :
  In x (map fst (dict_set d k v)) <-> x = k \/ In x (map fst d).
Proof.
  induction d as [|[k0 v0] d IH]; cbn [dict_set map fst In].
  - intuition.
  - destruct (String.eqb k0 k) eqn:E; cbn [map fst In].
    + apply String.eqb_eq in E. subst k0. intuition.
    + rewrite IH. intuition.
Qed.

Lemma dict_set_NoDup {A} (d : list (string * A)) k v :
  NoDup (map fst d) -> NoDup (map fst (dict_set d k v)).
Proof.
  induction d as [|[k0 v0] d IH]; cbn [dict_set map fst]; intro N.
  - constructor; [intros [] | constructor].
  - inversion N as [|? ? Hn N']; subst.
    destruct (String.eqb k0 k) eqn:E; cbn [map fst].
    + constructor; assumption.
    + constructor; [|apply IH; exact N'].
      rewrite dict_set_keys. intros [-> | H]; [|contradiction].
      rewrite String.eqb_refl in E. discriminate E.
Qed.

(** What the loop of [test_all_bands] keeps true of its dictionary and of
    the CSV file. *)
Lemma test_bands_loop_invariant self io duration all bands :
  forall w clock acc results w' clock',
    incl bands all ->
    test_bands_loop self io duration bands w clock acc
    = Some (results, w', clock') ->
    ((forall b p, In (b, p) acc ->
        In b all /\ perf_band p = b /\ 0 <= avg_bandwidth_score p <= 1) ->
     forall b p, In (b, p) results ->
        In b all /\ perf_band p = b /\ 0 <= avg_bandwidth_score p <= 1)
    /\ (NoDup (map fst acc) -> NoDup (map fst results))
    /\ (forall r, In r (csv_records (files w')) ->
          In r (csv_records (files w)) \/ In (rec_band r) all).
Proof.
  induction bands as [|b bands IH]; intros w clock acc results w' clock' Hi H.
  - cbn in H. injection H as <- <- <-. auto.
  - cbn [test_bands_loop] in H.
    assert (Hb : In b all) by (apply Hi; left; reflexivity).
    assert (Hi' : incl bands all)
      by (intros x Hx; apply Hi; right; exact Hx).
    destruct (test_band_performance w b duration clock)
      as [[[l w1] clock1]|] eqn:Et; [|discriminate H].
    destruct (test_band_performance_samples _ _ _ _ _ _ _ Et) as [Hl Hf].
    destruct l as [|m l].
    + destruct (IH _ _ _ _ _ _ Hi' H) as (I1 & I2 & I3).
      split; [exact I1|]. split; [exact I2|].
      intros r Hr. rewrite <- Hf. apply I3. exact Hr.
    + destruct (IH _ _ _ _ _ _ Hi' H) as (I1 & I2 & I3).
      cbn [files] in I3. split; [|split].
      * intros Hacc. apply I1. intros b' p' Hin.
        apply dict_set_In in Hin. destruct Hin as [[-> ->] | Hin].
        -- split; [exact Hb|]. apply analysis_band_and_score.
        -- apply Hacc. exact Hin.
      * intro N. apply I2. apply dict_set_NoDup. exact N.
      * intros r Hr. apply I3 in Hr. destruct Hr as [Hr | Hr]; [|auto].
        apply log_batch_records_incl in Hr. rewrite Hf in Hr.
        destruct Hr as [Hr | Hr]; [auto|].
        apply in_map_iff in Hr. destruct Hr as (x & <- & Hx).
        right. cbn [DataLogger.record_of rec_band].
        rewrite (Hl x Hx). exact Hb.
Qed.

(** X26.  [test_all_bands], when the tests come to their end.  If no band
    yielded a sample the agent is left as it was.  Otherwise the best band
    it records is a band of the results whose mean bandwidth score is not
    exceeded by that of any other result.  Every result belongs to a band
    the router (or the default list) named, carries that band's name and a
    mean score between 0 and 1, and no band has two results.  The logger
    and the automatic-switch flag of the agent are unchanged, and every row
    added to the CSV file carries the name of a band under test. *)
Theorem test_all_bands_picks_best :
  forall (self : AIAutomationAgent.t) (io : Faults)
         (answer : option (option (list string))) (duration : Q)
         (w : World) (clock : list Q)
         (results : list (string * BandPerformance))
         (self' : AIAutomationAgent.t) (w' : World) (clock' : list Q),
    test_all_bands self io answer duration w clock
    = Some (results, self', w', clock') ->
    (results = [] -> self' = self)
    /\ (results <> [] ->
        exists b p,
          AIAutomationAgent.current_best_band self' = Some b
          /\ In (b, p) results
          /\ forall b' p', In (b', p') results ->
               avg_bandwidth_score p' <= avg_bandwidth_score p)
    /\ (forall b p, In (b, p) results ->
          In b (get_available_bands answer) /\ perf_band p = b
          /\ 0 <= avg_bandwidth_score p <= 1)
    /\ NoDup (map fst results)
    /\ AIAutomationAgent.data_logger self' = AIAutomationAgent.data_logger self
    /\ AIAutomationAgent.auto_switch_enabled self'
       = AIAutomationAgent.auto_switch_enabled self
    /\ (forall r, In r (csv_records (files w')) ->
          In r (csv_records (files w))
          \/ In (rec_band r) (get_available_bands answer)).
Proof.
  intros self io answer duration w clock results self' w' clock' H.
  unfold test_all_bands in H.
  destruct (test_bands_loop self io duration (get_available_bands answer)
              w clock []) as [[[res w1] clock1]|] eqn:El; [|discriminate H].
  injection H as -> <- -> ->.
  destruct (test_bands_loop_invariant self io duration
              (get_available_bands answer) (get_available_bands answer)
              w clock [] results w' clock' (incl_refl _) El)
    as (I1 & I2 & I3).
  split; [intros ->; reflexivity|]. split.
  - intro Hne. destruct results as [|kv results0]; [congruence|].
    set (results := kv :: results0) in *.
    set (series := map (fun kv => (fst kv, avg_bandwidth_score (snd kv)))
                       results).
    cbn [AIAutomationAgent.current_best_band]. unfold idxmax.
    destruct (argmax series) as [[k v]|] eqn:Ea.
    2:{ apply argmax_None in Ea. unfold series, results in Ea.
        discriminate Ea. }
    destruct (argmax_spec _ _ _ Ea) as [Hin Hmax].
    unfold series in Hin. apply in_map_iff in Hin.
    destruct Hin as ([b p] & Ekv & Hp). cbn [fst snd] in Ekv.
    injection Ekv as -> Ev.
    exists k, p. split; [reflexivity|]. split; [exact Hp|].
    intros b' p' Hp'. rewrite Ev.
    apply (Hmax (b', avg_bandwidth_score p')).
    unfold series. apply in_map_iff. exists (b', p'). auto.
  - split; [apply I1; intros b p []|]. split; [apply I2; constructor|].
    split; [destruct results; reflexivity|].
    split; [destruct results; reflexivity | exact I3].
Qed.

(** The test of B3 and B7 on [test_world]: B3 is recorded as best. *)
Lemma test_all_bands_picks_best_witness :
  exists results self' w' clock',
    test_all_bands agent no_faults (Some (Some ["B3"; "B7"]%string)) 60
      test_world test_clock = Some (results, self', w', clock')
    /\ NoDup (map fst results)
    /\ exists b p,
         AIAutomationAgent.current_best_band self' = Some b
         /\ In (b, p) results.
Proof.
  destruct (test_all_bands agent no_faults (Some (Some ["B3"; "B7"]%string)) 60
              test_world test_clock)
    as [[[[results self'] w'] clock']|] eqn:E.
  2:{ cbv -[np_std Rminus IZR] in E. discriminate E. }
  exists results, self', w', clock'. split; [reflexivity|].
  destruct (test_all_bands_picks_best _ _ _ _ _ _ _ _ _ _ E)
    as (_ & Hbest & _ & Hnd & _).
  split; [exact Hnd|].
  destruct Hbest as (b & p & Hb & Hp & _).
  - cbv -[np_std Rminus IZR] in E. injection E as <- _ _ _. discriminate.
  - exists b, p. auto.
Defined.
